(** * Pyro5 server core: a shallow embedding of [Pyro5/server.py]

    The development follows the layout of the source file: the private-name
    test and the exposed-member reflection, the object registry of the
    daemon ([register], [unregister], [uriFor]), the instance manager
    ([_getInstance]), the iterator-stream registry ([_streamResponse],
    [DaemonObject.get_next_stream_item], the cleanup on disconnect and by
    the housekeeper) and the request dispatcher ([handleRequest],
    [_sendExceptionResponse]).

    Python objects live in a heap indexed by references, so that the
    aliasing between the registry, the connection and the objects
    themselves is the one of the source.  Effects (mutation of the daemon,
    of objects and of the connection, and raised exceptions) are threaded
    through a state-and-exception monad. *)

From Stdlib Require Import ZArith Ascii String List Bool Lia.
From stdpp Require Import base option list gmap strings pretty.

Set Warnings "-register-all".
Open Scope string_scope.
Open Scope list_scope.

(** ** Exceptions *)

(** Modelled from the spec: the [errors] module is not among the sources;
    the error kinds are the ones of section 7 of the specification, with
    [ConnectionClosedError], [ProtocolError] (and below it
    [SerializationError]) as subtypes of [CommunicationError] and
    everything Pyro-specific below [PyroError].  The builtin classes are
    the ones the server raises itself or that the scenarios mention;
    [NameError] is what the evaluation of a name that is not bound
    raises. *)
Inductive exc_class :=
| AttributeError | TypeError | ValueError | IndexError | KeyError
| StopIteration | ZeroDivisionError | NameError
| PyroError | CommunicationError | ConnectionClosedError | ProtocolError
| SerializationError | SecurityError | DaemonError
| UserError (name : string).

Global Instance exc_class_eq_dec : EqDecision exc_class.
Proof. solve_decision. Defined.

(** Direct base class, [None] for the classes deriving from [Exception]
    itself. *)
Definition exc_base (c : exc_class) : option exc_class :=
  match c with
  | CommunicationError | SecurityError | DaemonError => Some PyroError
  | ConnectionClosedError | ProtocolError => Some CommunicationError
  | SerializationError => Some ProtocolError
  | _ => None
  end.

(** [issubclass c d]; the hierarchy has depth three below [PyroError]. *)
Definition issubclass (c d : exc_class) : bool :=
  let up o := o ≫= exc_base in
  bool_decide (Some c = Some d)
  || bool_decide (exc_base c = Some d)
  || bool_decide (up (exc_base c) = Some d)
  || bool_decide (up (up (exc_base c)) = Some d).

Definition class_name (c : exc_class) : string :=
  match c with
  | AttributeError => "AttributeError" | TypeError => "TypeError"
  | ValueError => "ValueError" | IndexError => "IndexError"
  | KeyError => "KeyError" | StopIteration => "StopIteration"
  | ZeroDivisionError => "ZeroDivisionError"
  | NameError => "NameError"
  | PyroError => "Pyro5.errors.PyroError"
  | CommunicationError => "Pyro5.errors.CommunicationError"
  | ConnectionClosedError => "Pyro5.errors.ConnectionClosedError"
  | ProtocolError => "Pyro5.errors.ProtocolError"
  | SerializationError => "Pyro5.errors.SerializationError"
  | SecurityError => "Pyro5.errors.SecurityError"
  | DaemonError => "Pyro5.errors.DaemonError"
  | UserError n => n
  end.

(** An exception object: its class, what [str] and [repr] give on it, and
    the two attributes the server reads or writes on it. *)
Record pyexc := {
  exc_type : exc_class;
  exc_str : string;
  exc_repr : string;
  exc_pyroTraceback : option (list string);
  exc_pyroMsg : option (Z * Z)   (* [pyroMsg.seq], [pyroMsg.serializer_id] *)
}.

(** [str(type(e))] *)
Definition type_str (e : pyexc) : string :=
  "<class '" +:+ class_name (exc_type e) +:+ "'>".

(** [cls(msg)]: for an exception built from one message, [str] is the
    message and [repr] is the class name applied to the quoted message. *)
Definition new_exc (cls : exc_class) (msg : string) : pyexc :=
  {| exc_type := cls; exc_str := msg;
     exc_repr := class_name cls +:+ "('" +:+ msg +:+ "')";
     exc_pyroTraceback := None; exc_pyroMsg := None |}.

Definition isinstance_exc (e : pyexc) (c : exc_class) : bool :=
  issubclass (exc_type e) c.

Definition set_pyroTraceback (tb : option (list string)) (e : pyexc) : pyexc :=
  {| exc_type := exc_type e; exc_str := exc_str e; exc_repr := exc_repr e;
     exc_pyroTraceback := tb; exc_pyroMsg := exc_pyroMsg e |}.

(** ** Private names *)

Definition _private_dunder_methods : list string := [
  "__init__"; "__call__"; "__new__"; "__del__"; "__repr__"; "__unicode__";
  "__str__"; "__format__"; "__nonzero__"; "__bool__"; "__coerce__";
  "__cmp__"; "__eq__"; "__ne__"; "__hash__";
  "__dir__"; "__enter__"; "__exit__"; "__copy__"; "__deepcopy__"; "__sizeof__";
  "__getattr__"; "__setattr__"; "__hasattr__"; "__getattribute__"; "__delattr__";
  "__instancecheck__"; "__subclasscheck__"; "__getinitargs__"; "__getnewargs__";
  "__getstate__"; "__setstate__"; "__reduce__"; "__reduce_ex__";
  "__getstate_for_dict__"; "__setstate_from_dict__"; "__subclasshook__"
].

(** [s.startswith(p)] *)
Definition startswith (s p : string) : bool := String.prefix p s.

(** [s.endswith(p)]: some tail of [s] is [p]. *)
Fixpoint endswith (s p : string) : bool :=
  String.eqb s p ||
  match s with
  | EmptyString => false
  | String _ s' => endswith s' p
  end.

Definition is_private_attribute (attr_name : string) : bool :=
  if bool_decide (attr_name ∈ _private_dunder_methods) then true
  else if negb (startswith attr_name "_") then false
  else if (4 <? String.length attr_name)%nat
          && startswith attr_name "__" && endswith attr_name "__" then false
  else true.

(** The wording of the specification: a name is private iff it is in the
    deny-list, or it starts with an underscore and is not a
    double-underscore-delimited name of length greater than 4. *)
Definition dunder_delimited (name : string) : Prop :=
  ∃ middle : string, name = "__" +:+ middle +:+ "__".

Definition private_name (name : string) : Prop :=
  name ∈ _private_dunder_methods
  ∨ ((∃ rest, name = String "_" rest)
     ∧ ¬ (dunder_delimited name ∧ (4 < String.length name)%nat)).

(** ** Values and objects *)

Definition objref := nat.
Definition connref := nat.

(** Values that travel through the dispatcher.  Everything with identity
    or mutable state (instances, classes, iterators) is a reference into
    the heap. *)
Inductive value :=
| VNone
| VBool (b : bool)
| VInt (n : Z)
| VStr (s : string)
| VTuple (xs : list value)
| VList (xs : list value)
| VDict (kv : list (value * value))
| VRef (r : objref)
| VExc (e : pyexc).                (* an exception object, as data *)

(** A function object with the tags the decorators [expose], [oneway] and
    [callback] put on it; [f_code] names its body. *)
Record pyfunction := {
  f_code : nat;
  f_pyroExposed : option bool;
  f_pyroOneway : option bool;
  f_pyroCallback : option bool
}.

(** [getattr(f, tag, default)] followed by the truth test. *)
Definition getattr_tag (tag : option bool) (default : bool) : bool :=
  match tag with Some b => b | None => default end.

(** What [getattr(cls, name)] can give, as far as the reflection layer
    distinguishes: a function or method, a property, another data
    descriptor (no [fget]/[fset]/[fdel] attributes), anything else. *)
Inductive member :=
| MFunction (f : pyfunction)
| MProperty (fget fset fdel : option pyfunction)
| MDescriptor
| MData.

Record pyclass := {
  c_attrs : list (string * member);          (* [dir(cls)] with [getattr] *)
  c_mro : list objref;                       (* the classes of [cls.__mro__[1:]] *)
  c_pyroInstancing : option (string * option pyfunction);
  c_init_raises : option pyexc;              (* [cls()] fails with this *)
  c_instances_truthy : bool                  (* [bool(cls())] *)
}.

Inductive iter_step :=
| Yield (v : value)
| Throw (e : pyexc).

(** An iterator object (a generator, a builtin iterator or an object of a
    class with [__next__]): the three type tests [_streamResponse] applies
    to it, and its items; [it_pos] is advanced in place by [next].  The
    lazy dict iterator types are the types of [{}.iterkeys()],
    [{}.itervalues()], [{}.iteritems()] before Python 3 and of [{}.keys()],
    [{}.values()], [{}.items()] from Python 3 on. *)
Record iterator := {
  it_isIterator : bool;        (* [isinstance(x, collections.Iterator)] *)
  it_isgenerator : bool;       (* [inspect.isgenerator(x)] *)
  it_lazy_dict : bool;         (* [type(x) in __lazy_dict_iterator_types] *)
  it_has_dict : bool;          (* the object has a [__dict__] *)
  it_pos : nat;
  it_items : nat → iter_step
}.

Inductive pykind :=
| KClass (c : pyclass)
| KInstance (cls : objref)
| KIterator (it : iterator).

(** A heap object.  [o_pyroId] and [o_pyroDaemon] are the attributes of
    the object's own [__dict__]; [o_truthy] is what [bool(obj)] gives. *)
Record pyobj := {
  o_kind : pykind;
  o_pyroId : option string;
  o_pyroDaemon : option nat;
  o_truthy : bool
}.

Definition set_pyroId (i : option string) (o : pyobj) : pyobj :=
  {| o_kind := o_kind o; o_pyroId := i;
     o_pyroDaemon := o_pyroDaemon o; o_truthy := o_truthy o |}.

Definition set_pyroDaemon (d : option nat) (o : pyobj) : pyobj :=
  {| o_kind := o_kind o; o_pyroId := o_pyroId o;
     o_pyroDaemon := d; o_truthy := o_truthy o |}.

Definition set_kind (k : pykind) (o : pyobj) : pyobj :=
  {| o_kind := k; o_pyroId := o_pyroId o;
     o_pyroDaemon := o_pyroDaemon o; o_truthy := o_truthy o |}.

(** ** Wire messages *)

(** Modelled from the spec: the [protocol] module is not among the
    sources.  Section 4.1 of the specification lists the message types and
    the flags; the flags are distinct single bits of the header's flag
    word. *)
Inductive msg_type :=
| MSG_CONNECT | MSG_CONNECTOK | MSG_CONNECTFAIL | MSG_INVOKE | MSG_RESULT | MSG_PING.

Global Instance msg_type_eq_dec : EqDecision msg_type.
Proof. solve_decision. Defined.

(** Modelled from the spec: the flag bits of the [protocol] module, one
    bit each; the server only tests, sets and combines them. *)
Definition FLAGS_EXCEPTION : Z := 1.
Definition FLAGS_COMPRESSED : Z := 2.
Definition FLAGS_ONEWAY : Z := 4.
Definition FLAGS_BATCH : Z := 8.
Definition FLAGS_ITEMSTREAMRESULT : Z := 16.

(** [flags & bit], as a truth value *)
Definition has_flag (flags bit : Z) : bool := negb (Z.land flags bit =? 0)%Z.

Record message := {
  msg_type_of : msg_type;
  msg_flags : Z;
  msg_seq : Z;
  msg_serializer_id : Z;
  msg_data : list Byte.byte;
  msg_annotations : gmap string (list Byte.byte)
}.

(** [protocol.SendingMessage(msgtype, flags, seq, serializer_id, data,
    annotations)]; what goes on the wire is kept as the message itself. *)
Definition SendingMessage (t : msg_type) (flags seq ser : Z)
    (data : list Byte.byte) (ann : gmap string (list Byte.byte)) : message :=
  {| msg_type_of := t; msg_flags := flags; msg_seq := seq;
     msg_serializer_id := ser; msg_data := data; msg_annotations := ann |}.

(** ** The daemon and its surroundings *)

Definition uuid := string.   (* a UUID, named by its canonical [str] *)

(** stream_id -> (client, creation_timestamp, linger_timestamp, stream) *)
Definition stream_entry : Type := option connref * Z * Z * objref.

Record Daemon := {
  d_self : nat;                                (* identity of the daemon *)
  locationStr : string;
  natLocationStr : option string;
  objectsById : gmap string objref;
  serializer_ids : list Z;                     (* [__serializer_ids] *)
  _pyroInstances : gmap objref objref;         (* class -> instance *)
  streaming_responses : gmap string stream_entry;
  mustshutdown : bool                          (* [__mustshutdown.is_set()] *)
}.

(** A connection object: the traffic on it and its session instances. *)
Record connection := {
  conn_inbox : list message;        (* what the peer has sent and is not yet read *)
  conn_sent : list message;
  conn_peername : string;
  conn_pyroInstances : gmap objref objref
}.

(** [core.current_context] *)
Record context := {
  correlation_id : option uuid;
  ctx_client : option connref;
  client_sock_addr : option string;
  ctx_seq : Z;
  ctx_annotations : gmap string (list Byte.byte);
  ctx_msg_flags : Z;
  ctx_serializer_id : Z
}.

Record configuration := {
  LOGWIRE : bool;
  COMPRESSION : bool;
  ONEWAY_THREADED : bool;
  ITER_STREAMING : bool;
  ITER_STREAM_LINGER : Z;
  ITER_STREAM_LIFETIME : Z;
  DETAILED_TRACEBACK : bool;
  AUTOPROXY : bool
}.

(** A name collection of the metadata: a set, or a list under
    [as_lists]. *)
Inductive names :=
| NameSet (s : gset string)
| NameList (l : list string).

Record exposed_members := {
  methods : names;
  oneway : names;
  attrs : names
}.

(** A call the dispatcher made: the function, the receiver, the
    arguments. *)
Record call_record := {
  called : pyfunction;
  call_self : objref;
  call_vargs : value;
  call_kwargs : value
}.

(** A started [_OnewayCallThread], with the context snapshot it took. *)
Record oneway_thread := {
  thread_target : pyfunction * objref;
  thread_args : value;
  thread_kwargs : value;
  parent_context : context
}.

Record world := {
  heap : gmap objref pyobj;
  daemon : Daemon;
  connections : gmap connref connection;
  current_context : context;
  config : configuration;
  __exposed_member_cache : gmap (objref * bool * bool) exposed_members;
  type_replacements : gset (option objref);   (* types hooked for auto-proxying *)
  uuid_calls : nat;                    (* how often [uuid.uuid4()] ran *)
  now : Z;                             (* [time.time()], in clock ticks *)
  call_log : list call_record;
  threads : list oneway_thread
}.

(** ** The state-and-exception monad *)

Inductive outcome (A : Type) :=
| Ok (a : A)
| Raise (e : pyexc).
Arguments Ok {A} a.
Arguments Raise {A} e.

(** Computations over a state [S]; [M] is the one over the [world]. *)
Definition St (S A : Type) : Type := S → outcome A * S.
Definition M (A : Type) : Type := St world A.

Definition ret {S A} (a : A) : St S A := λ w, (Ok a, w).
Definition raise {S A} (e : pyexc) : St S A := λ w, (Raise e, w).
Definition bind {S A B} (c : St S A) (k : A → St S B) : St S B :=
  λ w, match c w with
       | (Ok a, w') => k a w'
       | (Raise e, w') => (Raise e, w')
       end.
Definition get {S} : St S S := λ w, (Ok w, w).
Definition modify {S} (f : S → S) : St S unit := λ w, (Ok tt, f w).
(** [try: c except Exception as e: h e] *)
Definition try_except {S A} (c : St S A) (h : pyexc → St S A) : St S A :=
  λ w, match c w with
       | (Ok a, w') => (Ok a, w')
       | (Raise e, w') => h e w'
       end.
(** Lift a computation without effects. *)
Definition lift {S A} (o : outcome A) : St S A := λ w, (o, w).

Notation "'let!' x ':=' c 'in' k" := (bind c (λ x, k))
  (at level 10, x pattern, c at level 100, k at level 200).
Notation "'run!' c 'in' k" := (bind c (λ _, k))
  (at level 10, c at level 100, k at level 200).

(** ** Names the module does not bind

    The imports of the module (lines 7 to 19) bind [inspect],
    [collections], [logging], [sys], [os], [time], [threading], [uuid],
    [warnings], [serpent], [errors], [config], [core], [protocol],
    [serializers], [multiplexserver], [threadpoolserver] and [locateNS].
    Nothing in the module binds [util], [futures], [URI] or [Proxy]: a
    call whose function is reached through one of these names raises
    [NameError] when the name is evaluated, before any argument is. *)
Definition unbound {S A} (name : string) : St S A :=
  raise (new_exc NameError ("name '" +:+ name +:+ "' is not defined")).

(** ** State updates *)

Definition with_heap (f : gmap objref pyobj → gmap objref pyobj) (w : world) : world :=
  {| heap := f (heap w); daemon := daemon w; connections := connections w;
     current_context := current_context w; config := config w;
     __exposed_member_cache := __exposed_member_cache w;
     type_replacements := type_replacements w; uuid_calls := uuid_calls w;
     now := now w; call_log := call_log w; threads := threads w |}.

Definition with_daemon (f : Daemon → Daemon) (w : world) : world :=
  {| heap := heap w; daemon := f (daemon w); connections := connections w;
     current_context := current_context w; config := config w;
     __exposed_member_cache := __exposed_member_cache w;
     type_replacements := type_replacements w; uuid_calls := uuid_calls w;
     now := now w; call_log := call_log w; threads := threads w |}.

Definition with_connections (f : gmap connref connection → gmap connref connection)
    (w : world) : world :=
  {| heap := heap w; daemon := daemon w; connections := f (connections w);
     current_context := current_context w; config := config w;
     __exposed_member_cache := __exposed_member_cache w;
     type_replacements := type_replacements w; uuid_calls := uuid_calls w;
     now := now w; call_log := call_log w; threads := threads w |}.

Definition with_context (f : context → context) (w : world) : world :=
  {| heap := heap w; daemon := daemon w; connections := connections w;
     current_context := f (current_context w); config := config w;
     __exposed_member_cache := __exposed_member_cache w;
     type_replacements := type_replacements w; uuid_calls := uuid_calls w;
     now := now w; call_log := call_log w; threads := threads w |}.

Definition with_cache
    (f : gmap (objref * bool * bool) exposed_members → gmap (objref * bool * bool) exposed_members)
    (w : world) : world :=
  {| heap := heap w; daemon := daemon w; connections := connections w;
     current_context := current_context w; config := config w;
     __exposed_member_cache := f (__exposed_member_cache w);
     type_replacements := type_replacements w; uuid_calls := uuid_calls w;
     now := now w; call_log := call_log w; threads := threads w |}.

Definition with_type_replacements (f : gset (option objref) → gset (option objref))
    (w : world) : world :=
  {| heap := heap w; daemon := daemon w; connections := connections w;
     current_context := current_context w; config := config w;
     __exposed_member_cache := __exposed_member_cache w;
     type_replacements := f (type_replacements w); uuid_calls := uuid_calls w;
     now := now w; call_log := call_log w; threads := threads w |}.

Definition with_uuid_calls (f : nat → nat) (w : world) : world :=
  {| heap := heap w; daemon := daemon w; connections := connections w;
     current_context := current_context w; config := config w;
     __exposed_member_cache := __exposed_member_cache w;
     type_replacements := type_replacements w; uuid_calls := f (uuid_calls w);
     now := now w; call_log := call_log w; threads := threads w |}.

Definition with_call_log (f : list call_record → list call_record) (w : world) : world :=
  {| heap := heap w; daemon := daemon w; connections := connections w;
     current_context := current_context w; config := config w;
     __exposed_member_cache := __exposed_member_cache w;
     type_replacements := type_replacements w; uuid_calls := uuid_calls w;
     now := now w; call_log := f (call_log w); threads := threads w |}.

Definition with_threads (f : list oneway_thread → list oneway_thread) (w : world) : world :=
  {| heap := heap w; daemon := daemon w; connections := connections w;
     current_context := current_context w; config := config w;
     __exposed_member_cache := __exposed_member_cache w;
     type_replacements := type_replacements w; uuid_calls := uuid_calls w;
     now := now w; call_log := call_log w; threads := f (threads w) |}.

Definition with_objectsById (f : gmap string objref → gmap string objref) (d : Daemon) : Daemon :=
  {| d_self := d_self d; locationStr := locationStr d;
     natLocationStr := natLocationStr d; objectsById := f (objectsById d);
     serializer_ids := serializer_ids d; _pyroInstances := _pyroInstances d;
     streaming_responses := streaming_responses d;
     mustshutdown := mustshutdown d |}.

Definition with_pyroInstances (f : gmap objref objref → gmap objref objref) (d : Daemon) : Daemon :=
  {| d_self := d_self d; locationStr := locationStr d;
     natLocationStr := natLocationStr d; objectsById := objectsById d;
     serializer_ids := serializer_ids d; _pyroInstances := f (_pyroInstances d);
     streaming_responses := streaming_responses d;
     mustshutdown := mustshutdown d |}.

Definition with_streaming_responses
    (f : gmap string stream_entry → gmap string stream_entry) (d : Daemon) : Daemon :=
  {| d_self := d_self d; locationStr := locationStr d;
     natLocationStr := natLocationStr d; objectsById := objectsById d;
     serializer_ids := serializer_ids d; _pyroInstances := _pyroInstances d;
     streaming_responses := f (streaming_responses d);
     mustshutdown := mustshutdown d |}.

Definition with_mustshutdown (b : bool) (d : Daemon) : Daemon :=
  {| d_self := d_self d; locationStr := locationStr d;
     natLocationStr := natLocationStr d; objectsById := objectsById d;
     serializer_ids := serializer_ids d; _pyroInstances := _pyroInstances d;
     streaming_responses := streaming_responses d;
     mustshutdown := b |}.

Definition with_config (f : configuration → configuration) (w : world) : world :=
  {| heap := heap w; daemon := daemon w; connections := connections w;
     current_context := current_context w; config := f (config w);
     __exposed_member_cache := __exposed_member_cache w;
     type_replacements := type_replacements w; uuid_calls := uuid_calls w;
     now := now w; call_log := call_log w; threads := threads w |}.

Definition with_now (f : Z → Z) (w : world) : world :=
  {| heap := heap w; daemon := daemon w; connections := connections w;
     current_context := current_context w; config := config w;
     __exposed_member_cache := __exposed_member_cache w;
     type_replacements := type_replacements w; uuid_calls := uuid_calls w;
     now := f (now w); call_log := call_log w; threads := threads w |}.

(** ** Collaborators

    The serializers, the transport, the helpers of the other modules of
    the package and the code of the user's own methods are outside
    [server.py]; the server only relies on their interfaces. *)

Record serializer := {
  serializer_id : Z;
  (** [serializeData(data, compress)]: the bytes and whether they were
      compressed *)
  serializeData : value → bool → outcome (list Byte.byte * bool);
  (** [deserializeCall(data, compressed)]: object id, method, vargs,
      kwargs *)
  deserializeCall : list Byte.byte → bool → outcome (string * string * list value * value)
}.

Class Collaborators := {
  (** [core.DAEMON_NAME], the reserved id of the introspection object *)
  DAEMON_NAME : string;
  (** the body of a function, applied to its receiver and arguments:
      [f(self, *vargs, **kwargs)] *)
  call : pyfunction → objref → value → value → M value;
  (** [protocol.recv_stub(conn, accepted_types)] *)
  recv_stub : connref → list msg_type → M message;
  (** [serializers.get_serializer_by_id] and the id of the marshal
      serializer *)
  get_serializer_by_id : Z → outcome serializer;
  MarshalSerializer_id : Z;
  (** [errors.formatTraceback(detailed=...)] while handling an exception *)
  formatTraceback : bool → pyexc → list string;
  (** the value of the [n]-th call of [uuid.uuid4()] *)
  uuid4 : nat → uuid;
  (** [uuid.UUID(bytes=b)], [u.bytes] and [u.hex] *)
  UUID_of_bytes : list Byte.byte → outcome uuid;
  UUID_bytes : uuid → list Byte.byte;
  UUID_hex : uuid → string;
  (** [s.encode()] *)
  encode : string → list Byte.byte;
  (** the hooks [Daemon.clientDisconnect] and [Daemon.housekeeping], which
      a subclass overrides *)
  clientDisconnect : connref → M unit;
  housekeeping : M unit
}.

(** ** Exposed-member reflection *)

(** [getattr(cls, name)] for a name of [dir(cls)] *)
Fixpoint assoc (name : string) (l : list (string * member)) : option member :=
  match l with
  | [] => None
  | (n, v) :: l' => if String.eqb n name then Some v else assoc name l'
  end.

Definition class_getattr (c : pyclass) (name : string) : option member :=
  assoc name (c_attrs c).

Definition dir (c : pyclass) : list string := (c_attrs c).*1.

(** The class of an object that is neither a modelled class nor an
    instance of one has no attributes to reflect on. *)
Definition bare_class : pyclass :=
  {| c_attrs := []; c_mro := []; c_pyroInstancing := None;
     c_init_raises := None; c_instances_truthy := true |}.

Definition class_at (h : gmap objref pyobj) (cls : objref) : pyclass :=
  match h !! cls with
  | Some {| o_kind := KClass c |} => c
  | _ => bare_class
  end.

Definition isclass (h : gmap objref pyobj) (obj : objref) : bool :=
  match h !! obj with
  | Some {| o_kind := KClass _ |} => true
  | _ => false
  end.

(** [obj.__class__]; only the classes of instances are in the heap, the
    other types are standing for themselves. *)
Definition __class__ (h : gmap objref pyobj) (obj : objref) : objref :=
  match h !! obj with
  | Some {| o_kind := KInstance cls |} => cls
  | _ => obj
  end.

(** [a or b or c] on accessors: the first that is not [None] *)
Definition first_accessor (fget fset fdel : option pyfunction) : option pyfunction :=
  match fget with
  | Some f => Some f
  | None => match fset with
            | Some f => Some f
            | None => fdel
            end
  end.

(** One turn of the loop [for m in dir(obj)] of [get_exposed_members]. *)
Definition scan_member (c : pyclass) (only_exposed : bool)
    (acc : gset string * gset string * gset string) (m : string)
    : gset string * gset string * gset string :=
  let '(methods, oneway, attrs) := acc in
  if is_private_attribute m then acc
  else
    match class_getattr c m with
    | Some (MFunction v) =>
        if getattr_tag (f_pyroExposed v) (negb only_exposed) then
          (methods ∪ {[m]},
           if getattr_tag (f_pyroOneway v) false then oneway ∪ {[m]} else oneway,
           attrs)
        else acc
    | Some (MProperty fget fset fdel) =>
        match first_accessor fget fset fdel with
        | Some func =>
            if getattr_tag (f_pyroExposed func) (negb only_exposed)
            then (methods, oneway, attrs ∪ {[m]})
            else acc
        | None => acc
        end
    | Some MDescriptor => acc          (* no accessor: [func is None] *)
    | Some MData => acc
    | None => acc                      (* not reached: [m] is from [dir] *)
    end.

Definition reset_exposed_members (obj : objref) (only_exposed as_lists : bool) : M unit :=
  let! w := get in
  let obj := if isclass (heap w) obj then obj else __class__ (heap w) obj in
  let cache_key := (obj, only_exposed, as_lists) in
  modify (with_cache (delete cache_key)).

Definition get_exposed_members (obj : objref) (only_exposed as_lists use_cache : bool)
    : M exposed_members :=
  let! w := get in
  let obj := if isclass (heap w) obj then obj else __class__ (heap w) obj in
  let cache_key := (obj, only_exposed, as_lists) in
  match (if use_cache then __exposed_member_cache w !! cache_key else None) with
  | Some cached => ret cached
  | None =>
      let c := class_at (heap w) obj in
      let '(methods, oneway, attrs) :=
        foldl (scan_member c only_exposed) (∅, ∅, ∅) (dir c) in
      let result :=
        if as_lists
        then {| methods := NameList (elements methods);
                oneway := NameList (elements oneway);
                attrs := NameList (elements attrs) |}
        else {| methods := NameSet methods;
                oneway := NameSet oneway;
                attrs := NameSet attrs |} in
      run! modify (with_cache <[cache_key := result]>) in
      ret result
  end.

(** Membership in a name collection of either shape. *)
Definition name_in (n : string) (ns : names) : Prop :=
  match ns with
  | NameSet s => n ∈ s
  | NameList l => n ∈ l
  end.

Definition exposes (r : exposed_members) (n : string) : Prop :=
  name_in n (methods r) ∨ name_in n (oneway r) ∨ name_in n (attrs r).

(** Every result the cache holds is free of private names. *)
Definition cache_clean (w : world) : Prop :=
  ∀ key r, __exposed_member_cache w !! key = Some r →
           ∀ n, exposes r n → ¬ private_name n.

(** ** Exposed properties *)

Section Properties.
Context {collaborators : Collaborators}.

Definition unexposed_attribute (propname : string) : pyexc :=
  new_exc AttributeError
    ("attempt to access unexposed or unknown remote attribute '" +:+ propname +:+ "'").

(** [getattr(obj.__class__, propname)]: the name must be a string and
    the class must have the attribute. *)
Definition getattr_of_class (obj : objref) (propname : value) : M (string * member) :=
  match propname with
  | VStr name =>
      let! w := get in
      match class_getattr (class_at (heap w) (__class__ (heap w) obj)) name with
      | Some v => ret (name, v)
      | None => raise (new_exc AttributeError
                         ("type object has no attribute '" +:+ name +:+ "'"))
      end
  | _ => raise (new_exc TypeError "getattr(): attribute name must be string")
  end.

Definition get_exposed_property_value (obj : objref) (propname : value)
    (only_exposed : bool) : M value :=
  let! (name, v) := getattr_of_class obj propname in
  match v with
  | MProperty fget fset fdel =>
      match fget with
      | Some g =>
          if getattr_tag (f_pyroExposed g) (negb only_exposed)
          then call g obj (VTuple []) (VDict [])
          else raise (unexposed_attribute name)
      | None => raise (unexposed_attribute name)
      end
  | MDescriptor =>
      (* [v.fget] on a descriptor that has no such attribute *)
      raise (new_exc AttributeError "object has no attribute 'fget'")
  | _ => raise (unexposed_attribute name)
  end.

Definition set_exposed_property_value (obj : objref) (propname : value)
    (val : value) (only_exposed : bool) : M value :=
  let! (name, v) := getattr_of_class obj propname in
  match v with
  | MProperty fget fset fdel =>
      let pfunc := first_accessor fget fset fdel in
      match fset, pfunc with
      | Some s, Some p =>
          if getattr_tag (f_pyroExposed p) (negb only_exposed)
          then call s obj (VTuple [val]) (VDict [])
          else raise (unexposed_attribute name)
      | _, _ => raise (unexposed_attribute name)
      end
  | MDescriptor =>
      raise (new_exc AttributeError "object has no attribute 'fget'")
  | _ => raise (unexposed_attribute name)
  end.

End Properties.

(** ** Object registry *)

(** [getattr(obj, "_pyroId", None)]: the object's own attribute, or the
    one of its class. *)
Definition getattr_pyroId (h : gmap objref pyobj) (obj : objref) : option string :=
  match h !! obj with
  | Some o =>
      match o_pyroId o with
      | Some i => Some i
      | None =>
          match o_kind o with
          | KInstance cls => h !! cls ≫= o_pyroId
          | _ => None
          end
      end
  | None => None
  end.

(** [del obj._pyroId] and [del obj._pyroDaemon]: only an attribute of the
    object's own [__dict__] can be deleted. *)
Definition del_pyroId (obj : objref) : M unit :=
  let! w := get in
  match heap w !! obj with
  | Some o =>
      match o_pyroId o with
      | Some _ => modify (with_heap <[obj := set_pyroId None o]>)
      | None => raise (new_exc AttributeError "_pyroId")
      end
  | None => raise (new_exc AttributeError "_pyroId")
  end.

Definition del_pyroDaemon (obj : objref) : M unit :=
  let! w := get in
  match heap w !! obj with
  | Some o =>
      match o_pyroDaemon o with
      | Some _ => modify (with_heap <[obj := set_pyroDaemon None o]>)
      | None => raise (new_exc AttributeError "_pyroDaemon")
      end
  | None => raise (new_exc AttributeError "_pyroDaemon")
  end.

(** The argument [objectOrId] of [unregister] and [uriFor]. *)
Inductive target :=
| TNone
| TStr (objectId : string)
| TObj (obj : objref).

(** Modelled from the spec: the class [URI] of the [core] module is not
    among the sources.  A URI is the printable reference
    [PYRO:<object-id>@<host:port>]; [mkURI s] is the URI object with this
    printed form.  It is the type of what [register] and [uriFor] are to
    return. *)
Inductive URI := mkURI (printed : string).

(** [bool(v)] *)
Definition truth (h : gmap objref pyobj) (v : value) : bool :=
  match v with
  | VNone => false
  | VBool b => b
  | VInt n => negb (n =? 0)%Z
  | VStr s => negb (String.eqb s "")
  | VTuple xs | VList xs => negb (bool_decide (xs = []))
  | VDict kv => negb (bool_decide (kv = []))
  | VRef r => match h !! r with Some o => o_truthy o | None => true end
  | VExc _ => true
  end.

(** Whether [obj.attr = v] can store a new attribute: a class and an
    instance of a class of the heap have a [__dict__]; an iterator has one
    when its class is written in Python, and none when it is a generator
    or of a builtin type; an object outside the heap (of a builtin type,
    such as a number) has none. *)
Definition has_dict (h : gmap objref pyobj) (obj : objref) : bool :=
  match h !! obj with
  | Some {| o_kind := KIterator it |} => it_has_dict it
  | Some _ => true
  | None => false
  end.

Definition set_pyroInstancing (i : option (string * option pyfunction)) (c : pyclass) : pyclass :=
  {| c_attrs := c_attrs c; c_mro := c_mro c; c_pyroInstancing := i;
     c_init_raises := c_init_raises c;
     c_instances_truthy := c_instances_truthy c |}.

(** [type(obj)] as a key of the serializers' replacement table: the class
    of an instance, [None] for any other type. *)
Definition type_of (h : gmap objref pyobj) (obj : objref) : option objref :=
  match h !! obj with
  | Some {| o_kind := KInstance cls |} => Some cls
  | _ => None
  end.

Section Registry.
Context {collaborators : Collaborators}.

Definition uriFor (objectOrId : target) (nat : bool) : M URI :=
  let! w := get in
  let! objectOrId :=
    match objectOrId with
    | TStr s => ret s
    | TObj obj =>
        match getattr_pyroId (heap w) obj with
        | Some i =>
            if bool_decide (i ∈ dom (objectsById (daemon w))) then ret i
            else raise (new_exc DaemonError "object isn't registered in this daemon")
        | None => raise (new_exc DaemonError "object isn't registered in this daemon")
        end
    | TNone => raise (new_exc DaemonError "object isn't registered in this daemon")
    end in
  let loc :=
    if nat then
      match natLocationStr (daemon w) with
      | Some n => if String.eqb n "" then locationStr (daemon w) else n
      | None => locationStr (daemon w)
      end
    else locationStr (daemon w) in
  (* [return URI("PYRO:%s@%s" % (objectOrId, loc))] *)
  unbound "URI".

Definition register (obj_or_class : objref) (objectId : value)
    (force : bool) : M URI :=
  let! w := get in
  let! objectId :=
    if truth (heap w) objectId then
      match objectId with
      | VStr s => ret s
      | _ => raise (new_exc TypeError "objectId must be a string or None")
      end
    else
      (* generate a new objectId *)
      run! modify (with_uuid_calls S) in
      ret ("obj_" +:+ UUID_hex (uuid4 (uuid_calls w))) in
  let! w := get in
  run! (match heap w !! obj_or_class with
        | Some ({| o_kind := KClass c |} as o) =>
            match c_pyroInstancing c with
            | None =>
                modify (with_heap
                  <[obj_or_class :=
                      set_kind (KClass (set_pyroInstancing (Some ("session", None)) c)) o]>)
            | Some _ => ret tt
            end
        | _ => ret tt
        end) in
  let! w := get in
  run! (if force then ret tt
        else
          match getattr_pyroId (heap w) obj_or_class with
          | Some (String _ _) =>
              raise (new_exc DaemonError "object or class already has a Pyro id")
          | _ =>
              if bool_decide (objectId ∈ dom (objectsById (daemon w)))
              then raise (new_exc DaemonError
                            "an object or class is already registered with that id")
              else ret tt
          end) in
  (* set some pyro attributes *)
  let! o :=
    match heap w !! obj_or_class with
    | Some o =>
        if has_dict (heap w) obj_or_class then ret o
        else raise (new_exc AttributeError "object has no attribute '_pyroId'")
    | None => raise (new_exc AttributeError "object has no attribute '_pyroId'")
    end in
  run! modify (with_heap <[obj_or_class :=
         set_pyroDaemon (Some (d_self (daemon w))) (set_pyroId (Some objectId) o)]>) in
  run! (if AUTOPROXY (config w)
        then modify (with_type_replacements
                       (λ t, t ∪ {[ type_of (heap w) obj_or_class ]}))
        else ret tt) in
  (* register the object/class in the mapping *)
  run! modify (with_daemon (with_objectsById <[objectId := obj_or_class]>)) in
  uriFor (TStr objectId) true.

Definition unregister (objectOrId : target) : M unit :=
  let! w := get in
  let! (objectId, objectOrId) :=
    match objectOrId with
    | TNone => raise (new_exc ValueError "object or objectid argument expected")
    | TObj obj =>
        match getattr_pyroId (heap w) obj with
        | None => raise (new_exc DaemonError "object isn't registered")
        | Some i => ret (i, Some obj)
        end
    | TStr s => ret (s, None)
    end in
  if String.eqb objectId DAEMON_NAME then ret tt
  else if bool_decide (objectId ∈ dom (objectsById (daemon w))) then
    run! modify (with_daemon (with_objectsById (delete objectId))) in
    match objectOrId with
    | Some obj =>
        run! del_pyroId obj in
        del_pyroDaemon obj
    | None => ret tt
    end
  else ret tt.

End Registry.

(** ** Instance manager *)

(** [bool(obj)] for a heap object *)
Definition truthy (h : gmap objref pyobj) (obj : objref) : bool :=
  match h !! obj with
  | Some o => o_truthy o
  | None => true
  end.

(** [not instance], for the result of a [dict.get] *)
Definition not_ (h : gmap objref pyobj) (instance : option objref) : bool :=
  match instance with
  | None => true
  | Some obj => negb (truthy h obj)
  end.

Definition empty_connection : connection :=
  {| conn_inbox := []; conn_sent := []; conn_peername := "";
     conn_pyroInstances := ∅ |}.

Definition connection_at (w : world) (conn : connref) : connection :=
  default empty_connection (connections w !! conn).

Definition with_conn_pyroInstances (f : gmap objref objref → gmap objref objref)
    (c : connection) : connection :=
  {| conn_inbox := conn_inbox c; conn_sent := conn_sent c;
     conn_peername := conn_peername c;
     conn_pyroInstances := f (conn_pyroInstances c) |}.

Definition with_conn_sent (f : list message → list message) (c : connection) : connection :=
  {| conn_inbox := conn_inbox c; conn_sent := f (conn_sent c);
     conn_peername := conn_peername c;
     conn_pyroInstances := conn_pyroInstances c |}.

(** Update of one connection object. *)
Definition update_connection (conn : connref) (f : connection → connection) : M unit :=
  modify (λ w, with_connections <[conn := f (connection_at w conn)]> w).

(** [clazz()]: the constructor fails, or a new object of the class is
    allocated. *)
Definition instantiate (clazz : objref) : M objref :=
  let! w := get in
  let c := class_at (heap w) clazz in
  match c_init_raises c with
  | Some e => raise e
  | None =>
      let obj := fresh (dom (heap w)) in
      run! modify (with_heap <[obj :=
             {| o_kind := KInstance clazz; o_pyroId := None;
                o_pyroDaemon := None; o_truthy := c_instances_truthy c |}]>) in
      ret obj
  end.

(** [isinstance(obj, clazz)]: the type of the object is the class, or a
    subclass of it.  The iterators of the heap are objects of classes that
    are not on the heap (generators, iterators of builtin types, objects
    of other classes with [__next__]). *)
Definition isinstance (h : gmap objref pyobj) (obj : value) (clazz : objref) : bool :=
  match obj with
  | VRef r =>
      match h !! r with
      | Some {| o_kind := KInstance cls |} =>
          bool_decide (cls = clazz) || bool_decide (clazz ∈ c_mro (class_at h cls))
      | _ => false
      end
  | _ => false
  end.

Section Instancing.
Context {collaborators : Collaborators}.

(** The local function [createInstance] of [_getInstance]; the handler
    around its body logs and re-raises. *)
Definition createInstance (clazz : objref) (creator : option pyfunction) : M objref :=
  match creator with
  | Some cr =>
      let! obj := call cr clazz (VTuple []) (VDict []) in
      let! w := get in
      match obj with
      | VRef r =>
          if isinstance (heap w) obj clazz then ret r
          else raise (new_exc TypeError "instance creator returned object of different type")
      | _ => raise (new_exc TypeError "instance creator returned object of different type")
      end
  | None => instantiate clazz
  end.

(** The stored instance, unless [not instance] holds. *)
Definition usable (h : gmap objref pyobj) (instance : option objref) : option objref :=
  if not_ h instance then None else instance.

Definition _getInstance (clazz : objref) (conn : connref) : M objref :=
  let! w := get in
  match c_pyroInstancing (class_at (heap w) clazz) with
  | None => raise (new_exc AttributeError "_pyroInstancing")
  | Some (instance_mode, instance_creator) =>
      if String.eqb instance_mode "single" then
        (* one singleton instance of this class per daemon *)
        let instance := _pyroInstances (daemon w) !! clazz in
        match usable (heap w) instance with
        | None =>
            let! instance := createInstance clazz instance_creator in
            run! modify (with_daemon (with_pyroInstances <[clazz := instance]>)) in
            ret instance
        | Some instance => ret instance
        end
      else if String.eqb instance_mode "session" then
        (* the instances are kept on the connection object *)
        let instance := conn_pyroInstances (connection_at w conn) !! clazz in
        match usable (heap w) instance with
        | None =>
            let! instance := createInstance clazz instance_creator in
            run! update_connection conn (with_conn_pyroInstances <[clazz := instance]>) in
            ret instance
        | Some instance => ret instance
        end
      else if String.eqb instance_mode "percall" then
        createInstance clazz instance_creator
      else raise (new_exc DaemonError "invalid instancemode in registered class")
  end.

End Instancing.

(** ** Iterator streams *)

Definition advance (it : iterator) : iterator :=
  {| it_isIterator := it_isIterator it; it_isgenerator := it_isgenerator it;
     it_lazy_dict := it_lazy_dict it; it_has_dict := it_has_dict it;
     it_pos := S (it_pos it);
     it_items := it_items it |}.

(** [next(stream)] *)
Definition next (stream : objref) : M value :=
  let! w := get in
  match heap w !! stream with
  | Some ({| o_kind := KIterator it |} as o) =>
      run! modify (with_heap <[stream := set_kind (KIterator (advance it)) o]>) in
      match it_items it (it_pos it) with
      | Yield v => ret v
      | Throw e => raise e
      end
  | _ => raise (new_exc TypeError "object is not an iterator")
  end.

(** [del self.streaming_responses[streamId]] *)
Definition del_stream (streamId : string) : M unit :=
  let! w := get in
  match streaming_responses (daemon w) !! streamId with
  | Some _ => modify (with_daemon (with_streaming_responses (delete streamId)))
  | None => raise (new_exc KeyError streamId)
  end.

Section Streams.
Context {collaborators : Collaborators}.

Definition _streamResponse (data : value) (client : connref) : M (bool * value) :=
  let! w := get in
  let iterator_or_generator :=
    match data with
    | VRef r =>
        match heap w !! r with
        | Some {| o_kind := KIterator it |} =>
            if it_isIterator it || it_isgenerator it then Some (r, it) else None
        | _ => None
        end
    | _ => None
    end in
  match iterator_or_generator with
  | Some (r, it) =>
      if ITER_STREAMING (config w) then
        if it_lazy_dict it then
          raise (new_exc PyroError
                   "won't serialize or stream lazy dict iterators, convert to list yourself")
        else
          let stream_id := uuid4 (uuid_calls w) in
          run! modify (with_uuid_calls S) in
          run! modify (with_daemon (with_streaming_responses
                         <[stream_id := (Some client, now w, 0%Z, r)]>)) in
          ret (true, VStr stream_id)
      else ret (true, VNone)
  | None => ret (false, data)
  end.

(** [DaemonObject.get_next_stream_item] *)
Definition get_next_stream_item (streamId : string) : M value :=
  let! w := get in
  match streaming_responses (daemon w) !! streamId with
  | None => raise (new_exc PyroError "item stream terminated")
  | Some (client, timestamp, linger_timestamp, stream) =>
      run! (match client with
            | None =>
                (* reset client connection association *)
                modify (with_daemon (with_streaming_responses
                  <[streamId := (ctx_client (current_context w), timestamp, 0%Z, stream)]>))
            | Some _ => ret tt
            end) in
      try_except (next stream)
        (λ e, run! del_stream streamId in raise e)
  end.

(** [DaemonObject.close_stream] *)
Definition close_stream (streamId : string) : M unit :=
  let! w := get in
  match streaming_responses (daemon w) !! streamId with
  | Some _ => del_stream streamId
  | None => ret tt
  end.

(** An entry is past its lifetime, or past its linger time, at the time of
    the world. *)
Definition past_lifetime (w : world) (info : stream_entry) : bool :=
  let '(_, timestamp, _, _) := info in
  let last_use_period := (now w - timestamp)%Z in
  (0 <? ITER_STREAM_LIFETIME (config w))%Z
  && (ITER_STREAM_LIFETIME (config w) <? last_use_period)%Z.

Definition past_linger (w : world) (info : stream_entry) : bool :=
  let '(_, _, linger_timestamp, _) := info in
  let linger_period := (now w - linger_timestamp)%Z in
  negb (linger_timestamp =? 0)%Z
  && (ITER_STREAM_LINGER (config w) <? linger_period)%Z.

(** The two cleanup loops of [_housekeeping]. *)
Definition sweep_streams (w : world) (streams : gmap string stream_entry)
    : gmap string stream_entry :=
  let streams :=
    if (0 <? ITER_STREAM_LIFETIME (config w))%Z
    then filter (λ kv, past_lifetime w kv.2 = false) streams   (* past their lifetime *)
    else streams in
  if (0 <? ITER_STREAM_LINGER (config w))%Z
  then filter (λ kv, past_linger w kv.2 = false) streams       (* past their linger time *)
  else streams.

Definition _housekeeping : M unit :=
  let! w := get in
  if mustshutdown (daemon w) then ret tt
  else
    run! (if bool_decide (streaming_responses (daemon w) = ∅) then ret tt
          else modify (with_daemon (with_streaming_responses (sweep_streams w)))) in
    housekeeping.

Definition _clientDisconnect (conn : connref) : M unit :=
  let! w := get in
  run! (if (0 <? ITER_STREAM_LINGER (config w))%Z then
          (* client goes away, keep streams around for a bit longer *)
          modify (with_daemon (with_streaming_responses (fmap (λ info : stream_entry,
            let '(client, timestamp, _, stream) := info in
            if bool_decide (client = Some conn)
            then (None, timestamp, now w, stream)
            else info))))
        else
          (* client goes away, close any streams it had open as well *)
          modify (with_daemon (with_streaming_responses
            (filter (λ kv : string * stream_entry, kv.2.1.1.1 ≠ Some conn))))) in
  clientDisconnect conn.

(** [Daemon.close]; [Daemon.shutdown] ends in it, and has the same effect
    on the stream registry. *)
Definition close : M unit :=
  modify (with_daemon (λ d, with_streaming_responses (λ _, ∅) (with_mustshutdown true d))).

End Streams.

(** ** The request dispatcher *)

(** The local variables of [handleRequest] that its exception handler
    reads. *)
Record frame := {
  request_flags : Z;
  request_seq : Z;
  request_serializer_id : Z;
  wasBatched : bool;
  isCallback : bool
}.

(** Computations of the body of [handleRequest]: the locals and the
    world. *)
Definition F (A : Type) : Type := St (frame * world) A.

Definition in_world {A} (c : M A) : F A :=
  λ fw, let (o, w') := c fw.2 in (o, (fw.1, w')).

Definition locals : F frame := λ fw, (Ok fw.1, fw).
Definition the_world : F world := λ fw, (Ok fw.2, fw).
Definition assign (f : frame → frame) : F unit := λ fw, (Ok tt, (f fw.1, fw.2)).

Definition set_request (flags seq ser : Z) (fr : frame) : frame :=
  {| request_flags := flags; request_seq := seq; request_serializer_id := ser;
     wasBatched := wasBatched fr; isCallback := isCallback fr |}.
Definition set_wasBatched (b : bool) (fr : frame) : frame :=
  {| request_flags := request_flags fr; request_seq := request_seq fr;
     request_serializer_id := request_serializer_id fr;
     wasBatched := b; isCallback := isCallback fr |}.
Definition set_isCallback (b : bool) (fr : frame) : frame :=
  {| request_flags := request_flags fr; request_seq := request_seq fr;
     request_serializer_id := request_serializer_id fr;
     wasBatched := wasBatched fr; isCallback := b |}.

(** [try: c except Exception as e: h e else: k] *)
Definition try_except_else {S A B} (c : St S A) (h : pyexc → St S B)
    (k : A → St S B) : St S B :=
  λ w, match c w with
       | (Ok a, w') => k a w'
       | (Raise e, w') => h e w'
       end.

(** [for method, vargs, kwargs in ...]: unpacking of one item *)
Definition unpack3 (item : value) : outcome (value * value * value) :=
  let wrong := Raise (new_exc ValueError "wrong number of values to unpack (expected 3)") in
  match item with
  | VTuple [a; b; c] | VList [a; b; c] => Ok (a, b, c)
  | VTuple _ | VList _ => wrong
  | VStr (String a (String b (String c EmptyString))) =>
      Ok (VStr (String a ""), VStr (String b ""), VStr (String c ""))
  | VStr _ => wrong
  | VDict [(a, _); (b, _); (c, _)] => Ok (a, b, c)
  | VDict _ => wrong
  | _ => Raise (new_exc TypeError "cannot unpack non-iterable object")
  end.

(** [vargs[i]] *)
Definition subscript (vargs : list value) (i : nat) : outcome value :=
  match vargs !! i with
  | Some v => Ok v
  | None => Raise (new_exc IndexError "list index out of range")
  end.

(** [conn.send(msg.data)] *)
Definition send (conn : connref) (msg : message) : M unit :=
  update_connection conn (with_conn_sent (λ sent, sent ++ [msg])).

Definition set_context (conn : connref) (peer : string) (msg : message) (c : context) : context :=
  {| correlation_id := correlation_id c;
     ctx_client := Some conn;
     client_sock_addr := Some peer;
     ctx_seq := msg_seq msg;
     ctx_annotations := msg_annotations msg;
     ctx_msg_flags := msg_flags msg;
     ctx_serializer_id := msg_serializer_id msg |}.

Definition set_correlation_id (u : option uuid) (c : context) : context :=
  {| correlation_id := u; ctx_client := ctx_client c;
     client_sock_addr := client_sock_addr c; ctx_seq := ctx_seq c;
     ctx_annotations := ctx_annotations c; ctx_msg_flags := ctx_msg_flags c;
     ctx_serializer_id := ctx_serializer_id c |}.

Section Dispatcher.
Context {collaborators : Collaborators}.

(** [Daemon.annotations] *)
Definition annotations : M (gmap string (list Byte.byte)) :=
  let! w := get in
  match correlation_id (current_context w) with
  | Some u => ret {[ "CORR" := UUID_bytes u ]}
  | None => ret ∅
  end.

(** The generic error that stands in for an exception that cannot be
    serialized. *)
Definition serializing_error_message (xv exc_value : pyexc) : string :=
  "Error serializing exception: " +:+ exc_str xv
  +:+ ". Original exception: " +:+ type_str exc_value +:+ ": " +:+ exc_str exc_value.

Definition _sendExceptionResponse (connection : connref) (seq serializer_id : Z)
    (exc_value : pyexc) (tbinfo : option (list string)) (flags : Z)
    (annotations_arg : gmap string (list Byte.byte)) : M unit :=
  let exc_value := set_pyroTraceback tbinfo exc_value in
  let! serializer := lift (get_serializer_by_id serializer_id) in
  let! (data, compressed) :=
    try_except (lift (serializeData serializer (VExc exc_value) false))
      (λ xv,
         (* the exception object couldn't be serialized, use a generic
            PyroError instead *)
         let msg := serializing_error_message xv exc_value in
         let exc_value := set_pyroTraceback tbinfo (new_exc PyroError msg) in
         lift (serializeData serializer (VExc exc_value) false)) in
  let flags := Z.lor flags FLAGS_EXCEPTION in
  let flags := if compressed : bool then Z.lor flags FLAGS_COMPRESSED else flags in
  let! ann := annotations in
  let ann := annotations_arg ∪ ann in
  let msg := SendingMessage MSG_RESULT flags seq serializer_id data ann in
  send connection msg.

(** The actual method call to the Pyro object, [method] applied to the
    unpacked [vargs] and [kwargs]; the call is recorded before the body
    runs. *)
Definition invoke (method : pyfunction) (obj : objref) (vargs kwargs : value) : M value :=
  run! modify (with_call_log (λ log, log ++
         [{| called := method; call_self := obj;
             call_vargs := vargs; call_kwargs := kwargs |}])) in
  call method obj vargs kwargs.

(** [util.getAttribute(obj, method)] and [futures._ExceptionWrapper(xv)]:
    neither [util] nor [futures] is bound. *)
Definition util_getAttribute (obj : objref) (attr : value) : M pyfunction :=
  unbound "util".

Definition futures__ExceptionWrapper (xv : pyexc) : M value :=
  unbound "futures".

(** The loop over a batch; [data] is the list of results so far. *)
Fixpoint batch_loop (obj : objref) (items : list value) (data : list value)
    : M (list value) :=
  match items with
  | [] => ret data
  | item :: items =>
      let! (method, vargs, kwargs) := lift (unpack3 item) in
      let! method := util_getAttribute obj method in
      try_except_else (invoke method obj vargs kwargs)
        (λ xv,
           let! w := get in
           let xv := set_pyroTraceback
                       (Some (formatTraceback (DETAILED_TRACEBACK (config w)) xv)) xv in
           let! wrapper := futures__ExceptionWrapper xv in
           (* stop processing the rest of the batch *)
           ret (data ++ [wrapper]))
        (λ result, batch_loop obj items (data ++ [result]))
  end.

(** [_OnewayCallThread(target, args, kwargs).start()] *)
Definition start_oneway_thread (method : pyfunction) (obj : objref)
    (vargs kwargs : value) : M unit :=
  modify (λ w, with_threads (λ ts, ts ++
    [{| thread_target := (method, obj); thread_args := vargs;
        thread_kwargs := kwargs; parent_context := current_context w |}]) w).

(** The correlation id of the request: the annotation, or a new one. *)
Definition take_correlation_id (msg : message) : M unit :=
  match msg_annotations msg !! "CORR" with
  | Some b =>
      let! u := lift (UUID_of_bytes b) in
      modify (with_context (set_correlation_id (Some u)))
  | None =>
      let! w := get in
      run! modify (with_uuid_calls S) in
      modify (with_context (set_correlation_id (Some (uuid4 (uuid_calls w)))))
  end.

(** The call itself, for an object that was found.  The result is the
    data to reply with, or [None] when the function has returned
    already. *)
Definition dispatch (conn : connref) (ser : serializer) (obj : objref)
    (method : string) (vargs : list value) (kwargs : value) : F (option value) :=
  let! fr := locals in
  if has_flag (request_flags fr) FLAGS_BATCH then
    (* batched method calls, loop over them all and collect all results *)
    let! data := in_world (batch_loop obj vargs []) in
    run! assign (set_wasBatched true) in
    ret (Some (VList data))
  else if String.eqb method "__getattr__" then
    let! propname := lift (subscript vargs 0) in
    let! data := in_world (get_exposed_property_value obj propname true) in
    ret (Some data)
  else if String.eqb method "__setattr__" then
    let! propname := lift (subscript vargs 0) in
    let! val := lift (subscript vargs 1) in
    let! data := in_world (set_exposed_property_value obj propname val true) in
    ret (Some data)
  else
    let! method := in_world (util_getAttribute obj (VStr method)) in
    let! w := the_world in
    if has_flag (request_flags fr) FLAGS_ONEWAY && ONEWAY_THREADED (config w) then
      (* oneway call to be run inside its own thread; [data] stays
         unbound, and is not read: the request is oneway *)
      run! in_world (start_oneway_thread method obj (VTuple vargs) kwargs) in
      ret (Some VNone)
    else
      run! assign (set_isCallback (getattr_tag (f_pyroCallback method) false)) in
      let! data := in_world (invoke method obj (VTuple vargs) kwargs) in
      if negb (has_flag (request_flags fr) FLAGS_ONEWAY) then
        let! (isStream, data) := in_world (_streamResponse data conn) in
        if isStream : bool then
          (* throw an exception as well as setting message flags *)
          let exc := new_exc ProtocolError "result of call is an iterator" in
          let ann : gmap string (list Byte.byte) :=
            match data with
            | VStr (String a s) => {[ "STRM" := encode (String a s) ]}
            | _ => ∅
            end in
          run! in_world (_sendExceptionResponse conn (request_seq fr) (serializer_id ser)
                           exc None FLAGS_ITEMSTREAMRESULT ann) in
          ret None
        else ret (Some data)
      else ret (Some data).

(** The object a request is served by: the registered object itself, or
    an instance of the registered class. *)
Definition instance_of_entry (obj : objref) (conn : connref) : M objref :=
  let! w := get in
  if isclass (heap w) obj then _getInstance obj conn else ret obj.

(** The body of the [try] of [handleRequest]. *)
Definition handleRequest_body (conn : connref) (msg : message) : F unit :=
  run! assign (set_request (msg_flags msg) (msg_seq msg) (msg_serializer_id msg)) in
  run! in_world (take_correlation_id msg) in
  if bool_decide (msg_type_of msg = MSG_PING) then
    (* return same seq, but ignore any data. Nothing is deserialized. *)
    let! ann := in_world annotations in
    in_world (send conn (SendingMessage MSG_PING 0 (msg_seq msg) (msg_serializer_id msg)
                           (list_byte_of_string "pong") ann))
  else
    let! w := the_world in
    if negb (bool_decide (msg_serializer_id msg ∈ serializer_ids (daemon w))) then
      raise (new_exc SerializationError
               ("message used serializer that is not accepted: "
                +:+ pretty (msg_serializer_id msg)))
    else
      let! serializer := lift (get_serializer_by_id (msg_serializer_id msg)) in
      (* normal deserialization of remote call arguments *)
      let! (objId, method, vargs, kwargs) :=
        lift (deserializeCall serializer (msg_data msg)
                (has_flag (msg_flags msg) FLAGS_COMPRESSED)) in
      run! in_world (modify (λ w, with_context
             (set_context conn (conn_peername (connection_at w conn)) msg) w)) in
      let! w := the_world in
      let! fr := locals in
      match objectsById (daemon w) !! objId with
      | Some obj =>
          let! obj := in_world (instance_of_entry obj conn) in
          let! reply := dispatch conn serializer obj method vargs kwargs in
          match reply with
          | None => ret tt
          | Some data =>
              if has_flag (request_flags fr) FLAGS_ONEWAY then
                ret tt   (* oneway call, don't send a response *)
              else
                let! w := the_world in
                let! fr := locals in
                let! (data, compressed) :=
                  lift (serializeData serializer data (COMPRESSION (config w))) in
                let response_flags := 0%Z in
                let response_flags :=
                  if compressed : bool then Z.lor response_flags FLAGS_COMPRESSED
                  else response_flags in
                let response_flags :=
                  if wasBatched fr then Z.lor response_flags FLAGS_BATCH
                  else response_flags in
                let! ann := in_world annotations in
                in_world (send conn
                  (SendingMessage MSG_RESULT response_flags (request_seq fr)
                     (serializer_id serializer) data ann))
          end
      | None => raise (new_exc DaemonError "unknown object")
      end.

(** The [except Exception] clause of [handleRequest]. *)
Definition handleRequest_except (conn : connref) (fr : frame) (xv : pyexc) : M unit :=
  let '(request_seq, request_serializer_id) :=
    match exc_pyroMsg xv with
    | Some (seq, ser) => (seq, ser)
    | None => (request_seq fr, request_serializer_id fr)
    end in
  let! w := get in
  let! xv' :=
    if negb (bool_decide (exc_type xv = ConnectionClosedError))
       && negb (has_flag (request_flags fr) FLAGS_ONEWAY)
       && (isinstance_exc xv SerializationError
           || negb (isinstance_exc xv CommunicationError))
    then
      (* only return the error to the client if it wasn't a oneway call,
         and not a communication error *)
      let tblines := formatTraceback (DETAILED_TRACEBACK (config w)) xv in
      run! _sendExceptionResponse conn request_seq request_serializer_id xv
             (Some tblines) 0 ∅ in
      ret (set_pyroTraceback (Some tblines) xv)
    else ret xv in
  if isCallback fr || isinstance_exc xv CommunicationError
     || isinstance_exc xv SecurityError
  then raise xv'   (* re-raise if flagged as callback, communication or security error *)
  else ret tt.

Definition new_frame : frame :=
  {| request_flags := 0; request_seq := 0;
     request_serializer_id := MarshalSerializer_id;
     wasBatched := false; isCallback := false |}.

Definition handleRequest (conn : connref) : M unit :=
  (* an error while receiving is raised to the caller at once *)
  let! msg := recv_stub conn [MSG_INVOKE; MSG_PING] in
  λ w, match handleRequest_body conn msg (new_frame, w) with
       | (Ok _, (_, w')) => (Ok tt, w')
       | (Raise xv, (fr, w')) => handleRequest_except conn fr xv w'
       end.

End Dispatcher.

(** * The rest of the server module

    The decorators, the introspection object, the handshake and the
    construction of the daemon, on top of the definitions above. *)

(** ** Decorators *)

(** [method._pyroCallback = True], [method._pyroOneway = True] and
    [method._pyroExposed = True]; the decorator [oneway] is [oneway_] here,
    [oneway] being the field of the reflection's result. *)
Definition callback (method : pyfunction) : pyfunction :=
  {| f_code := f_code method; f_pyroExposed := f_pyroExposed method;
     f_pyroOneway := f_pyroOneway method; f_pyroCallback := Some true |}.

Definition oneway_ (method : pyfunction) : pyfunction :=
  {| f_code := f_code method; f_pyroExposed := f_pyroExposed method;
     f_pyroOneway := Some true; f_pyroCallback := f_pyroCallback method |}.

Definition set_pyroExposed (method : pyfunction) : pyfunction :=
  {| f_code := f_code method; f_pyroExposed := Some true;
     f_pyroOneway := f_pyroOneway method; f_pyroCallback := f_pyroCallback method |}.

(** What a name of a class is bound to, with the function objects named
    by their identity: one function object can sit under several names, of
    the class's own namespace and of its bases. *)
Inductive binding :=
| BFunction (f : nat)
| BProperty (fget fset fdel : option nat)
| BDescriptor
| BData.

(** A class as its [class] statement leaves it: its [__name__], the
    classes it derives from ([__mro__] without the class itself), the
    function objects by identity, its own namespace [__dict__], what it
    inherits, and whether [_pyroExposed] was set on it. *)
Record class_statement := {
  cls_name : string;
  cls_mro : list objref;
  cls_functions : nat → pyfunction;
  cls_dict : list (string * binding);
  cls_inherited : list (string * binding);
  cls_pyroExposed : bool
}.

(** What can stand under [@expose]: a function with its [__name__], a
    property with its accessors and their names, or a class. *)
Inductive exposable :=
| XFunction (name : string) (f : pyfunction)
| XProperty (fget fset fdel : option (string * pyfunction))
| XClass (clazz : class_statement).

(** [func._pyroExposed = True] on the function object [f]: the object is
    changed in place, under whatever names it sits. *)
Definition tag_exposed (f : nat) (functions : nat → pyfunction) : nat → pyfunction :=
  λ i, if bool_decide (i = f) then set_pyroExposed (functions i) else functions i.

(** [if getattr(thing, accessor, None): thing.accessor._pyroExposed = True] *)
Definition tag_accessor_exposed (a : option nat) (functions : nat → pyfunction)
    : nat → pyfunction :=
  match a with
  | Some f => tag_exposed f functions
  | None => functions
  end.

(** The turn of the loop of [expose] over [clazz.__dict__] for a name that
    is not private. *)
Definition expose_member (thing : binding) (functions : nat → pyfunction)
    : nat → pyfunction :=
  match thing with
  | BFunction f => tag_exposed f functions
  | BProperty fget fset fdel =>
      tag_accessor_exposed fdel
        (tag_accessor_exposed fget (tag_accessor_exposed fset functions))
  | _ => functions
  end.

(** One turn of the loop [for name in clazz.__dict__]; the names of a
    [__dict__] are distinct, so that [getattr(clazz, name)] is the entry
    itself. *)
Definition expose_entry (functions : nat → pyfunction) (entry : string * binding)
    : nat → pyfunction :=
  let '(name, thing) := entry in
  if is_private_attribute name then functions
  else expose_member thing functions.

Definition tag_accessor (target : nat) (i : nat) (a : option (string * pyfunction))
    : option (string * pyfunction) :=
  if bool_decide (i = target)
  then (λ nf : string * pyfunction, (nf.1, set_pyroExposed nf.2)) <$> a
  else a.

Definition expose (method_or_class : exposable) : outcome exposable :=
  let private :=
    Raise (new_exc AttributeError
             "exposing private names (starting with _) is not allowed") in
  match method_or_class with
  | XProperty fget fset fdel =>
      (* func = fget or fset or fdel *)
      let func :=
        match fget, fset, fdel with
        | Some f, _, _ => Some (0, f)
        | None, Some f, _ => Some (1, f)
        | None, None, Some f => Some (2, f)
        | None, None, None => None
        end in
      match func with
      | None => Raise (new_exc AttributeError
                         "'NoneType' object has no attribute '__name__'")
      | Some (i, (name, _)) =>
          if is_private_attribute name then private
          else Ok (XProperty (tag_accessor i 0 fget) (tag_accessor i 1 fset)
                             (tag_accessor i 2 fdel))
      end
  | XFunction name f =>
      if is_private_attribute name then private
      else Ok (XFunction name (set_pyroExposed f))
  | XClass clazz =>
      if is_private_attribute (cls_name clazz) then private
      else Ok (XClass
             {| cls_name := cls_name clazz;
                cls_mro := cls_mro clazz;
                cls_functions := foldl expose_entry (cls_functions clazz) (cls_dict clazz);
                cls_dict := cls_dict clazz;
                cls_inherited := cls_inherited clazz;
                cls_pyroExposed := true |})
  end.

(** What [getattr(clazz, name)] gives for a binding. *)
Definition bound_member (functions : nat → pyfunction) (thing : binding) : member :=
  match thing with
  | BFunction f => MFunction (functions f)
  | BProperty fget fset fdel =>
      MProperty (functions <$> fget) (functions <$> fset) (functions <$> fdel)
  | BDescriptor => MDescriptor
  | BData => MData
  end.

(** The class object of a class statement, as the reflection sees it:
    [dir] lists the own names and the inherited ones, and [getattr] finds
    the own binding first. *)
Definition class_object (clazz : class_statement)
    (instancing : option (string * option pyfunction)) : pyclass :=
  {| c_attrs := prod_map id (bound_member (cls_functions clazz))
                  <$> (cls_dict clazz ++ cls_inherited clazz);
     c_mro := cls_mro clazz;
     c_pyroInstancing := instancing;
     c_init_raises := None;
     c_instances_truthy := true |}.

(** A property object under a name of a class. *)
Definition property_member (fget fset fdel : option (string * pyfunction)) : member :=
  MProperty (snd <$> fget) (snd <$> fset) (snd <$> fdel).

(** The arguments of [@behavior]: the mode is a string or something else
    (the class itself, when the decorator is written without arguments), the
    creator is absent, a callable, or another object (with its truth
    value). *)
Inductive mode_argument :=
| ModeStr (instance_mode : string)
| ModeOther.

Inductive creator_argument :=
| CreatorNone
| CreatorCallable (f : pyfunction)
| CreatorOther (truth : bool).

(** [behavior(instance_mode, instance_creator)(clazz)]; [clazz] is the
    heap object it is applied to.  A creator that is false in a boolean
    context is stored as it is; [_getInstance] only reads its truth value,
    so that it is kept as [None] here. *)
Definition behavior (instance_mode : mode_argument) (instance_creator : creator_argument)
    (clazz : objref) : M objref :=
  match instance_mode with
  | ModeOther =>
      raise (new_exc (UserError "SyntaxError") "behavior decorator is missing argument(s)")
  | ModeStr instance_mode =>
      let! w := get in
      match heap w !! clazz with
      | Some ({| o_kind := KClass c |} as o) =>
          if negb (bool_decide (instance_mode ∈ ["single"; "session"; "percall"]))
          then raise (new_exc ValueError ("invalid instance mode: " +:+ instance_mode))
          else
            match instance_creator with
            | CreatorOther true =>
                raise (new_exc TypeError "instance_creator must be a callable")
            | _ =>
                let creator :=
                  match instance_creator with
                  | CreatorCallable f => Some f
                  | _ => None
                  end in
                run! modify (with_heap <[clazz :=
                       set_kind (KClass (set_pyroInstancing
                                           (Some (instance_mode, creator)) c)) o]>) in
                ret clazz
            end
      | _ => raise (new_exc TypeError "behavior decorator can only be used on a class")
      end
  end.

(** ** The introspection object *)

(** Whether a value can be the key of a dict, and the type named by the
    [TypeError] when it cannot. *)
Fixpoint unhashable (v : value) : option string :=
  match v with
  | VList _ => Some "list"
  | VDict _ => Some "dict"
  | VTuple xs =>
      (fix first (xs : list value) : option string :=
         match xs with
         | [] => None
         | x :: xs => match unhashable x with
                      | Some t => Some t
                      | None => first xs
                      end
         end) xs
  | _ => None
  end.

(** [self.daemon.objectsById.get(objectId)]; the keys of the registry are
    strings. *)
Definition objectsById_get (objectId : value) : M (option objref) :=
  match unhashable objectId with
  | Some t => raise (new_exc TypeError ("unhashable type: '" +:+ t +:+ "'"))
  | None =>
      match objectId with
      | VStr s => λ w, (Ok (objectsById (daemon w) !! s), w)
      | _ => ret None
      end
  end.

Module DaemonObject.

(** [list(self.daemon.objectsById.keys())]; the order of the keys is not
    kept by the registry of the model. *)
Definition registered : M (list string) :=
  λ w, (Ok (map_to_list (objectsById (daemon w))).*1, w).

Definition ping : M value := ret VNone.

(** The warning for a class that exposes nothing changes no state and is
    left out. *)
Definition get_metadata (objectId : value) (as_lists : bool) : M exposed_members :=
  let! obj := objectsById_get objectId in
  match obj with
  | Some obj => get_exposed_members obj true as_lists true
  | None => raise (new_exc DaemonError "unknown object")
  end.

End DaemonObject.

(** ** The connection handshake *)

(** The entry of a dict under a string key. *)
Fixpoint dict_lookup (key : string) (kv : list (value * value)) : option value :=
  match kv with
  | [] => None
  | (VStr k, v) :: kv => if String.eqb k key then Some v else dict_lookup key kv
  | _ :: kv => dict_lookup key kv
  end.

(** [data[key]] for a string key *)
Definition getitem (data : value) (key : string) : outcome value :=
  match data with
  | VDict kv =>
      match dict_lookup key kv with
      | Some v => Ok v
      | None => Raise (new_exc KeyError ("'" +:+ key +:+ "'"))
      end
  | VList _ => Raise (new_exc TypeError "list indices must be integers or slices, not str")
  | VTuple _ => Raise (new_exc TypeError "tuple indices must be integers or slices, not str")
  | VStr _ => Raise (new_exc TypeError "string indices must be integers")
  | _ => Raise (new_exc TypeError "object is not subscriptable")
  end.

(** The names of a metadata entry as data; a set of names is listed. *)
Definition names_value (ns : names) : value :=
  match ns with
  | NameList l => VList (VStr <$> l)
  | NameSet s => VList (VStr <$> elements s)
  end.

Definition metadata_value (r : exposed_members) : value :=
  VDict [(VStr "methods", names_value (methods r));
         (VStr "oneway", names_value (oneway r));
         (VStr "attrs", names_value (attrs r))].

(** What the handshake needs beyond the collaborators of the dispatcher:
    [deserializeData] of a serializer, and the hook
    [Daemon.validateHandshake], which a subclass overrides. *)
Class HandshakeCollaborators := {
  deserializeData : serializer → list Byte.byte → bool → outcome value;
  validateHandshake : connref → value → M value
}.

(** The local variables of [_handshake] that its exception handler
    reads. *)
Record handshake_locals := {
  hs_serializer_id : Z;
  hs_msg_seq : Z
}.

Definition H (A : Type) : Type := St (handshake_locals * world) A.

Definition in_world_h {A} (c : M A) : H A :=
  λ lw, let (o, w') := c lw.2 in (o, (lw.1, w')).

Definition the_world_h : H world := λ lw, (Ok lw.2, lw).

Definition set_hs_msg_seq (seq : Z) : H unit :=
  λ lw, (Ok tt, ({| hs_serializer_id := hs_serializer_id lw.1; hs_msg_seq := seq |}, lw.2)).

Definition set_hs_serializer_id (ser : Z) : H unit :=
  λ lw, (Ok tt, ({| hs_serializer_id := ser; hs_msg_seq := hs_msg_seq lw.1 |}, lw.2)).

Section Handshake.
Context {collaborators : Collaborators} {handshake_collaborators : HandshakeCollaborators}.

(** The body of the [try] of [_handshake]: the type, the flags and the
    data of the reply. *)
Definition handshake_body (conn : connref) (denied_reason : option string)
    : H (msg_type * Z * list Byte.byte) :=
  let! msg := in_world_h (recv_stub conn [MSG_CONNECT]) in
  run! set_hs_msg_seq (msg_seq msg) in
  match denied_reason with
  | Some (String a s) => raise (new_exc (UserError "Exception") (String a s))
  | _ =>
      let! w := the_world_h in
      if negb (bool_decide (msg_serializer_id msg ∈ serializer_ids (daemon w))) then
        raise (new_exc SerializationError
                 ("message used serializer that is not accepted: "
                  +:+ pretty (msg_serializer_id msg)))
      else
        run! in_world_h (take_correlation_id msg) in
        run! set_hs_serializer_id (msg_serializer_id msg) in
        let! serializer := lift (get_serializer_by_id (msg_serializer_id msg)) in
        let! data := lift (deserializeData serializer (msg_data msg)
                             (has_flag (msg_flags msg) FLAGS_COMPRESSED)) in
        let! greeting := lift (getitem data "handshake") in
        let! handshake_response := in_world_h (validateHandshake conn greeting) in
        (* the object metadata is included in the handshake response *)
        let! w := the_world_h in
        run! (match objectsById (daemon w) !! DAEMON_NAME with
              | Some _ => ret tt
              | None => raise (new_exc KeyError ("'" +:+ DAEMON_NAME +:+ "'"))
              end) in
        let! objectId := lift (getitem data "object") in
        let! meta := in_world_h (DaemonObject.get_metadata objectId true) in
        let handshake_response :=
          VDict [(VStr "handshake", handshake_response);
                 (VStr "meta", metadata_value meta)] in
        let! w := the_world_h in
        let! (data, compressed) :=
          lift (serializeData serializer handshake_response (COMPRESSION (config w))) in
        ret (MSG_CONNECTOK,
             if compressed : bool then Z.lor 0 FLAGS_COMPRESSED else 0%Z,
             data)
  end.

(** The end of [_handshake]: the reply is built, sent, and its type
    decides the result. *)
Definition handshake_reply (conn : connref) (l : handshake_locals)
    (msgtype : msg_type) (flags : Z) (data : list Byte.byte) : M bool :=
  let! ann := annotations in
  let msg := SendingMessage msgtype flags (hs_msg_seq l) (hs_serializer_id l) data ann in
  run! send conn msg in
  ret (bool_decide (msg_type_of msg = MSG_CONNECTOK)).

Definition _handshake (conn : connref) (denied_reason : option string) : M bool :=
  λ w,
    match handshake_body conn denied_reason
            ({| hs_serializer_id := MarshalSerializer_id; hs_msg_seq := 0 |}, w) with
    | (Ok (msgtype, flags, data), (l, w')) => handshake_reply conn l msgtype flags data w'
    | (Raise x, (l, w')) =>
        if isinstance_exc x ConnectionClosedError then
          (* handshake failed, connection closed early *)
          (Ok false, w')
        else
          (let! serializer := lift (get_serializer_by_id (hs_serializer_id l)) in
           let! (data, compressed) :=
             lift (serializeData serializer (VStr (exc_str x)) false) in
           handshake_reply conn l MSG_CONNECTFAIL
             (if compressed : bool then FLAGS_COMPRESSED else 0%Z) data) w'
    end.

End Handshake.

(** ** Shutdown *)

(** [Daemon.shutdown]: the streams are dropped, the shutdown flag is set,
    and the daemon is closed; the transport server is outside. *)
Definition shutdown : M unit :=
  run! modify (with_daemon (with_streaming_responses (λ _, ∅))) in
  run! modify (with_daemon (with_mustshutdown true)) in
  close.

(** ** Notions used in the statements *)

(** The sets a scan has collected hold public names only. *)
Definition acc_public (acc : gset string * gset string * gset string) : Prop :=
  ∀ n, n ∈ acc.1.1 ∨ n ∈ acc.1.2 ∨ n ∈ acc.2 → is_private_attribute n = false.

(** A non-string argument that is not registered at the moment: it has no
    [_pyroId], or its id is not a key of the registry. *)
Definition not_registered (w : world) (x : target) : Prop :=
  match x with
  | TStr _ => False
  | TNone => True
  | TObj obj =>
      match getattr_pyroId (heap w) obj with
      | None => True
      | Some i => objectsById (daemon w) !! i = None
      end
  end.


(** What [register] establishes for its target: the entry of the registry
    and the two links on the object. *)
Definition registered (w : world) (obj : objref) (i : string) : Prop :=
  objectsById (daemon w) !! i = Some obj
  ∧ ∃ o d, heap w !! obj = Some o ∧ o_pyroId o = Some i ∧ o_pyroDaemon o = Some d.

(** Neither [_pyroId] nor [_pyroDaemon] is left on the object. *)
Definition scrubbed (w : world) (obj : objref) : Prop :=
  ∃ o, heap w !! obj = Some o ∧ o_pyroId o = None ∧ o_pyroDaemon o = None.

(** The class attribute is a property that [__setattr__] may set through
    [fset]: the setter exists, and the first accessor the property has
    (getter, else setter, else deleter) carries the exposed tag. *)
Definition settable (v : option member) (fset : pyfunction) : Prop :=
  ∃ fget fdel p,
    v = Some (MProperty fget (Some fset) fdel)
    ∧ first_accessor fget (Some fset) fdel = Some p
    ∧ getattr_tag (f_pyroExposed p) false = true.

(** The reading of the specification: the setter itself carries the
    exposed tag. *)
Definition setter_exposed (v : option member) (fset : pyfunction) : Prop :=
  ∃ fget fdel,
    v = Some (MProperty fget (Some fset) fdel)
    ∧ getattr_tag (f_pyroExposed fset) false = true.

(** The result of a call, as the data of a reply. *)
Definition as_reply (fr : frame) (r : outcome value * world)
    : outcome (option value) * (frame * world) :=
  (match r.1 with Ok data => Ok (Some data) | Raise e => Raise e end, (fr, r.2)).

(** ** Notions used in the statements on the rest of the module *)

(** The class the reflection works on: the object itself when it is a
    class, its class otherwise. *)
Definition reflected_class (w : world) (obj : objref) : pyclass :=
  class_at (heap w) (if isclass (heap w) obj then obj else __class__ (heap w) obj).

(** What makes a name of a class a listed method, a listed oneway method
    or a listed attribute: the name is public, and the attribute of the
    class under it is a function that counts as exposed (and is tagged
    oneway), or a property whose first accessor counts as exposed. *)
Definition counts_as_exposed (only_exposed : bool) (f : pyfunction) : Prop :=
  getattr_tag (f_pyroExposed f) (negb only_exposed) = true.

Definition listed_method (c : pyclass) (only_exposed : bool) (m : string) : Prop :=
  is_private_attribute m = false
  ∧ ∃ f, class_getattr c m = Some (MFunction f) ∧ counts_as_exposed only_exposed f.

Definition listed_oneway (c : pyclass) (only_exposed : bool) (m : string) : Prop :=
  is_private_attribute m = false
  ∧ ∃ f, class_getattr c m = Some (MFunction f) ∧ counts_as_exposed only_exposed f
         ∧ getattr_tag (f_pyroOneway f) false = true.

Definition listed_attr (c : pyclass) (only_exposed : bool) (m : string) : Prop :=
  is_private_attribute m = false
  ∧ ∃ fget fset fdel p,
      class_getattr c m = Some (MProperty fget fset fdel)
      ∧ first_accessor fget fset fdel = Some p
      ∧ counts_as_exposed only_exposed p.

(** [getattr(clazz, name)] on the bindings of a class statement: the
    first binding of the name, the class's own before the inherited
    ones. *)
Fixpoint lookup_binding (name : string) (l : list (string * binding)) : option binding :=
  match l with
  | [] => None
  | (n, v) :: l' => if String.eqb n name then Some v else lookup_binding name l'
  end.

(** The function objects a binding leads to: the function itself, or the
    accessors of the property. *)
Definition functions_of (thing : binding) : list nat :=
  match thing with
  | BFunction f => [f]
  | BProperty fget fset fdel => omap id [fget; fset; fdel]
  | _ => []
  end.

(** The function object sits under a public name of the class's own
    namespace, as a function or as an accessor of a property: these are
    the function objects [@expose] on the class tags. *)
Definition tagged_by_expose (clazz : class_statement) (f : nat) : Prop :=
  ∃ name thing,
    (name, thing) ∈ cls_dict clazz
    ∧ is_private_attribute name = false
    ∧ f ∈ functions_of thing.

(** [a or b or c] on the identities of accessors. *)
Definition first_of (fget fset fdel : option nat) : option nat :=
  match fget with
  | Some f => Some f
  | None => match fset with Some f => Some f | None => fdel end
  end.

(** The name [expose] tests: the [__name__] of the function or class, or
    of the first accessor of the property. *)
Definition tested_name (x : exposable) : option string :=
  match x with
  | XFunction name _ => Some name
  | XClass clazz => Some (cls_name clazz)
  | XProperty (Some (name, _)) _ _ => Some name
  | XProperty None (Some (name, _)) _ => Some name
  | XProperty None None (Some (name, _)) => Some name
  | XProperty None None None => None
  end.

(** The id a registration uses: the string it is given, or for an
    argument that is false in a boolean context ([None], the empty string)
    the generated one. *)
Definition chosen_id {collaborators : Collaborators}
    (objectId : value) (w : world) : string :=
  match objectId with
  | VStr (String a s) => String a s
  | _ => "obj_" +:+ UUID_hex (uuid4 (uuid_calls w))
  end.

(** A call of [register] gets past its checks: the id it is given is a
    string or false in a boolean context; the target can take attributes;
    and, unless the registration is forced, the target has no Pyro id
    (other than the empty string) and the id is not in the registry. *)
Definition passes_checks {collaborators : Collaborators}
    (obj : objref) (objectId : value) (force : bool) (w : world) : Prop :=
  (truth (heap w) objectId = true → ∃ s, objectId = VStr s)
  ∧ has_dict (heap w) obj = true
  ∧ (force = false →
       (∀ a s, getattr_pyroId (heap w) obj ≠ Some (String a s))
       ∧ objectsById (daemon w) !! chosen_id objectId w = None).

(** The world once [register] has chosen its id and given a class
    without a policy the default one. *)
Definition with_default_policy (obj : objref) (w : world) : world :=
  match heap w !! obj with
  | Some ({| o_kind := KClass c |} as o) =>
      match c_pyroInstancing c with
      | None =>
          with_heap <[obj := set_kind
                       (KClass (set_pyroInstancing (Some ("session", None)) c)) o]> w
      | Some _ => w
      end
  | _ => w
  end.

Definition prepared (obj : objref) (objectId : value) (w : world) : world :=
  with_default_policy obj
    (if truth (heap w) objectId then w else with_uuid_calls S w).

(** The world in which [register] calls [uriFor]: the links are on the
    object [o], the type replacement is made, the entry is in the
    registry. *)
Definition registration (obj : objref) (o : pyobj) (i : string) (w : world) : world :=
  with_daemon (with_objectsById <[i := obj]>)
    ((if AUTOPROXY (config w)
      then with_type_replacements (λ t, t ∪ {[ type_of (heap w) obj ]})
      else id)
       (with_heap <[obj := set_pyroDaemon (Some (d_self (daemon w)))
                             (set_pyroId (Some i) o)]> w)).

Section Requests.
Context {collaborators : Collaborators}.

(** The request [msg] arrives on [conn] in world [w0] and its correlation
    id is taken; [w2] is the world then. *)
Definition received (conn : connref) (msg : message) (w0 w2 : world) : Prop :=
  ∃ w1, recv_stub conn [MSG_INVOKE; MSG_PING] w0 = (Ok msg, w1)
        ∧ take_correlation_id msg w1 = (Ok tt, w2).

(** The request is an INVOKE whose serializer is accepted and known, and
    it deserializes to a call. *)
Definition decoded (msg : message) (ser : serializer) (objId method : string)
    (vargs : list value) (kwargs : value) (w2 : world) : Prop :=
  msg_type_of msg = MSG_INVOKE
  ∧ msg_serializer_id msg ∈ serializer_ids (daemon w2)
  ∧ get_serializer_by_id (msg_serializer_id msg) = Ok ser
  ∧ deserializeCall ser (msg_data msg) (has_flag (msg_flags msg) FLAGS_COMPRESSED)
    = Ok (objId, method, vargs, kwargs).

(** The world in which the object of the request is looked up: the
    context of the call is set. *)
Definition in_context (conn : connref) (msg : message) (w2 : world) : world :=
  with_context (set_context conn (conn_peername (connection_at w2 conn)) msg) w2.

(** The request reaches an object: it arrives, decodes, its object id is
    registered, and [obj] is the object (or the instance of the registered
    class) that serves it, from world [w3] on. *)
Definition reaches (conn : connref) (msg : message) (ser : serializer)
    (method : string) (vargs : list value) (kwargs : value) (obj : objref)
    (w0 w3 : world) : Prop :=
  ∃ w2 objId registered_obj,
    received conn msg w0 w2
    ∧ decoded msg ser objId method vargs kwargs w2
    ∧ objectsById (daemon w2) !! objId = Some registered_obj
    ∧ instance_of_entry registered_obj conn (in_context conn msg w2) = (Ok obj, w3).

(** The locals of [handleRequest] once the request is read. *)
Definition request_frame (msg : message) : frame :=
  set_request (msg_flags msg) (msg_seq msg) (msg_serializer_id msg) new_frame.

(** A plain method call: neither a batch nor an attribute access. *)
Definition plain_call (msg : message) (method : string) : Prop :=
  has_flag (msg_flags msg) FLAGS_BATCH = false
  ∧ method ≠ "__getattr__" ∧ method ≠ "__setattr__".

(** The world after a message was sent on a connection. *)
Definition sent_on (conn : connref) (reply : message) (w : world) : world :=
  with_connections
    <[conn := with_conn_sent (λ sent, sent ++ [reply]) (connection_at w conn)]> w.

(** The annotations the daemon puts on a message in world [w]. *)
Definition own_annotations (w : world) : gmap string (list Byte.byte) :=
  match correlation_id (current_context w) with
  | Some u => {[ "CORR" := UUID_bytes u ]}
  | None => ∅
  end.

(** The exception as it is sent: with the formatted traceback. *)
Definition with_traceback (w : world) (e : pyexc) : pyexc :=
  set_pyroTraceback (Some (formatTraceback (DETAILED_TRACEBACK (config w)) e)) e.

(** An error that is reported to the client and not raised again: not a
    communication error, not a security error. *)
Definition reportable (e : pyexc) : Prop :=
  exc_type e ≠ ConnectionClosedError
  ∧ isinstance_exc e CommunicationError = false
  ∧ isinstance_exc e SecurityError = false.

(** The rest of the body of [handleRequest] once the call has given
    [reply], the locals before the call being [fr]. *)
Definition answer (conn : connref) (ser : serializer) (fr : frame)
    (reply : option value) : F unit :=
  match reply with
  | None => ret tt
  | Some data =>
      if has_flag (request_flags fr) FLAGS_ONEWAY then ret tt
      else
        let! w := the_world in
        let! fr := locals in
        let! (data, compressed) :=
          lift (serializeData ser data (COMPRESSION (config w))) in
        let response_flags := 0%Z in
        let response_flags :=
          if compressed : bool then Z.lor response_flags FLAGS_COMPRESSED
          else response_flags in
        let response_flags :=
          if wasBatched fr then Z.lor response_flags FLAGS_BATCH
          else response_flags in
        let! ann := in_world annotations in
        in_world (send conn
          (SendingMessage MSG_RESULT response_flags (request_seq fr)
             (serializer_id ser) data ann))
  end.

(** The end of [handleRequest]: the outcome of the body, or the exception
    handler. *)
Definition conclude (conn : connref) (r : outcome unit * (frame * world))
    : outcome unit * world :=
  match r with
  | (Ok _, (_, w')) => (Ok tt, w')
  | (Raise xv, (fr, w')) => handleRequest_except conn fr xv w'
  end.

End Requests.

Section HandshakeNotions.
Context {collaborators : Collaborators} {handshake_collaborators : HandshakeCollaborators}.

(** The locals of [_handshake] at its start. *)
Definition handshake_start : handshake_locals :=
  {| hs_serializer_id := MarshalSerializer_id; hs_msg_seq := 0 |}.

(** The reason for which a CONNECT is refused before its data is looked
    at: the reason the caller gives, or the serializer of the message not
    being accepted. *)
Definition early_refusal (denied_reason : option string) (msg : message) (w1 : world)
    : option pyexc :=
  match denied_reason with
  | Some (String a s) => Some (new_exc (UserError "Exception") (String a s))
  | _ =>
      if bool_decide (msg_serializer_id msg ∈ serializer_ids (daemon w1)) then None
      else Some (new_exc SerializationError
                   ("message used serializer that is not accepted: "
                    +:+ pretty (msg_serializer_id msg)))
  end.

(** The CONNECT [msg] arrives, is not refused early, and its data
    deserializes to [data], whose greeting is [greeting]; [w2] is the
    world in which the validator is asked. *)
Definition greeted (conn : connref) (denied_reason : option string) (msg : message)
    (ser : serializer) (data greeting : value) (w w2 : world) : Prop :=
  ∃ w1,
    recv_stub conn [MSG_CONNECT] w = (Ok msg, w1)
    ∧ early_refusal denied_reason msg w1 = None
    ∧ take_correlation_id msg w1 = (Ok tt, w2)
    ∧ get_serializer_by_id (msg_serializer_id msg) = Ok ser
    ∧ deserializeData ser (msg_data msg) (has_flag (msg_flags msg) FLAGS_COMPRESSED)
      = Ok data
    ∧ getitem data "handshake" = Ok greeting.

End HandshakeNotions.

(** ** A small daemon to run the code on

    A calculator class with exposed and unexposed methods and two
    properties, an empty queue class whose instances are false in a boolean
    context (it defines [__len__]), a counter class in single mode, the
    daemon's own object (which the constructor of the daemon puts in the
    registry), two iterators, and the collaborators: a textual serializer,
    a transport that reads the connection's inbox, and the bodies of the
    methods. *)
Module Demo.

Definition f_add : pyfunction :=
  {| f_code := 0; f_pyroExposed := Some true; f_pyroOneway := None;
     f_pyroCallback := None |}.
Definition f_div : pyfunction :=
  {| f_code := 1; f_pyroExposed := Some true; f_pyroOneway := None;
     f_pyroCallback := None |}.
(** a property whose getter was written without [@expose] and whose
    setter carries the tag *)
Definition f_get_level : pyfunction :=
  {| f_code := 2; f_pyroExposed := None; f_pyroOneway := None;
     f_pyroCallback := None |}.
Definition f_set_level : pyfunction :=
  {| f_code := 3; f_pyroExposed := Some true; f_pyroOneway := None;
     f_pyroCallback := None |}.
(** the usual exposed property: the tag is on the getter *)
Definition f_get_name : pyfunction :=
  {| f_code := 4; f_pyroExposed := Some true; f_pyroOneway := None;
     f_pyroCallback := None |}.
Definition f_set_name : pyfunction :=
  {| f_code := 5; f_pyroExposed := None; f_pyroOneway := None;
     f_pyroCallback := None |}.
Definition f_fire : pyfunction :=
  {| f_code := 6; f_pyroExposed := Some true; f_pyroOneway := Some true;
     f_pyroCallback := None |}.
Definition f_helper : pyfunction :=
  {| f_code := 7; f_pyroExposed := None; f_pyroOneway := None;
     f_pyroCallback := None |}.
(** the methods of [DaemonObject] that serve streams, and a method of the
    calculator that returns an iterator *)
Definition f_get_next_stream_item : pyfunction :=
  {| f_code := 8; f_pyroExposed := Some true; f_pyroOneway := None;
     f_pyroCallback := None |}.
Definition f_close_stream : pyfunction :=
  {| f_code := 9; f_pyroExposed := Some true; f_pyroOneway := None;
     f_pyroCallback := None |}.
Definition f_count : pyfunction :=
  {| f_code := 10; f_pyroExposed := Some true; f_pyroOneway := None;
     f_pyroCallback := None |}.

Definition Calculator : pyclass :=
  {| c_attrs := [("__init__", MFunction f_helper);
                 ("_secret", MFunction f_add);
                 ("add", MFunction f_add);
                 ("count", MFunction f_count);
                 ("div", MFunction f_div);
                 ("fire", MFunction f_fire);
                 ("helper", MFunction f_helper);
                 ("level", MProperty (Some f_get_level) (Some f_set_level) None);
                 ("name", MProperty (Some f_get_name) (Some f_set_name) None);
                 ("precision", MData)];
     c_mro := [];
     c_pyroInstancing := Some ("session", None);
     c_init_raises := None;
     c_instances_truthy := true |}.

Definition EmptyQueue : pyclass :=
  {| c_attrs := [("__len__", MFunction f_helper); ("size", MFunction f_add)];
     c_mro := [];
     c_pyroInstancing := Some ("single", None);
     c_init_raises := None;
     c_instances_truthy := false |}.

(** a class served by one instance per daemon *)
Definition Counter : pyclass :=
  {| c_attrs := [("add", MFunction f_add)];
     c_mro := [];
     c_pyroInstancing := Some ("single", None);
     c_init_raises := None;
     c_instances_truthy := true |}.

Definition DaemonObject : pyclass :=
  {| c_attrs := [("close_stream", MFunction f_close_stream);
                 ("get_next_stream_item", MFunction f_get_next_stream_item)];
     c_mro := [];
     c_pyroInstancing := None;
     c_init_raises := None;
     c_instances_truthy := true |}.

Definition plain (k : pykind) : pyobj :=
  {| o_kind := k; o_pyroId := None; o_pyroDaemon := None; o_truthy := true |}.

(** [iter(range(3))] *)
Definition range3 : iterator :=
  {| it_isIterator := true; it_isgenerator := false; it_lazy_dict := false;
     it_has_dict := false; it_pos := 0;
     it_items := λ n, if (n <? 3)%nat then Yield (VInt (Z.of_nat n))
                      else Throw (new_exc StopIteration "") |}.

(** an iterator of one of the lazy dict iterator types *)
Definition dict_keys : iterator :=
  {| it_isIterator := true; it_isgenerator := false; it_lazy_dict := true;
     it_has_dict := false; it_pos := 0;
     it_items := λ n, Throw (new_exc StopIteration "") |}.

Definition calculator_class : objref := 0.
Definition calculator : objref := 1.
Definition queue_class : objref := 2.
Definition numbers : objref := 3.
Definition keys_view : objref := 4.
Definition daemon_object : objref := 5.
Definition daemon_object_class : objref := 6.
Definition counter_class : objref := 8.
Definition client : connref := 7.

Definition boom : pyexc :=
  {| exc_type := UserError "Boom"; exc_str := "it broke";
     exc_repr := "Boom('it broke')"; exc_pyroTraceback := None;
     exc_pyroMsg := None |}.

Definition args (xs : list value) : value := VTuple xs.

(** The bodies of the functions above. *)
Definition bodies (f : pyfunction) (self : objref) (vargs kwargs : value) : M value :=
  match f_code f, vargs with
  | 0, VTuple [VInt a; VInt b] => ret (VInt (a + b))
  | 1, VTuple [VInt a; VInt b] =>
      if (b =? 0)%Z then raise (new_exc ZeroDivisionError "division by zero")
      else ret (VInt (a / b))
  | 2, VTuple [] => ret (VInt 3)
  | 3, VTuple [_] => ret VNone
  | 4, VTuple [] => ret (VStr "calc")
  | 5, VTuple [_] => ret VNone
  | 6, VTuple [] => ret VNone
  | 8, VTuple [VStr streamId] => get_next_stream_item streamId
  | 9, VTuple [VStr streamId] => run! close_stream streamId in ret VNone
  | 10, VTuple [] => ret (VRef 3)
  | 11, VTuple [] => ret (VRef 21)   (* a creator that hands out the object 21 *)
  | 12, VTuple [] => ret (VRef 1)    (* a creator that hands out the calculator *)
  | _, _ => raise (new_exc TypeError "wrong arguments")
  end.

(** Reading the next message of a connection. *)
Definition receive (conn : connref) (accepted : list msg_type) : M message :=
  let! w := get in
  match conn_inbox (connection_at w conn) with
  | [] => raise (new_exc ConnectionClosedError "receiving: connection lost")
  | msg :: rest =>
      run! update_connection conn (λ c,
             {| conn_inbox := rest; conn_sent := conn_sent c;
                conn_peername := conn_peername c;
                conn_pyroInstances := conn_pyroInstances c |}) in
      if bool_decide (msg_type_of msg ∈ accepted) then ret msg
      else raise (new_exc ProtocolError "invalid msg type received")
  end.

Fixpoint show (v : value) : string :=
  match v with
  | VNone => "None"
  | VBool b => if b then "True" else "False"
  | VInt n => pretty n
  | VStr s => "'" +:+ s +:+ "'"
  | VTuple xs | VList xs =>
      "[" +:+ (fix go (l : list value) : string :=
                 match l with
                 | [] => ""
                 | x :: l' => show x +:+ "," +:+ go l'
                 end) xs +:+ "]"
  | VDict _ => "{}"
  | VRef _ => "<object>"
  | VExc e => class_name (exc_type e) +:+ ": " +:+ exc_str e
  end.

(** A serializer that knows the classes of the package and the builtin
    ones, and no class of the user. *)
Definition text_serializer : serializer :=
  {| serializer_id := 1;
     serializeData := λ v compress,
       match v with
       | VExc {| exc_type := UserError n |} =>
           Raise (new_exc (UserError "SerializeError")
                    ("don't know how to serialize class " +:+ n))
       | _ => Ok (list_byte_of_string (show v), false)
       end;
     deserializeCall := λ data compressed,
       let request := string_of_list_byte data in
       if String.eqb request "batch" then
         Ok ("calc", "<batch>",
             [VTuple [VStr "add"; args [VInt 1; VInt 2]; VDict []];
              VTuple [VStr "div"; args [VInt 1; VInt 0]; VDict []];
              VTuple [VStr "add"; args [VInt 3; VInt 4]; VDict []]],
             VDict [])
       else if String.eqb request "empty batch" then
         Ok ("Pyro.Daemon", "<batch>", [], VDict [])
       else if String.eqb request "daemon batch" then
         Ok ("Pyro.Daemon", "<batch>",
             [VTuple [VStr "ping"; args []; VDict []];
              VTuple [VStr "registered"; args []; VDict []]],
             VDict [])
       else if String.eqb request "add" then
         Ok ("calc", "add", [VInt 1; VInt 2], VDict [])
       else if String.eqb request "count" then
         Ok ("calc", "count", [], VDict [])
       else if String.eqb request "next" then
         Ok ("Pyro.Daemon", "get_next_stream_item",
             [VStr "00000000-0000-4000-8000-1"], VDict [])
       else if String.eqb request "set level" then
         Ok ("calc", "__setattr__", [VStr "level"; VInt 5], VDict [])
       else if String.eqb request "set name" then
         Ok ("calc", "__setattr__", [VStr "name"; VStr "x"], VDict [])
       else Raise (new_exc SerializationError "cannot deserialize") |}.

#[export] Instance collaborators : Collaborators :=
  {| DAEMON_NAME := "Pyro.Daemon";
     call := bodies;
     recv_stub := receive;
     get_serializer_by_id := λ i,
       if (i =? 1)%Z then Ok text_serializer
       else Raise (new_exc SerializationError "unsupported serializer");
     MarshalSerializer_id := 3;
     formatTraceback := λ detailed e,
       ["Traceback (most recent call last):";
        class_name (exc_type e) +:+ ": " +:+ exc_str e];
     uuid4 := λ n, "00000000-0000-4000-8000-" +:+ pretty n;
     UUID_of_bytes := λ b,
       if (length b =? 16)%nat then Ok (string_of_list_byte b)
       else Raise (new_exc ValueError "bytes is not a 16-char string");
     UUID_bytes := list_byte_of_string;
     UUID_hex := id;
     encode := list_byte_of_string;
     clientDisconnect := λ _, ret tt;
     housekeeping := ret tt |}.

Definition request (flags : Z) (payload : string) : message :=
  {| msg_type_of := MSG_INVOKE; msg_flags := flags; msg_seq := 7;
     msg_serializer_id := 1; msg_data := list_byte_of_string payload;
     msg_annotations := ∅ |}.

(** The daemon right after its construction, with objects that are not
    registered yet. *)
Definition fresh_world : world :=
  {| heap := {[ calculator_class := plain (KClass Calculator);
                calculator := plain (KInstance calculator_class);
                queue_class := plain (KClass EmptyQueue);
                numbers := plain (KIterator range3);
                keys_view := plain (KIterator dict_keys);
                daemon_object :=
                  {| o_kind := KInstance daemon_object_class;
                     o_pyroId := Some "Pyro.Daemon";
                     o_pyroDaemon := None; o_truthy := true |};
                daemon_object_class := plain (KClass DaemonObject);
                counter_class := plain (KClass Counter) ]};
     daemon := {| d_self := 100; locationStr := "localhost:9090";
                  natLocationStr := None;
                  objectsById := {[ "Pyro.Daemon" := daemon_object ]};
                  serializer_ids := [1%Z];
                  _pyroInstances := ∅;
                  streaming_responses := ∅;
                  mustshutdown := false |};
     connections := {[ client :=
                         {| conn_inbox := []; conn_sent := [];
                            conn_peername := "10.0.0.2:4000";
                            conn_pyroInstances := ∅ |} ]};
     current_context :=
       {| correlation_id := None; ctx_client := None; client_sock_addr := None;
          ctx_seq := 0; ctx_annotations := ∅; ctx_msg_flags := 0;
          ctx_serializer_id := 0 |};
     config := {| LOGWIRE := false; COMPRESSION := false;
                  ONEWAY_THREADED := true; ITER_STREAMING := true;
                  ITER_STREAM_LINGER := 0; ITER_STREAM_LIFETIME := 0;
                  DETAILED_TRACEBACK := false; AUTOPROXY := true |};
     __exposed_member_cache := ∅;
     type_replacements := ∅;
     uuid_calls := 0;
     now := 1000;
     call_log := [];
     threads := [] |}.

(** The world of a computation's end. *)
Definition after {A} (c : M A) (w : world) : world := (c w).2.

(** [daemon.register(calculator, "calc")]: the registration is made, and
    the call ends in the [NameError] of [uriFor]. *)
Definition served : world :=
  after (register calculator (VStr "calc") false) fresh_world.

(** Another client connects and sends one request. *)
Definition incoming_on (conn : connref) (msg : message) (w : world) : world :=
  with_connections (<[conn :=
    {| conn_inbox := [msg]; conn_sent := [];
       conn_peername := "10.0.0.3:4000"; conn_pyroInstances := ∅ |}]>) w.

(** The client has sent one request. *)
Definition incoming (msg : message) (w : world) : world :=
  with_connections (<[client :=
    {| conn_inbox := [msg]; conn_sent := [];
       conn_peername := "10.0.0.2:4000"; conn_pyroInstances := ∅ |}]>) w.

(** The client sends a request and the daemon handles it: what the daemon
    answers (type, flags, sequence number, payload, stream annotation) and
    the world afterwards. *)
Definition exchange (payload : string) (w : world)
    : list (msg_type * Z * Z * string * option string) * world :=
  let w' := after (handleRequest client) (incoming (request 0 payload) w) in
  ((λ m, (msg_type_of m, msg_flags m, msg_seq m, string_of_list_byte (msg_data m),
          string_of_list_byte <$> msg_annotations m !! "STRM"))
     <$> conn_sent (connection_at w' client),
   w').

(** The same exchange, for a request with flags. *)
Definition exchange_with (flags : Z) (payload : string) (w : world)
    : list (msg_type * Z * Z * string * option string) * world :=
  let w' := after (handleRequest client) (incoming (request flags payload) w) in
  ((λ m, (msg_type_of m, msg_flags m, msg_seq m, string_of_list_byte (msg_data m),
          string_of_list_byte <$> msg_annotations m !! "STRM"))
     <$> conn_sent (connection_at w' client),
   w').

Definition second_client : connref := 9.

(** The daemon's own [get_next_stream_item], called while a request of
    the connection is handled: the client of the context is the
    connection. *)
Definition fetch (conn : connref) (streamId : string) (w : world) : outcome value * world :=
  get_next_stream_item streamId
    (with_context (set_context conn "10.0.0.2:4000" (request 0 "next")) w).

(** The daemon configured to keep the streams of a lost client for two
    ticks. *)
Definition lingering : world :=
  with_config (λ c,
    {| LOGWIRE := LOGWIRE c; COMPRESSION := COMPRESSION c;
       ONEWAY_THREADED := ONEWAY_THREADED c; ITER_STREAMING := ITER_STREAMING c;
       ITER_STREAM_LINGER := 2; ITER_STREAM_LIFETIME := ITER_STREAM_LIFETIME c;
       DETAILED_TRACEBACK := DETAILED_TRACEBACK c; AUTOPROXY := AUTOPROXY c |}) served.

(** [daemon.register(EmptyQueue, "queue")] on top of it *)
Definition queue_served : world :=
  after (register queue_class (VStr "queue") false) served.

(** The calculator's method has returned [iter(range(3))]. *)
Definition streaming : world :=
  after (_streamResponse (VRef numbers) client) served.

Definition stream_name : string := "00000000-0000-4000-8000-0".

(** What the claim reads as the message of the generic error, with the
    [repr] of the original exception, and what the code builds. *)
Definition message_with_repr (xv e : pyexc) : string :=
  "Error serializing exception: " +:+ exc_str xv
  +:+ ". Original exception: " +:+ type_str e +:+ ": " +:+ exc_repr e.

Definition message_with_str (xv e : pyexc) : string :=
  "Error serializing exception: " +:+ exc_str xv
  +:+ ". Original exception: " +:+ type_str e +:+ ": " +:+ exc_str e.

Definition cannot_serialize_boom : pyexc :=
  new_exc (UserError "SerializeError") "don't know how to serialize class Boom".

(** The codes of the functions that were called, in order. *)
Definition calls (w : world) : list nat := (λ c, f_code (called c)) <$> call_log w.

(** The last message sent on a connection. *)
Definition last_sent (w : world) (conn : connref) : option message :=
  last (conn_sent (connection_at w conn)).

End Demo.

(** ** A second look at the demo daemon

    Decorated classes, a daemon that knows the marshal serializer, and a
    handshake: a greeting in the data of the CONNECT, a validator that
    knows one greeting. *)
Module Demo2.

Definition f_plain (code : nat) : pyfunction :=
  {| f_code := code; f_pyroExposed := None; f_pyroOneway := None;
     f_pyroCallback := None |}.

(** The base class of the thermostat. *)
Definition device_class : objref := 24.

(** A class written without any tag on its members but [@oneway] on
    [reset]; its base class has an untagged [describe], an untagged
    [summary], an overridden [read] and an exposed [version].  The class
    binds the function object of the base's [summary] under its own name
    [info]. *)
Definition Thermostat : class_statement :=
  {| cls_name := "Thermostat";
     cls_mro := [device_class];
     cls_functions := λ i,
       if (i =? 23)%nat then oneway_ (f_plain 23)
       else if (i =? 28)%nat then set_pyroExposed (f_plain 28)
       else f_plain i;
     cls_dict := [("__init__", BFunction 20);
                  ("_calibrate", BFunction 21);
                  ("info", BFunction 29);
                  ("read", BFunction 22);
                  ("reset", BFunction 23);
                  ("target", BProperty (Some 24) (Some 25) None);
                  ("unit", BData)];
     cls_inherited := [("describe", BFunction 26);
                       ("read", BFunction 27);
                       ("summary", BFunction 29);
                       ("version", BFunction 28)];
     cls_pyroExposed := false |}.

(** [@expose class Thermostat] *)
Definition exposed_Thermostat : class_statement :=
  match expose (XClass Thermostat) with
  | Ok (XClass clazz) => clazz
  | _ => Thermostat
  end.

Definition thermostat_class : objref := 20.
Definition thermostat : objref := 21.

(** The base class, served by a new object for each call, which its
    creator provides: the creator hands out the thermostat.  Its members
    are the function objects the thermostat inherits, as [@expose] on the
    thermostat has left them. *)
Definition Device : pyclass :=
  {| c_attrs := prod_map id (bound_member (cls_functions exposed_Thermostat))
                  <$> cls_inherited Thermostat;
     c_mro := [];
     c_pyroInstancing := Some ("percall", Some (f_plain 11));
     c_init_raises := None;
     c_instances_truthy := true |}.

(** A property [level] that went through [@expose] by itself, in a class
    without any other tag. *)
Definition level_getter : option (string * pyfunction) := Some ("level", f_plain 2).
Definition level_setter : option (string * pyfunction) := Some ("level", f_plain 3).

Definition exposed_level : exposable :=
  match expose (XProperty level_getter level_setter None) with
  | Ok x => x
  | Raise _ => XProperty level_getter level_setter None
  end.

Definition Gauge : pyclass :=
  {| c_attrs := [("level",
                  match exposed_level with
                  | XProperty fget fset fdel => property_member fget fset fdel
                  | _ => MData
                  end)];
     c_mro := [];
     c_pyroInstancing := None;
     c_init_raises := None;
     c_instances_truthy := true |}.

Definition gauge_class : objref := 22.
Definition gauge : objref := 23.

(** The demo daemon with the thermostat and the gauge on its heap. *)
Definition decorated : world :=
  with_heap (λ h,
    <[thermostat_class := Demo.plain (KClass (class_object exposed_Thermostat None))]>
      (<[thermostat := Demo.plain (KInstance thermostat_class)]>
         (<[device_class := Demo.plain (KClass Device)]>
            (<[gauge_class := Demo.plain (KClass Gauge)]>
               (<[gauge := Demo.plain (KInstance gauge_class)]> h)))))
    Demo.served.

(** The marshal serializer: it serializes everything, classes of the user
    included. *)
Definition marshal : serializer :=
  {| serializer_id := 3;
     serializeData := λ v compress, Ok (list_byte_of_string (Demo.show v), false);
     deserializeCall := λ data compressed,
       Raise (new_exc SerializationError "cannot deserialize") |}.

#[export] Instance collaborators : Collaborators :=
  {| DAEMON_NAME := "Pyro.Daemon";
     call := Demo.bodies;
     recv_stub := Demo.receive;
     get_serializer_by_id := λ i,
       if (i =? 1)%Z then Ok Demo.text_serializer
       else if (i =? 3)%Z then Ok marshal
       else Raise (new_exc SerializationError "unsupported serializer");
     MarshalSerializer_id := 3;
     formatTraceback := λ detailed e,
       ["Traceback (most recent call last):";
        class_name (exc_type e) +:+ ": " +:+ exc_str e];
     uuid4 := λ n, "00000000-0000-4000-8000-" +:+ pretty n;
     UUID_of_bytes := λ b,
       if (length b =? 16)%nat then Ok (string_of_list_byte b)
       else Raise (new_exc ValueError "bytes is not a 16-char string");
     UUID_bytes := list_byte_of_string;
     UUID_hex := id;
     encode := list_byte_of_string;
     clientDisconnect := λ _, ret tt;
     housekeeping := ret tt |}.

(** The data of a CONNECT is the greeting; the client asks for the
    calculator.  The validator knows the greeting [hi]. *)
#[export] Instance handshake_collaborators : HandshakeCollaborators :=
  {| deserializeData := λ ser data compressed,
       Ok (VDict [(VStr "handshake", VStr (string_of_list_byte data));
                  (VStr "object", VStr "calc")]);
     validateHandshake := λ conn greeting,
       match greeting with
       | VStr s =>
           if String.eqb s "hi" then ret (VStr "hello")
           else raise (new_exc ValueError "unknown greeting")
       | _ => raise (new_exc TypeError "greeting must be a string")
       end |}.

Definition connect (ser : Z) (greeting : string) : message :=
  {| msg_type_of := MSG_CONNECT; msg_flags := 0; msg_seq := 1;
     msg_serializer_id := ser; msg_data := list_byte_of_string greeting;
     msg_annotations := ∅ |}.

(** A PING under a serializer the daemon does not know, with a
    correlation id. *)
Definition correlation : list Byte.byte := list_byte_of_string "0123456789abcdef".

Definition ping : message :=
  {| msg_type_of := MSG_PING; msg_flags := 0; msg_seq := 11;
     msg_serializer_id := 99; msg_data := [];
     msg_annotations := {[ "CORR" := correlation ]} |}.

(** A request under the marshal serializer, which this daemon does not
    accept. *)
Definition marshalled (payload : string) : message :=
  {| msg_type_of := MSG_INVOKE; msg_flags := 0; msg_seq := 8;
     msg_serializer_id := 3; msg_data := list_byte_of_string payload;
     msg_annotations := ∅ |}.


(** The lingering daemon with the stream of the calculator's iterator
    open for the client. *)
Definition lingering_stream : world :=
  Demo.after (_streamResponse (collaborators := Demo.collaborators)
                (VRef Demo.numbers) Demo.client) Demo.lingering.

(** The world once the client's request is read and its correlation id
    taken, and the world in which the call is made. *)
Definition read (msg : message) (w : world) : world :=
  Demo.after (take_correlation_id (collaborators := Demo.collaborators) msg)
    (Demo.after (recv_stub (Collaborators := Demo.collaborators) Demo.client
                   [MSG_INVOKE; MSG_PING])
       (Demo.incoming msg w)).

Definition in_call (msg : message) (w : world) : world :=
  in_context Demo.client msg (read msg w).

(** The world once the client's CONNECT is read, and once its
    correlation id is taken. *)
Definition connecting (msg : message) (w : world) : world :=
  Demo.after (recv_stub (Collaborators := Demo.collaborators) Demo.client [MSG_CONNECT])
    (Demo.incoming msg w).

Definition connected (msg : message) (w : world) : world :=
  Demo.after (take_correlation_id (collaborators := Demo.collaborators) msg)
    (connecting msg w).

(** The metadata of the calculator, as the handshake reads it. *)
Definition calc_metadata : exposed_members :=
  match (DaemonObject.get_metadata (VStr "calc") true
           (connected (connect 1 "hi") Demo.served)).1 with
  | Ok meta => meta
  | Raise _ => {| methods := NameList []; oneway := NameList []; attrs := NameList [] |}
  end.

(** What a computation gives, when it gives something. *)
Definition result_of {A} (c : M A) (w : world) : option A :=
  match (c w).1 with Ok a => Some a | Raise _ => None end.

End Demo2.

(** * Properties *)

(** ** Private names *)

Lemma append_String a s t : (String a s ++ t)%string = String a (s ++ t)%string.
Proof. reflexivity. Qed.

Lemma append_empty_l s : ("" ++ s)%string = s.
Proof. reflexivity. Qed.

Lemma append_assoc_str (s t u : string) :
  ((s ++ t) ++ u)%string = (s ++ (t ++ u))%string.
Proof.
  induction s as [|a s IH]; [reflexivity|].
  rewrite !append_String. by rewrite IH.
Qed.

Lemma length_append (s t : string) :
  String.length (s ++ t) = (String.length s + String.length t)%nat.
Proof.
  induction s as [|a s IH]; [reflexivity|].
  rewrite append_String. simpl. by rewrite IH.
Qed.

Lemma endswith_unfold s p :
  endswith s p = String.eqb s p ||
    match s with EmptyString => false | String _ s' => endswith s' p end.
Proof. by destruct s. Qed.

Lemma endswith_spec s p : endswith s p = true ↔ ∃ m, s = (m ++ p)%string.
Proof.
  induction s as [|a s IH]; rewrite endswith_unfold.
  - rewrite orb_false_r, String.eqb_eq. split.
    + intros <-. by exists "".
    + intros [m Hm]. destruct m; [done|discriminate].
  - rewrite orb_true_iff, String.eqb_eq, IH. split.
    + intros [<-|[m ->]]; [by exists ""|]. by exists (String a m).
    + intros [m Hm]. destruct m as [|b m].
      * left. by rewrite append_empty_l in Hm.
      * right. rewrite append_String in Hm. injection Hm as _ ->. by exists m.
Qed.

Lemma prefix_String a p s :
  String.prefix (String a p) s =
  match s with
  | EmptyString => false
  | String b s' => if ascii_dec a b then String.prefix p s' else false
  end.
Proof. by destruct s. Qed.

Lemma prefix_empty s : String.prefix "" s = true.
Proof. by destruct s. Qed.

Lemma startswith_underscore s :
  startswith s "_" = true ↔ ∃ rest, s = String "_" rest.
Proof.
  unfold startswith. rewrite prefix_String. destruct s as [|a s].
  - split; [done|]. by intros [? ?].
  - rewrite prefix_empty. destruct (ascii_dec "_" a) as [<-|Hne].
    + split; [by exists s|done].
    + split; [done|]. intros [rest [= -> _]]. done.
Qed.

Lemma startswith_dunder s :
  startswith s "__" = true ↔ ∃ rest, s = ("__" ++ rest)%string.
Proof.
  unfold startswith. rewrite prefix_String. destruct s as [|a s].
  - split; [done|]. by intros [? ?].
  - rewrite prefix_String. destruct (ascii_dec "_" a) as [<-|Hne].
    + destruct s as [|b s].
      * split; [done|]. by intros [? ?].
      * rewrite prefix_empty. destruct (ascii_dec "_" b) as [<-|Hne].
        -- split; [by exists s|done].
        -- split; [done|]. intros [rest Hr]. rewrite !append_String in Hr.
           injection Hr as -> _. done.
    + split; [done|]. intros [rest Hr]. rewrite !append_String in Hr.
      injection Hr as -> _. done.
Qed.

Lemma dunder_delimited_spec s :
  (4 <? String.length s)%nat && startswith s "__" && endswith s "__" = true
  ↔ dunder_delimited s ∧ (4 < String.length s)%nat.
Proof.
  rewrite !andb_true_iff, Nat.ltb_lt, startswith_dunder, endswith_spec.
  unfold dunder_delimited. split.
  - intros [[Hlen [rest ->]] [m Hm]]. split; [|done].
    destruct m as [|a [|b m]].
    + rewrite append_empty_l in Hm. rewrite Hm in Hlen. simpl in Hlen. lia.
    + rewrite Hm in Hlen. simpl in Hlen. lia.
    + rewrite !append_String, append_empty_l in Hm.
      injection Hm as <- <- ->. by exists m.
  - intros [[middle ->] Hlen]. repeat split; [done|by eexists|].
    exists ("__" ++ middle)%string. by rewrite append_assoc_str.
Qed.

(** The test of the source is the notion of private name of the
    specification. *)
Lemma is_private_attribute_spec name :
  is_private_attribute name = true ↔ private_name name.
Proof.
  unfold is_private_attribute, private_name.
  case_bool_decide as Hdeny; [by split; [left|] |].
  destruct (startswith name "_") eqn:Hus; simpl.
  - apply startswith_underscore in Hus.
    destruct ((4 <? String.length name)%nat && startswith name "__" && endswith name "__")
      eqn:Hdd.
    + apply dunder_delimited_spec in Hdd. split; [done|].
      intros [?|[_ Hn]]; [done|]. by destruct Hn.
    + split; [|done]. intros _. right. split; [done|].
      intros Hd. apply dunder_delimited_spec in Hd. congruence.
  - split; [done|]. intros [?|[Hs _]]; [done|].
    apply startswith_underscore in Hs. congruence.
Qed.

(** ** Exposed members *)

Lemma scan_member_public c only_exposed acc m :
  acc_public acc → acc_public (scan_member c only_exposed acc m).
Proof.
  intros Hacc. destruct acc as [[ms ow] ats]. unfold scan_member.
  destruct (is_private_attribute m) eqn:Hpriv; [done|].
  assert (Hadd : ∀ n (s : gset string), n ∈ s ∪ {[m]} →
            n ∈ s ∨ is_private_attribute n = false).
  { intros n s Hn. apply elem_of_union in Hn as [Hn|Hn]; [by left|].
    apply elem_of_singleton in Hn as ->. by right. }
  destruct (class_getattr c m) as [[v|fget fset fdel| |]|]; try done.
  - destruct (getattr_tag (f_pyroExposed v) _); [|done].
    intros n; simpl. destruct (getattr_tag (f_pyroOneway v) false);
      intros [Hn|[Hn|Hn]];
      try (apply Hadd in Hn as [Hn| ->]; [|done]);
      apply Hacc; simpl; auto.
  - destruct (first_accessor fget fset fdel) as [func|]; [|done].
    destruct (getattr_tag (f_pyroExposed func) _); [|done].
    intros n; simpl. intros [Hn|[Hn|Hn]];
      try (apply Hadd in Hn as [Hn| ->]; [|done]);
      apply Hacc; simpl; auto.
Qed.

Lemma scan_all_public c only_exposed l acc :
  acc_public acc → acc_public (foldl (scan_member c only_exposed) acc l).
Proof.
  revert acc. induction l as [|m l IH]; intros acc Hacc; simpl; [done|].
  apply IH. by apply scan_member_public.
Qed.

Lemma acc_public_empty : acc_public (∅, ∅, ∅).
Proof. intros n [Hn|[Hn|Hn]]; simpl in Hn; by apply not_elem_of_empty in Hn. Qed.

Lemma scan_member_oneway_subset c only_exposed acc m :
  acc.1.2 ⊆ acc.1.1 →
  (scan_member c only_exposed acc m).1.2 ⊆ (scan_member c only_exposed acc m).1.1.
Proof.
  destruct acc as [[ms ow] ats]. simpl. intros Hsub. unfold scan_member.
  destruct (is_private_attribute m); [done|].
  destruct (class_getattr c m) as [[v|fget fset fdel| |]|]; try done.
  - destruct (getattr_tag (f_pyroExposed v) _); [|done].
    destruct (getattr_tag (f_pyroOneway v) false); simpl.
    + by apply union_mono_r.
    + by apply union_subseteq_l'.
  - destruct (first_accessor fget fset fdel) as [func|]; [|done].
    by destruct (getattr_tag (f_pyroExposed func) _).
Qed.

Lemma scan_all_oneway_subset c only_exposed l acc :
  acc.1.2 ⊆ acc.1.1 →
  (foldl (scan_member c only_exposed) acc l).1.2
  ⊆ (foldl (scan_member c only_exposed) acc l).1.1.
Proof.
  revert acc. induction l as [|m l IH]; intros acc Hacc; simpl; [done|].
  apply IH. by apply scan_member_oneway_subset.
Qed.

(** Every oneway method of a computed result is one of its methods. *)
Lemma get_exposed_members_oneway_subset
    (w : world) (obj : objref) (only_exposed as_lists : bool) :
  ∃ r w', get_exposed_members obj only_exposed as_lists false w = (Ok r, w')
          ∧ ∀ n, name_in n (oneway r) → name_in n (methods r).
Proof.
  unfold get_exposed_members, bind, get.
  set (cls := if isclass (heap w) obj then obj else __class__ (heap w) obj).
  pose proof (scan_all_oneway_subset (class_at (heap w) cls) only_exposed
                (dir (class_at (heap w) cls)) (∅, ∅, ∅)) as Hsub.
  destruct (foldl _ _ _) as [[ms ow] ats]. simpl in Hsub.
  specialize (Hsub (reflexivity _)).
  eexists _, _. split; [reflexivity|].
  intros n. destruct as_lists; simpl; rewrite ?elem_of_elements; apply Hsub.
Qed.

(** Reflection is stable: what a call returns, the next call returns again
    (from the cache), and the world stays as the first call left it. *)
Lemma get_exposed_members_again
    (w w' : world) (obj : objref) (only_exposed as_lists use_cache : bool)
    (r : exposed_members) :
  get_exposed_members obj only_exposed as_lists use_cache w = (Ok r, w') →
  get_exposed_members obj only_exposed as_lists true w' = (Ok r, w').
Proof.
  unfold get_exposed_members, bind, get.
  set (cls := if isclass (heap w) obj then obj else __class__ (heap w) obj).
  destruct (if use_cache then _ else None) as [cached|] eqn:Hhit.
  - intros [= <- <-]. fold cls. destruct use_cache; [|done]. by rewrite Hhit.
  - destruct (foldl _ _ _) as [[ms ow] ats].
    unfold modify, ret. intros [= <- <-]. simpl. fold cls.
    by rewrite lookup_insert_eq.
Qed.

Lemma reset_exposed_members_clean
    (w : world) (obj : objref) (only_exposed as_lists : bool) :
  cache_clean w →
  ∃ w', reset_exposed_members obj only_exposed as_lists w = (Ok tt, w')
        ∧ cache_clean w'.
Proof.
  intros Hclean. unfold reset_exposed_members, bind, get, modify.
  eexists. split; [reflexivity|].
  intros key r. simpl. intros [_ Hkey]%lookup_delete_Some. by apply (Hclean key r).
Qed.

(** C6. For every class (or instance), for both values of [only_exposed]
    (and of [as_lists] and [use_cache]), [get_exposed_members] returns a
    result whose methods, oneway and attrs collections contain no private
    name, where private is the notion of the specification
    ([private_name]); the cache it reads and fills holds such results
    only. *)
Theorem get_exposed_members_no_private
    (w : world) (obj : objref) (only_exposed as_lists use_cache : bool) :
  cache_clean w →
  ∃ r w', get_exposed_members obj only_exposed as_lists use_cache w = (Ok r, w')
          ∧ (∀ n, exposes r n → ¬ private_name n)
          ∧ cache_clean w'.
Proof.
  intros Hcache. unfold get_exposed_members, bind, get.
  set (cls := if isclass (heap w) obj then obj else __class__ (heap w) obj).
  destruct (if use_cache then _ else None) as [cached|] eqn:Hhit.
  - exists cached, w. split; [done|]. split; [|done].
    destruct use_cache; [|done]. by apply (Hcache _ _ Hhit).
  - pose proof (scan_all_public (class_at (heap w) cls) only_exposed
                  (dir (class_at (heap w) cls)) _ acc_public_empty) as Hpub.
    destruct (foldl _ _ _) as [[ms ow] ats].
    assert (Hres : ∀ n,
      exposes (if as_lists
               then {| methods := NameList (elements ms);
                       oneway := NameList (elements ow);
                       attrs := NameList (elements ats) |}
               else {| methods := NameSet ms; oneway := NameSet ow;
                       attrs := NameSet ats |}) n → ¬ private_name n).
    { intros n Hn Hp. apply is_private_attribute_spec in Hp.
      rewrite Hpub in Hp; [done|].
      destruct as_lists; unfold exposes in Hn; simpl in *;
        rewrite ?elem_of_elements in Hn; done. }
    eexists _, _. split; [reflexivity|]. split; [done|].
    intros key r. unfold with_cache; simpl.
    destruct (decide (key = (cls, only_exposed, as_lists))) as [->|Hne].
    + rewrite lookup_insert_eq. intros [= <-]. done.
    + rewrite lookup_insert_ne by done. apply Hcache.
Qed.

(** ** Object registry *)

Section RegistryFacts.
Context {collaborators : Collaborators}.

Lemma bool_decide_in_dom (m : gmap string objref) (i : string) :
  bool_decide (i ∈ dom m) = bool_decide (is_Some (m !! i)).
Proof. apply bool_decide_ext, elem_of_dom. Qed.

Lemma uriFor_str (w : world) (s : string) (nat : bool) :
  uriFor (TStr s) nat w = (Raise (new_exc NameError "name 'URI' is not defined"), w).
Proof. reflexivity. Qed.

(** C10, as the code has it.  [uriFor] never returns: it ends in a call
    of the name [URI], which the module does not bind.  For a non-string
    argument that is not registered at the moment (no [_pyroId], or an id
    that is not in the registry) it raises the [DaemonError]; for every
    other argument, every string and every registered object, it raises
    [NameError("name 'URI' is not defined")] where the URI is to be
    built.  The state is never touched. *)
Theorem uriFor_always_raises (w : world) (x : target) (nat : bool) :
  ∃ e, uriFor x nat w = (Raise e, w)
    ∧ (exc_type e = DaemonError ↔ not_registered w x)
    ∧ (exc_type e = NameError ↔ ¬ not_registered w x)
    ∧ (not_registered w x →
         e = new_exc DaemonError "object isn't registered in this daemon")
    ∧ (¬ not_registered w x → e = new_exc NameError "name 'URI' is not defined")
    ∧ (∀ s, x = TStr s → e = new_exc NameError "name 'URI' is not defined").
Proof.
  assert (Hfin : ∀ (c : exc_class) (P : Prop) (msg : string),
            (c = DaemonError ∧ P ∧ msg = "object isn't registered in this daemon")
            ∨ (c = NameError ∧ ¬ P ∧ msg = "name 'URI' is not defined") →
            (exc_type (new_exc c msg) = DaemonError ↔ P)
            ∧ (exc_type (new_exc c msg) = NameError ↔ ¬ P)
            ∧ (P → new_exc c msg
                   = new_exc DaemonError "object isn't registered in this daemon")
            ∧ (¬ P → new_exc c msg = new_exc NameError "name 'URI' is not defined")).
  { intros c P msg [(-> & HP & ->)|(-> & HP & ->)]; simpl; repeat split; try done. }
  assert (Hall : ∀ c msg,
            uriFor x nat w = (Raise (new_exc c msg), w) →
            (c = DaemonError ∧ not_registered w x
             ∧ msg = "object isn't registered in this daemon")
            ∨ (c = NameError ∧ ¬ not_registered w x
               ∧ msg = "name 'URI' is not defined") →
            (∀ s, x = TStr s → c = NameError ∧ msg = "name 'URI' is not defined") →
            ∃ e, uriFor x nat w = (Raise e, w)
              ∧ (exc_type e = DaemonError ↔ not_registered w x)
              ∧ (exc_type e = NameError ↔ ¬ not_registered w x)
              ∧ (not_registered w x →
                   e = new_exc DaemonError "object isn't registered in this daemon")
              ∧ (¬ not_registered w x → e = new_exc NameError "name 'URI' is not defined")
              ∧ (∀ s, x = TStr s → e = new_exc NameError "name 'URI' is not defined")).
  { intros c msg Hrun Hcase Hstr. exists (new_exc c msg). split; [done|].
    destruct (Hfin c _ msg Hcase) as (H1 & H2 & H3 & H4).
    repeat split; try apply H1; try apply H2; try done.
    intros s Hs. by destruct (Hstr s Hs) as [-> ->]. }
  destruct x as [|s|obj].
  - eapply Hall; [reflexivity|by left|done].
  - eapply Hall; [reflexivity|right; split; [done|]; split; [by intros []|done]|done].
  - unfold uriFor, unbound, bind, get, ret, raise in *. simpl in *.
    destruct (getattr_pyroId (heap w) obj) as [i|].
    + rewrite bool_decide_in_dom in *. case_bool_decide as Hin.
      * destruct Hin as [o Ho]. rewrite Ho in *.
        eapply Hall; [reflexivity|by right|done].
      * assert (Hnone : objectsById (daemon w) !! i = None).
        { by destruct (objectsById (daemon w) !! i) eqn:E; [destruct Hin|]. }
        rewrite Hnone in *.
        eapply Hall; [reflexivity|by left|done].
    + eapply Hall; [reflexivity|by left|done].
Qed.

Lemma unregister_str (w : world) (s : string) :
  unregister (TStr s) w
  = (Ok tt,
     if String.eqb s DAEMON_NAME then w
     else if bool_decide (is_Some (objectsById (daemon w) !! s))
          then with_daemon (with_objectsById (delete s)) w
          else w).
Proof.
  unfold unregister, bind, get, ret, modify. rewrite bool_decide_in_dom.
  destruct (String.eqb s DAEMON_NAME); [done|]. by case_bool_decide.
Qed.





Lemma unregister_registered_object (w : world) (obj : objref) (i : string) :
  registered w obj i → i ≠ DAEMON_NAME →
  ∃ w', unregister (TObj obj) w = (Ok tt, w')
        ∧ objectsById (daemon w') = delete i (objectsById (daemon w))
        ∧ scrubbed w' obj.
Proof.
  intros [Hreg (o & d & Ho & Hi & Hd)] Hname.
  apply String.eqb_neq in Hname.
  unfold unregister, bind, get, ret, modify, raise.
  unfold getattr_pyroId. rewrite Ho, Hi, Hname, bool_decide_in_dom.
  rewrite bool_decide_true by by eexists.
  unfold del_pyroId, del_pyroDaemon, bind, get, modify, raise. simpl.
  rewrite Ho, Hi. simpl. rewrite lookup_insert_eq. simpl. rewrite Hd.
  eexists. split; [reflexivity|]. split; [done|]. unfold scrubbed. simpl.
  eexists. rewrite lookup_insert_eq. done.
Qed.

(** C3, as the code has it.  For a registered target other than the
    daemon's own object, [unregister] removes the id from the registry;
    called with the object it also deletes [_pyroId] and [_pyroDaemon] from
    it, called with the id string it leaves every object as it was. *)
Theorem unregister_removes_entry (w : world) (obj : objref) (i : string) :
  registered w obj i → i ≠ DAEMON_NAME →
  (∃ w', unregister (TObj obj) w = (Ok tt, w')
         ∧ objectsById (daemon w') = delete i (objectsById (daemon w))
         ∧ scrubbed w' obj)
  ∧ (∃ w', unregister (TStr i) w = (Ok tt, w')
           ∧ objectsById (daemon w') = delete i (objectsById (daemon w))
           ∧ heap w' = heap w).
Proof.
  intros Hreg Hname. split.
  - by apply unregister_registered_object.
  - destruct Hreg as [Hreg _]. apply String.eqb_neq in Hname.
    rewrite unregister_str, Hname. rewrite bool_decide_true by by eexists.
    eexists. split; [reflexivity|]. done.
Qed.

End RegistryFacts.

(** ** Iterator streams *)

Section StreamFacts.
Context {collaborators : Collaborators}.

(** C4, as the code has it.  With iterator streaming enabled, an iterator
    (or generator) result of one of the lazy dict iterator types is refused
    with a [PyroError]; for every other iterator a new call of
    [uuid.uuid4()] names the stream, the entry (client, now, 0, iterator) is
    stored under that name and the name is returned.  When the name is not
    in use yet, the registry grows by exactly this entry. *)
Theorem streamResponse_iterator
    (w : world) (r : objref) (o : pyobj) (it : iterator) (client : connref) :
  heap w !! r = Some o → o_kind o = KIterator it →
  it_isIterator it || it_isgenerator it = true →
  ITER_STREAMING (config w) = true →
  if it_lazy_dict it
  then _streamResponse (VRef r) client w
       = (Raise (new_exc PyroError
                   "won't serialize or stream lazy dict iterators, convert to list yourself"),
          w)
  else
    let stream_id := uuid4 (uuid_calls w) in
    ∃ w', _streamResponse (VRef r) client w = (Ok (true, VStr stream_id), w')
          ∧ streaming_responses (daemon w')
            = <[stream_id := (Some client, now w, 0%Z, r)]> (streaming_responses (daemon w))
          ∧ uuid_calls w' = S (uuid_calls w)
          ∧ heap w' = heap w
          ∧ (streaming_responses (daemon w) !! stream_id = None →
             size (streaming_responses (daemon w'))
             = S (size (streaming_responses (daemon w)))).
Proof.
  intros Ho Hk Hiter Hstreaming.
  unfold _streamResponse, bind, get, ret, raise, modify.
  rewrite Ho. destruct o as [k i d t]. simpl in Hk. subst k.
  rewrite Hiter, Hstreaming.
  destruct (it_lazy_dict it); [done|]. simpl.
  eexists. split; [reflexivity|]. simpl. repeat split; try done.
  intros Hfree. by rewrite map_size_insert_None.
Qed.




(** The request's connection is the client of the context in which the
    call is dispatched. *)
Lemma set_context_client (conn : connref) (peer : string) (msg : message) (c : context) :
  ctx_client (set_context conn peer msg c) = Some conn.
Proof. reflexivity. Qed.

(** A second sweep at the same time, under the same configuration, finds
    nothing more to remove. *)
Lemma sweep_streams_idempotent (w : world) (streams : gmap string stream_entry) :
  sweep_streams w (sweep_streams w streams) = sweep_streams w streams.
Proof.
  unfold sweep_streams.
  destruct (0 <? ITER_STREAM_LIFETIME (config w))%Z,
           (0 <? ITER_STREAM_LINGER (config w))%Z; try done.
  - apply map_eq. intros i. apply option_eq. intros x.
    rewrite !map_lookup_filter_Some. simpl. tauto.
  - apply map_eq. intros i. apply option_eq. intros x.
    rewrite !map_lookup_filter_Some. simpl. tauto.
  - apply map_eq. intros i. apply option_eq. intros x.
    rewrite !map_lookup_filter_Some. simpl. tauto.
Qed.

(** After [close] (and so after [shutdown]) the stream registry is
    empty. *)
Lemma close_empties_streams (w : world) :
  ∃ w', close w = (Ok tt, w')
        ∧ streaming_responses (daemon w') = ∅
        ∧ mustshutdown (daemon w') = true.
Proof. by eexists. Qed.

End StreamFacts.

(** ** Exposed properties *)

Section PropertyFacts.
Context {collaborators : Collaborators}.

Lemma set_exposed_property_value_settable
    (w : world) (obj : objref) (name : string) (val : value) (fset : pyfunction) :
  settable (class_getattr (class_at (heap w) (__class__ (heap w) obj)) name) fset →
  set_exposed_property_value obj (VStr name) val true w
  = call fset obj (VTuple [val]) (VDict []) w.
Proof.
  intros (fget & fdel & p & Hv & Hp & Hexp).
  unfold set_exposed_property_value, getattr_of_class, bind, get, ret.
  rewrite Hv. simpl. rewrite Hp. simpl. by rewrite Hexp.
Qed.

Lemma set_exposed_property_value_refused
    (w : world) (obj : objref) (name : string) (val : value) :
  (∀ fset, ¬ settable (class_getattr (class_at (heap w) (__class__ (heap w) obj)) name) fset) →
  ∃ e, set_exposed_property_value obj (VStr name) val true w = (Raise e, w)
       ∧ exc_type e = AttributeError.
Proof.
  intros Hno.
  unfold set_exposed_property_value, getattr_of_class, bind, get, ret, raise.
  destruct (class_getattr _ name) as [[f|fget fset fdel| |]|] eqn:Hv;
    try by eexists.
  destruct fset as [s|]; [|by destruct (first_accessor fget None fdel); eexists].
  destruct (first_accessor fget (Some s) fdel) as [p|] eqn:Hp; [|by eexists].
  destruct (getattr_tag (f_pyroExposed p) (negb true)) eqn:Hexp; [|by eexists].
  destruct (Hno s). by exists fget, fdel, p.
Qed.

(** C7, as the code has it.  A request (not a batch) whose method name is
    [__setattr__] sets the property named by its first argument to its
    second argument (further arguments are ignored) by calling the
    property's setter, exactly when the class
    attribute of that name is a property with a setter whose first accessor
    (getter, else setter, else deleter) carries the exposed tag; in every
    other case it fails with an [AttributeError] and changes nothing. *)
Theorem dispatch_setattr
    (conn : connref) (ser : serializer) (obj : objref) (name : string)
    (val kwargs : value) (more : list value) (fr : frame) (w : world) :
  has_flag (request_flags fr) FLAGS_BATCH = false →
  let v := class_getattr (class_at (heap w) (__class__ (heap w) obj)) name in
  (∀ fset, settable v fset →
     dispatch conn ser obj "__setattr__" (VStr name :: val :: more) kwargs (fr, w)
     = as_reply fr (call fset obj (VTuple [val]) (VDict []) w))
  ∧ ((∀ fset, ¬ settable v fset) →
     ∃ e, dispatch conn ser obj "__setattr__" (VStr name :: val :: more) kwargs (fr, w)
          = (Raise e, (fr, w))
          ∧ exc_type e = AttributeError).
Proof.
  intros Hbatch v.
  assert (Hstep : dispatch conn ser obj "__setattr__" (VStr name :: val :: more) kwargs (fr, w)
                  = as_reply fr (set_exposed_property_value obj (VStr name) val true w)).
  { unfold dispatch, bind, locals. simpl. rewrite Hbatch. simpl.
    unfold in_world, as_reply. simpl.
    by destruct (set_exposed_property_value obj (VStr name) val true w) as [[data|e] w']. }
  split.
  - intros fset Hset. rewrite Hstep.
    by rewrite (set_exposed_property_value_settable w obj name val fset Hset).
  - intros Hno. rewrite Hstep.
    destruct (set_exposed_property_value_refused w obj name val Hno) as (e & -> & He).
    by exists e.
Qed.

End PropertyFacts.

(** ** Exception replies *)

Section ReplyFacts.
Context {collaborators : Collaborators}.

Lemma has_flag_lor_r (flags bit : Z) :
  bit ≠ 0%Z → has_flag (Z.lor flags bit) bit = true.
Proof.
  intros Hbit. unfold has_flag. apply negb_true_iff, Z.eqb_neq.
  rewrite Z.land_lor_distr_l, Z.land_diag. intros H0.
  apply Z.lor_eq_0_iff in H0 as [_ H0]. done.
Qed.

Lemma has_flag_lor_l (flags bit other : Z) :
  has_flag flags bit = true → has_flag (Z.lor flags other) bit = true.
Proof.
  unfold has_flag. rewrite !negb_true_iff, !Z.eqb_neq. intros Hset H0.
  rewrite Z.land_lor_distr_l in H0. apply Z.lor_eq_0_iff in H0 as [H0 _]. done.
Qed.

Lemma send_spec (conn : connref) (msg : message) (w : world) :
  send conn msg w
  = (Ok tt,
     with_connections
       <[conn := with_conn_sent (λ sent, sent ++ [msg]) (connection_at w conn)]> w).
Proof. reflexivity. Qed.

(** C8, as the code has it.  When the serializer fails on the exception
    with an error [xv], the daemon builds a [PyroError] whose message is
    "Error serializing exception: <str(xv)>. Original exception:
    <type of the exception>: <str of the exception>", serializes it
    instead, and sends exactly one RESULT message with these bytes, the
    request's sequence number and the EXCEPTION flag set. *)
Theorem sendExceptionResponse_unserializable
    (w : world) (connection : connref) (seq serializer_id flags : Z)
    (exc_value : pyexc) (tbinfo : option (list string))
    (ann : gmap string (list Byte.byte))
    (ser : serializer) (xv : pyexc) (data : list Byte.byte) (compressed : bool) :
  get_serializer_by_id serializer_id = Ok ser →
  serializeData ser (VExc (set_pyroTraceback tbinfo exc_value)) false = Raise xv →
  serializeData ser
    (VExc (set_pyroTraceback tbinfo
             (new_exc PyroError
                ("Error serializing exception: " +:+ exc_str xv
                 +:+ ". Original exception: " +:+ type_str exc_value
                 +:+ ": " +:+ exc_str exc_value)))) false
  = Ok (data, compressed) →
  ∃ msg,
    _sendExceptionResponse connection seq serializer_id exc_value tbinfo flags ann w
    = (Ok tt,
       with_connections
         <[connection := with_conn_sent (λ sent, sent ++ [msg]) (connection_at w connection)]> w)
    ∧ msg_type_of msg = MSG_RESULT
    ∧ msg_data msg = data
    ∧ msg_seq msg = seq
    ∧ msg_serializer_id msg = serializer_id
    ∧ has_flag (msg_flags msg) FLAGS_EXCEPTION = true.
Proof.
  intros Hser Hfail Hgeneric.
  unfold _sendExceptionResponse, bind, lift, try_except.
  rewrite Hser, Hfail. unfold serializing_error_message.
  change (type_str (set_pyroTraceback tbinfo exc_value)) with (type_str exc_value).
  change (exc_str (set_pyroTraceback tbinfo exc_value)) with (exc_str exc_value).
  rewrite Hgeneric.
  destruct (annotations w) as [[own|e] w'] eqn:Hann.
  2: { unfold annotations, bind, get, ret in Hann.
       by destruct (correlation_id (current_context w)). }
  assert (w' = w) as ->.
  { unfold annotations, bind, get, ret in Hann.
    destruct (correlation_id (current_context w)); by injection Hann. }
  rewrite send_spec. eexists. split; [reflexivity|]. simpl.
  repeat split.
  destruct compressed.
  - apply has_flag_lor_l. by apply has_flag_lor_r.
  - by apply has_flag_lor_r.
Qed.

End ReplyFacts.

(** ** Instance manager *)

Section InstancingFacts.
Context {collaborators : Collaborators}.

(** When the stored instance of a class in single mode is true in a
    boolean context, every call returns it and changes nothing. *)
Lemma getInstance_single_reuses
    (w : world) (clazz instance : objref) (conn : connref)
    (creator : option pyfunction) :
  c_pyroInstancing (class_at (heap w) clazz) = Some ("single", creator) →
  _pyroInstances (daemon w) !! clazz = Some instance →
  truthy (heap w) instance = true →
  _getInstance clazz conn w = (Ok instance, w).
Proof.
  intros Hmode Hstored Htrue. unfold _getInstance, bind, get, ret.
  rewrite Hmode. simpl. rewrite Hstored. unfold usable, not_. by rewrite Htrue.
Qed.

(** The first call creates the instance, through the creator if there is
    one, and stores it. *)
Lemma getInstance_single_creates
    (w w' : world) (clazz instance : objref) (conn : connref)
    (creator : option pyfunction) :
  c_pyroInstancing (class_at (heap w) clazz) = Some ("single", creator) →
  _pyroInstances (daemon w) !! clazz = None →
  createInstance clazz creator w = (Ok instance, w') →
  _getInstance clazz conn w
  = (Ok instance, with_daemon (with_pyroInstances <[clazz := instance]>) w').
Proof.
  intros Hmode Hstored Hcreate. unfold _getInstance, bind, get, ret, modify.
  rewrite Hmode. simpl. rewrite Hstored. unfold usable, not_. simpl.
  by rewrite Hcreate.
Qed.

(** A stored instance that is false in a boolean context is not
    used: the class is instantiated again and the new instance replaces
    the stored one. *)
Lemma getInstance_single_replaces_falsy
    (w w' : world) (clazz stored instance : objref) (conn : connref)
    (creator : option pyfunction) :
  c_pyroInstancing (class_at (heap w) clazz) = Some ("single", creator) →
  _pyroInstances (daemon w) !! clazz = Some stored →
  truthy (heap w) stored = false →
  createInstance clazz creator w = (Ok instance, w') →
  _getInstance clazz conn w
  = (Ok instance, with_daemon (with_pyroInstances <[clazz := instance]>) w').
Proof.
  intros Hmode Hstored Hfalse Hcreate. unfold _getInstance, bind, get, ret, modify.
  rewrite Hmode. simpl. rewrite Hstored. unfold usable, not_.
  rewrite Hfalse. simpl. by rewrite Hcreate.
Qed.

End InstancingFacts.

(** * Properties of the rest of the module *)

(** ** What the reflection lists *)

Lemma class_getattr_dir (c : pyclass) (m : string) (v : member) :
  class_getattr c m = Some v → m ∈ dir c.
Proof.
  unfold class_getattr, dir. induction (c_attrs c) as [|[n x] l IH]; simpl; [done|].
  destruct (String.eqb n m) eqn:Hn.
  - apply String.eqb_eq in Hn as ->. intros _. apply elem_of_cons. by left.
  - intros Hv. apply elem_of_cons. right. by apply IH.
Qed.

Ltac open_listed :=
  repeat match goal with
         | H : ∃ _, _ |- _ => destruct H
         | H : _ ∧ _ |- _ => destruct H
         end.

Ltac refute_listed :=
  intros [?|[_ [_ ?]]]; [done|]; exfalso; open_listed; simplify_eq; congruence.

Lemma scan_member_spec (c : pyclass) (only_exposed : bool)
    (acc : gset string * gset string * gset string) (m n : string) :
  let acc' := scan_member c only_exposed acc m in
  (n ∈ acc'.1.1 ↔ n ∈ acc.1.1 ∨ (n = m ∧ listed_method c only_exposed m))
  ∧ (n ∈ acc'.1.2 ↔ n ∈ acc.1.2 ∨ (n = m ∧ listed_oneway c only_exposed m))
  ∧ (n ∈ acc'.2 ↔ n ∈ acc.2 ∨ (n = m ∧ listed_attr c only_exposed m)).
Proof.
  destruct acc as [[ms ow] ats]. simpl.
  unfold scan_member, listed_method, listed_oneway, listed_attr, counts_as_exposed.
  destruct (is_private_attribute m) eqn:Hpriv.
  { simpl. repeat split; try tauto; intros [?|[_ [? _]]]; done. }
  destruct (class_getattr c m) as [[v|fget fset fdel| |]|] eqn:Hget; simpl;
    try (repeat split; try tauto; refute_listed).
  - destruct (getattr_tag (f_pyroExposed v) (negb only_exposed)) eqn:Hexp; simpl;
      [destruct (getattr_tag (f_pyroOneway v) false) eqn:Hone; simpl|];
      rewrite ?elem_of_union, ?elem_of_singleton;
      repeat split; try tauto; try refute_listed;
      (intros [?|?]; [by left|]; right; eauto 8).
  - destruct (first_accessor fget fset fdel) as [func|] eqn:Hfirst; simpl;
      [destruct (getattr_tag (f_pyroExposed func) (negb only_exposed)) eqn:Hexp; simpl|];
      rewrite ?elem_of_union, ?elem_of_singleton;
      repeat split; try tauto; try refute_listed;
      (intros [?|?]; [by left|]; right; eauto 10).
Qed.

Lemma scan_all_spec (c : pyclass) (only_exposed : bool) (l : list string)
    (acc : gset string * gset string * gset string) (n : string) :
  let acc' := foldl (scan_member c only_exposed) acc l in
  (n ∈ acc'.1.1 ↔ n ∈ acc.1.1 ∨ (n ∈ l ∧ listed_method c only_exposed n))
  ∧ (n ∈ acc'.1.2 ↔ n ∈ acc.1.2 ∨ (n ∈ l ∧ listed_oneway c only_exposed n))
  ∧ (n ∈ acc'.2 ↔ n ∈ acc.2 ∨ (n ∈ l ∧ listed_attr c only_exposed n)).
Proof.
  revert acc. induction l as [|m l IH]; intros acc; simpl.
  { repeat split; try tauto; intros [?|[Hn _]]; try done; by apply elem_of_nil in Hn. }
  destruct (IH (scan_member c only_exposed acc m)) as (IH1 & IH2 & IH3).
  destruct (scan_member_spec c only_exposed acc m n) as (S1 & S2 & S3).
  simpl in *. rewrite IH1, IH2, IH3, S1, S2, S3, !elem_of_cons.
  clear. repeat split.
  all: try (intros [[?|[-> ?]]|[? ?]];
            [by left | right; split; [by left|done] | right; split; [by right|done]]).
  all: intros [?|[[->|?] ?]]; [by left; left | by left; right | by right].
Qed.

(** A computation of the exposed members, as the sets the scan of the
    class collects. *)
Lemma get_exposed_members_scanned
    (w : world) (obj : objref) (only_exposed as_lists : bool) :
  ∃ ms ow ats r w',
    foldl (scan_member (reflected_class w obj) only_exposed) (∅, ∅, ∅)
      (dir (reflected_class w obj)) = (ms, ow, ats)
    ∧ get_exposed_members obj only_exposed as_lists false w = (Ok r, w')
    ∧ ∀ n, (name_in n (methods r) ↔ n ∈ ms)
           ∧ (name_in n (oneway r) ↔ n ∈ ow)
           ∧ (name_in n (attrs r) ↔ n ∈ ats).
Proof.
  unfold get_exposed_members, bind, get, reflected_class.
  set (c := class_at (heap w) _).
  destruct (foldl _ _ _) as [[ms ow] ats].
  eexists ms, ow, ats, _, _. split; [reflexivity|]. split; [reflexivity|].
  intros n. destruct as_lists; simpl; by rewrite ?elem_of_elements.
Qed.

Lemma scanned_listed (c : pyclass) (only_exposed : bool) (ms ow ats : gset string) :
  foldl (scan_member c only_exposed) (∅, ∅, ∅) (dir c) = (ms, ow, ats) →
  ∀ n, (n ∈ ms ↔ listed_method c only_exposed n)
       ∧ (n ∈ ow ↔ listed_oneway c only_exposed n)
       ∧ (n ∈ ats ↔ listed_attr c only_exposed n).
Proof.
  intros Hscan n.
  pose proof (scan_all_spec c only_exposed (dir c) (∅, ∅, ∅) n) as Hspec.
  rewrite Hscan in Hspec. simpl in Hspec. destruct Hspec as (H1 & H2 & H3).
  assert (Hm : ∀ m, listed_method c only_exposed m → m ∈ dir c).
  { intros m (_ & f & Hf & _). by eapply class_getattr_dir. }
  assert (Ho : ∀ m, listed_oneway c only_exposed m → m ∈ dir c).
  { intros m (_ & f & Hf & _). by eapply class_getattr_dir. }
  assert (Ha : ∀ m, listed_attr c only_exposed m → m ∈ dir c).
  { intros m (_ & ? & ? & ? & ? & Hf & _). by eapply class_getattr_dir. }
  assert (He : ∀ (P : Prop), (P → n ∈ dir c) → (n ∈ (∅ : gset string) ∨ n ∈ dir c ∧ P ↔ P)).
  { intros P HP. split.
    - intros [Hn|[_ ?]]; [by apply not_elem_of_empty in Hn|done].
    - intros ?. right. split; auto. }
  rewrite H1, H2, H3. (split; [|split]); apply He; auto.
Qed.

(** What [get_exposed_members] computes: the methods are exactly the
    public names of the class under which a function counts as exposed
    (it carries the exposed tag, or [only_exposed] is off and it carries
    no tag at all), the oneway methods are exactly those among them that
    are tagged oneway, and the attributes are exactly the public names
    under which a property sits whose first accessor counts as exposed. *)
Theorem get_exposed_members_lists
    (w : world) (obj : objref) (only_exposed as_lists : bool) :
  ∃ r w', get_exposed_members obj only_exposed as_lists false w = (Ok r, w')
    ∧ ∀ n,
        (name_in n (methods r) ↔ listed_method (reflected_class w obj) only_exposed n)
        ∧ (name_in n (oneway r) ↔ listed_oneway (reflected_class w obj) only_exposed n)
        ∧ (name_in n (attrs r) ↔ listed_attr (reflected_class w obj) only_exposed n).
Proof.
  destruct (get_exposed_members_scanned w obj only_exposed as_lists)
    as (ms & ow & ats & r & w' & Hscan & Hrun & Hr).
  exists r, w'. split; [done|]. intros n.
  destruct (Hr n) as (H1 & H2 & H3).
  destruct (scanned_listed _ _ _ _ _ Hscan n) as (L1 & L2 & L3).
  rewrite H1, H2, H3. done.
Qed.

(** ** Decorators *)

(** One turn of the loop of [expose] on a class, read at one function
    object: the object is tagged when the name is public and the binding
    leads to it, and is left as it is otherwise. *)
Lemma expose_entry_at (functions : nat → pyfunction) (name : string) (thing : binding)
    (i : nat) :
  expose_entry functions (name, thing) i
  = if bool_decide (is_private_attribute name = false ∧ i ∈ functions_of thing)
    then set_pyroExposed (functions i) else functions i.
Proof.
  unfold expose_entry. destruct (is_private_attribute name).
  { rewrite bool_decide_false; [done|]. by intros [? _]. }
  destruct thing as [f|fget fset fdel| |]; simpl; [| |done|done].
  all: unfold tag_accessor_exposed, tag_exposed.
  all: try destruct fget as [g|]; try destruct fset as [s|]; try destruct fdel as [d|].
  all: simpl; repeat case_bool_decide; subst; try done.
  all: try (exfalso;
            match goal with
            | H : ¬ (_ ∧ _) |- _ => apply H; split; [done|]; by repeat constructor
            end).
  all: exfalso;
       match goal with
       | H : _ ∧ _ ∈ _ |- _ =>
           destruct H as [_ H];
           repeat (apply elem_of_cons in H as [?|H]; [done|]);
           by apply elem_of_nil in H
       end.
Qed.

Lemma tagged_dec (l : list (string * binding)) (i : nat) :
  (∃ name thing, (name, thing) ∈ l ∧ is_private_attribute name = false
                 ∧ i ∈ functions_of thing)
  ∨ ¬ (∃ name thing, (name, thing) ∈ l ∧ is_private_attribute name = false
                     ∧ i ∈ functions_of thing).
Proof.
  destruct (decide (Exists (λ e : string * binding,
              is_private_attribute e.1 = false ∧ i ∈ functions_of e.2) l)) as [He|He].
  - left. apply Exists_exists in He as ([n v] & Hin & Hpub & Hf). by exists n, v.
  - right. intros (n & v & Hin & Hpub & Hf). apply He, Exists_exists.
    by exists (n, v).
Qed.

(** The loop of [expose] over a namespace, read at one function object. *)
Lemma expose_loop_at (l : list (string * binding)) (functions : nat → pyfunction) (i : nat) :
  ((∃ name thing, (name, thing) ∈ l ∧ is_private_attribute name = false
                  ∧ i ∈ functions_of thing) →
     foldl expose_entry functions l i = set_pyroExposed (functions i))
  ∧ (¬ (∃ name thing, (name, thing) ∈ l ∧ is_private_attribute name = false
                      ∧ i ∈ functions_of thing) →
       foldl expose_entry functions l i = functions i).
Proof.
  revert functions. induction l as [|[n v] l IH]; intros functions; cbn [foldl].
  - split; [|done]. intros (? & ? & Hin & _). by apply elem_of_nil in Hin.
  - destruct (IH (expose_entry functions (n, v))) as [IHin IHout].
    rewrite expose_entry_at in IHin, IHout.
    destruct (tagged_dec l i) as [Hl|Hl].
    + split; [|intros Hno; exfalso; apply Hno;
               destruct Hl as (m & t & Hin & ?); exists m, t; split; [by right|done]].
      intros _. rewrite (IHin Hl). by case_bool_decide.
    + rewrite (IHout Hl). split.
      * intros (m & t & Hin & Hpub & Hf). apply elem_of_cons in Hin as [[= -> ->]|Hin].
        -- by rewrite bool_decide_true.
        -- exfalso. apply Hl. by exists m, t.
      * intros Hno. rewrite bool_decide_false; [done|].
        intros [Hpub Hf]. apply Hno. exists n, v. split; [by left|done].
Qed.

Lemma assoc_bound_member (functions : nat → pyfunction) (n : string)
    (l : list (string * binding)) :
  assoc n (prod_map id (bound_member functions) <$> l)
  = bound_member functions <$> lookup_binding n l.
Proof.
  induction l as [|[m v] l IH]; simpl; [done|]. by destruct (String.eqb m n).
Qed.

Lemma lookup_binding_app (n : string) (l1 l2 : list (string * binding)) :
  lookup_binding n (l1 ++ l2) = match lookup_binding n l1 with
                                | Some v => Some v
                                | None => lookup_binding n l2
                                end.
Proof.
  induction l1 as [|[m v] l1 IH]; simpl; [done|]. by destruct (String.eqb m n).
Qed.

Lemma lookup_binding_elem (n : string) (l : list (string * binding)) (v : binding) :
  lookup_binding n l = Some v → (n, v) ∈ l.
Proof.
  induction l as [|[m u] l IH]; simpl; [done|].
  destruct (String.eqb m n) eqn:Hmn.
  - apply String.eqb_eq in Hmn as ->. intros [= ->]. by left.
  - intros Hin. right. by apply IH.
Qed.

Lemma first_accessor_bound (functions : nat → pyfunction) (fget fset fdel : option nat) :
  first_accessor (functions <$> fget) (functions <$> fset) (functions <$> fdel)
  = functions <$> first_of fget fset fdel.
Proof. by destruct fget, fset, fdel. Qed.

(** The exposed tag of a function object after [@expose] on the class. *)
Lemma expose_class_tag (clazz : class_statement) (f : nat) :
  getattr_tag (f_pyroExposed (foldl expose_entry (cls_functions clazz) (cls_dict clazz) f))
    false = true
  ↔ tagged_by_expose clazz f
    ∨ getattr_tag (f_pyroExposed (cls_functions clazz f)) false = true.
Proof.
  destruct (expose_loop_at (cls_dict clazz) (cls_functions clazz) f) as [Hin Hout].
  destruct (tagged_dec (cls_dict clazz) f) as [Ht|Ht].
  - rewrite (Hin Ht). split; [by left|done].
  - rewrite (Hout Ht). split; [by right|]. by intros [?|?].
Qed.

Lemma expose_class_oneway (clazz : class_statement) (f : nat) :
  f_pyroOneway (foldl expose_entry (cls_functions clazz) (cls_dict clazz) f)
  = f_pyroOneway (cls_functions clazz f).
Proof.
  destruct (expose_loop_at (cls_dict clazz) (cls_functions clazz) f) as [Hin Hout].
  destruct (tagged_dec (cls_dict clazz) f) as [Ht|Ht].
  - by rewrite (Hin Ht).
  - by rewrite (Hout Ht).
Qed.

(** [@expose] on a class tags function objects in place: the functions
    and the accessors of the properties under the public names of the
    class's own namespace.  Afterwards a public name of the class, own or
    inherited, under which a function sits is listed as a method exactly
    when its function object is one of these or carried the tag before
    (and as a oneway method when it is tagged oneway as well); a name
    under which a property sits is listed as an attribute exactly when the
    first accessor of the property is one of these or carried the tag
    before; no other name is listed.  So every function under a public
    name of the class's own namespace is listed, and so is an inherited
    name whose function object the class also binds under a public name of
    its own. *)
Theorem expose_class_tags_in_place
    (clazz clazz' : class_statement) (instancing : option (string * option pyfunction))
    (w : world) (obj : objref) (as_lists : bool) :
  expose (XClass clazz) = Ok (XClass clazz') →
  reflected_class w obj = class_object clazz' instancing →
  ∃ r w', get_exposed_members obj true as_lists false w = (Ok r, w')
    ∧ (∀ n, is_private_attribute n = false →
         let exposed f :=
           tagged_by_expose clazz f
           ∨ getattr_tag (f_pyroExposed (cls_functions clazz f)) false = true in
         match lookup_binding n (cls_dict clazz ++ cls_inherited clazz) with
         | Some (BFunction f) =>
             (name_in n (methods r) ↔ exposed f)
             ∧ (name_in n (oneway r)
                ↔ exposed f
                  ∧ getattr_tag (f_pyroOneway (cls_functions clazz f)) false = true)
             ∧ ¬ name_in n (attrs r)
         | Some (BProperty fget fset fdel) =>
             (name_in n (attrs r) ↔ ∃ p, first_of fget fset fdel = Some p ∧ exposed p)
             ∧ ¬ name_in n (methods r)
             ∧ ¬ name_in n (oneway r)
         | _ => ¬ exposes r n
         end)
    ∧ (∀ n f, is_private_attribute n = false →
         lookup_binding n (cls_dict clazz) = Some (BFunction f) →
         name_in n (methods r))
    ∧ (∀ n m f, is_private_attribute n = false → is_private_attribute m = false →
         lookup_binding m (cls_dict clazz) = Some (BFunction f) →
         lookup_binding n (cls_dict clazz ++ cls_inherited clazz) = Some (BFunction f) →
         name_in n (methods r)).
Proof.
  intros Hexpose Hclass.
  destruct (get_exposed_members_scanned w obj true as_lists)
    as (ms & ow & ats & r & w' & Hscan & Hrun & Hr).
  exists r, w'. split; [done|].
  unfold expose in Hexpose. destruct (is_private_attribute (cls_name clazz)); [done|].
  injection Hexpose as <-.
  assert (Hmain : ∀ n, is_private_attribute n = false →
    match lookup_binding n (cls_dict clazz ++ cls_inherited clazz) with
    | Some (BFunction f) =>
        (name_in n (methods r)
         ↔ tagged_by_expose clazz f
           ∨ getattr_tag (f_pyroExposed (cls_functions clazz f)) false = true)
        ∧ (name_in n (oneway r)
           ↔ (tagged_by_expose clazz f
              ∨ getattr_tag (f_pyroExposed (cls_functions clazz f)) false = true)
             ∧ getattr_tag (f_pyroOneway (cls_functions clazz f)) false = true)
        ∧ ¬ name_in n (attrs r)
    | Some (BProperty fget fset fdel) =>
        (name_in n (attrs r)
         ↔ ∃ p, first_of fget fset fdel = Some p
                ∧ (tagged_by_expose clazz p
                   ∨ getattr_tag (f_pyroExposed (cls_functions clazz p)) false = true))
        ∧ ¬ name_in n (methods r)
        ∧ ¬ name_in n (oneway r)
    | _ => ¬ exposes r n
    end).
  { intros n Hpub.
    destruct (Hr n) as (Hm & Ho & Ha).
    destruct (scanned_listed _ _ _ _ _ Hscan n) as (L1 & L2 & L3).
    rewrite L1 in Hm. rewrite L2 in Ho. rewrite L3 in Ha. clear Hr Hrun Hscan L1 L2 L3.
    rewrite Hclass in Hm, Ho, Ha.
    unfold listed_method, listed_oneway, listed_attr, counts_as_exposed, class_getattr
      in Hm, Ho, Ha.
    simpl in Hm, Ho, Ha.
    rewrite !assoc_bound_member in Hm, Ho, Ha.
    destruct (lookup_binding n (cls_dict clazz ++ cls_inherited clazz))
      as [[f|fget fset fdel| |]|]; simpl in *.
    - split; [|split].
      + rewrite Hm, <- expose_class_tag. split.
        * by intros (_ & f' & [= <-] & Hexp).
        * intros Hexp. split; [done|]. by eexists.
      + rewrite Ho, <- expose_class_tag, <- (expose_class_oneway clazz f). split.
        * by intros (_ & f' & [= <-] & Hexp & Hone).
        * intros [Hexp Hone]. split; [done|]. by eexists.
      + rewrite Ha. intros (_ & ? & ? & ? & ? & ? & _). done.
    - split; [|split].
      + rewrite Ha. split.
        * intros (_ & ? & ? & ? & p & [= <- <- <-] & Hp & Hexp).
          rewrite first_accessor_bound in Hp.
          destruct (first_of fget fset fdel) as [q|]; [|done].
          injection Hp as <-. exists q. split; [done|]. by apply expose_class_tag.
        * intros (p & Hp & Hexp). split; [done|].
          eexists _, _, _, _. split; [reflexivity|].
          rewrite first_accessor_bound, Hp. split; [reflexivity|].
          by apply expose_class_tag.
      + rewrite Hm. intros (_ & ? & ? & _). done.
      + rewrite Ho. intros (_ & ? & ? & _). done.
    - unfold exposes. rewrite Hm, Ho, Ha.
      intros [(_ & ? & ? & _)|[(_ & ? & ? & _)|(_ & ? & ? & ? & ? & ? & _)]]; done.
    - unfold exposes. rewrite Hm, Ho, Ha.
      intros [(_ & ? & ? & _)|[(_ & ? & ? & _)|(_ & ? & ? & ? & ? & ? & _)]]; done.
    - unfold exposes. rewrite Hm, Ho, Ha.
      intros [(_ & ? & ? & _)|[(_ & ? & ? & _)|(_ & ? & ? & ? & ? & ? & _)]]; done. }
  split; [exact Hmain|]. split.
  - intros n f Hpub Hown. specialize (Hmain n Hpub).
    rewrite lookup_binding_app, Hown in Hmain. apply Hmain. left.
    exists n, (BFunction f). split; [by apply lookup_binding_elem|].
    split; [done|]. by left.
  - intros n m f Hn Hm Hown Hany. specialize (Hmain n Hn).
    rewrite Hany in Hmain. apply Hmain. left.
    exists m, (BFunction f). split; [by apply lookup_binding_elem|].
    split; [done|]. by left.
Qed.

(** [@expose] succeeds exactly on what has a name that is not private:
    when the name it tests (of the function, of the class, of the first
    accessor of the property) is private, it raises the [AttributeError]
    "exposing private names (starting with _) is not allowed"; when the
    name is not private, it returns the decorated object. *)
Theorem expose_refuses_private (x : exposable) (name : string) :
  tested_name x = Some name →
  (private_name name →
     expose x = Raise (new_exc AttributeError
                         "exposing private names (starting with _) is not allowed"))
  ∧ (¬ private_name name → ∃ x', expose x = Ok x' ∧ tested_name x' = Some name).
Proof.
  intros Hname. rewrite <- is_private_attribute_spec.
  destruct x as [n f|[[n g]|] [[m s]|] [[k d]|]|clazz];
    simpl in Hname; simplify_eq; unfold expose;
    (match goal with
     | |- context [is_private_attribute ?n = true] =>
         destruct (is_private_attribute n) eqn:Hp
     end;
     [split; [done|by intros []]
     |split; [done|intros _; eexists; split; [reflexivity|done]]]).
Qed.

Section DecoratorFacts.
Context {collaborators : Collaborators}.

(** A property that went through [@expose] by itself, under whatever name
    of the class: a remote read calls its getter when it has one and is
    refused with an [AttributeError] when it has none, and a remote write
    calls its setter when it has one and is refused with an
    [AttributeError] when it has none. *)
Theorem exposed_property_access
    (fget fset fdel fget' fset' fdel' : option (string * pyfunction))
    (conn : connref) (ser : serializer) (obj : objref) (name : string)
    (val kwargs : value) (fr : frame) (w : world) :
  expose (XProperty fget fset fdel) = Ok (XProperty fget' fset' fdel') →
  class_getattr (class_at (heap w) (__class__ (heap w) obj)) name
  = Some (property_member fget' fset' fdel') →
  has_flag (request_flags fr) FLAGS_BATCH = false →
  match fget' with
  | Some (_, g) =>
      dispatch conn ser obj "__getattr__" [VStr name] kwargs (fr, w)
      = as_reply fr (call g obj (VTuple []) (VDict []) w)
  | None =>
      ∃ e, dispatch conn ser obj "__getattr__" [VStr name] kwargs (fr, w)
           = (Raise e, (fr, w))
           ∧ exc_type e = AttributeError
  end
  ∧ match fset' with
    | Some (_, s) =>
        dispatch conn ser obj "__setattr__" [VStr name; val] kwargs (fr, w)
        = as_reply fr (call s obj (VTuple [val]) (VDict []) w)
    | None =>
        ∃ e, dispatch conn ser obj "__setattr__" [VStr name; val] kwargs (fr, w)
             = (Raise e, (fr, w))
             ∧ exc_type e = AttributeError
    end.
Proof.
  intros Hexpose Hattr Hbatch.
  assert (Hget : dispatch conn ser obj "__getattr__" [VStr name] kwargs (fr, w)
                 = as_reply fr (get_exposed_property_value obj (VStr name) true w)).
  { unfold dispatch, bind, locals. simpl. rewrite Hbatch. simpl.
    unfold in_world, as_reply. simpl.
    by destruct (get_exposed_property_value obj (VStr name) true w) as [[data|e] w']. }
  assert (Hset : dispatch conn ser obj "__setattr__" [VStr name; val] kwargs (fr, w)
                 = as_reply fr (set_exposed_property_value obj (VStr name) val true w)).
  { unfold dispatch, bind, locals. simpl. rewrite Hbatch. simpl.
    unfold in_world, as_reply. simpl.
    by destruct (set_exposed_property_value obj (VStr name) val true w) as [[data|e] w']. }
  rewrite Hget, Hset. clear Hget Hset.
  unfold get_exposed_property_value, set_exposed_property_value, getattr_of_class,
    bind, get, ret, raise.
  rewrite Hattr. clear Hattr. unfold expose in Hexpose.
  destruct fget as [[n g]|], fset as [[m s]|], fdel as [[k d]|]; simpl in Hexpose;
    try done;
    match type of Hexpose with
    | (if ?b then _ else _) = _ => destruct b; [done|]
    end;
    injection Hexpose as <- <- <-; simpl;
    (split; [try reflexivity; by eexists | try reflexivity; by eexists]).
Qed.

(** A policy that [@behavior] accepts is one the instance manager
    understands: the decorator returns the class it was given, with a
    mode among single, session and percall, and from then on
    [_getInstance] fails on the class only when the creation of an
    instance fails, with that error.  A refused decoration (a mode that
    is no string or none of the three, a creator that is true in a boolean
    context without being callable, a target that is no class) changes
    nothing. *)
Theorem behavior_policy_understood
    (instance_mode : mode_argument) (instance_creator : creator_argument)
    (clazz : objref) (w : world) :
  match behavior instance_mode instance_creator clazz w with
  | (Ok clazz', w1) =>
      clazz' = clazz
      ∧ ∃ mode creator,
          c_pyroInstancing (class_at (heap w1) clazz) = Some (mode, creator)
          ∧ instance_mode = ModeStr mode
          ∧ mode ∈ ["single"; "session"; "percall"]
          ∧ ∀ conn e w2,
              _getInstance clazz conn w1 = (Raise e, w2) →
              createInstance clazz creator w1 = (Raise e, w2)
  | (Raise e, w1) => w1 = w
  end.
Proof.
  unfold behavior. destruct instance_mode as [mode|]; [|done].
  unfold bind, get, raise.
  destruct (heap w !! clazz) as [[[c| |] i d t]|] eqn:Hclazz; try done.
  case_bool_decide as Hmode; simpl; [|done].
  assert (Hgo : ∀ creator w1,
    c_pyroInstancing (class_at (heap w1) clazz) = Some (mode, creator) →
    ∀ conn e w2,
      _getInstance clazz conn w1 = (Raise e, w2) →
      createInstance clazz creator w1 = (Raise e, w2)).
  { intros creator w1 Hpolicy conn e w2. unfold _getInstance, bind, get.
    rewrite Hpolicy.
    assert (Hcases : mode = "single" ∨ mode = "session" ∨ mode = "percall").
    { rewrite !elem_of_cons in Hmode. destruct Hmode as [?|[?|[?|Hnil]]]; auto.
      by apply elem_of_nil in Hnil. }
    destruct Hcases as [->|[->| ->]]; simpl.
    - destruct (usable (heap w1) _); [done|].
      destruct (createInstance clazz creator w1) as [[o|x] w3]; [|done].
      unfold modify, ret. done.
    - destruct (usable (heap w1) _); [done|].
      destruct (createInstance clazz creator w1) as [[o|x] w3]; [|done].
      unfold update_connection, modify, ret. done.
    - done. }
  assert (Hstored : ∀ creator,
    c_pyroInstancing
      (class_at (heap (with_heap <[clazz :=
         set_kind (KClass (set_pyroInstancing (Some (mode, creator)) c))
           {| o_kind := KClass c; o_pyroId := i; o_pyroDaemon := d; o_truthy := t |}]> w))
         clazz)
    = Some (mode, creator)).
  { intros creator. unfold class_at. simpl. by rewrite lookup_insert_eq. }
  destruct instance_creator as [|f|[|]]; try done;
    unfold modify, ret; simpl; (split; [done|]); eexists mode, _;
    (split; [apply Hstored|]); (split; [done|]); (split; [done|]);
    apply Hgo, Hstored.
Qed.

End DecoratorFacts.

(** ** Registry *)

Section RegistryEdges.
Context {collaborators : Collaborators}.

Lemma getattr_pyroId_policy (h : gmap objref pyobj) (obj x : objref) (c c' : pyclass)
    (i : option string) (d : option nat) (t : bool) :
  h !! obj = Some {| o_kind := KClass c; o_pyroId := i; o_pyroDaemon := d; o_truthy := t |} →
  getattr_pyroId
    (<[obj := set_kind (KClass c')
                {| o_kind := KClass c; o_pyroId := i; o_pyroDaemon := d; o_truthy := t |}]> h) x
  = getattr_pyroId h x.
Proof.
  intros Hobj. unfold getattr_pyroId.
  destruct (decide (x = obj)) as [->|Hx].
  - rewrite lookup_insert_eq, Hobj. simpl. by destruct i.
  - rewrite lookup_insert_ne by done.
    destruct (h !! x) as [[k j dd tt']|]; [|done]. simpl.
    destruct j; [done|]. destruct k as [|cls|]; try done.
    destruct (decide (cls = obj)) as [->|Hc].
    + by rewrite lookup_insert_eq, Hobj.
    + by rewrite lookup_insert_ne.
Qed.

Lemma chosen_id_nonempty (objectId : value) (w : world) :
  ∃ a s, chosen_id objectId w = String a s.
Proof. destruct objectId as [| | |[|a s]| | | | |]; simpl; by eexists _, _. Qed.

Lemma register_TypeError (obj : objref) (objectId : value) (force : bool) (w : world) :
  truth (heap w) objectId = true → (∀ s, objectId ≠ VStr s) →
  register obj objectId force w
  = (Raise (new_exc TypeError "objectId must be a string or None"), w).
Proof.
  intros Htruth Hstr. unfold register, bind at 1, get at 1. unfold bind at 1.
  rewrite Htruth. destruct objectId as [| | |s| | | | |]; try done.
  by destruct (Hstr s).
Qed.

Lemma with_default_policy_spec (obj : objref) (w : world) :
  (match heap w !! obj with
   | Some ({| o_kind := KClass c |} as o) =>
       match c_pyroInstancing c with
       | None =>
           modify (with_heap
             <[obj := set_kind (KClass (set_pyroInstancing (Some ("session", None)) c)) o]>)
       | Some _ => ret tt
       end
   | _ => ret tt
   end) w = (Ok tt, with_default_policy obj w).
Proof.
  unfold with_default_policy.
  destruct (heap w !! obj) as [[[c|cls|it] i d t]|]; try done.
  by destruct (c_pyroInstancing c).
Qed.

(** What [register] does once the test of its id argument is passed. *)
Lemma register_steps (obj : objref) (objectId : value) (force : bool) (w : world) :
  (truth (heap w) objectId = true → ∃ s, objectId = VStr s) →
  let i := chosen_id objectId w in
  let w1 := prepared obj objectId w in
  register obj objectId force w
  = if negb force && match getattr_pyroId (heap w1) obj with
                     | Some (String _ _) => true
                     | _ => false
                     end
    then (Raise (new_exc DaemonError "object or class already has a Pyro id"), w1)
    else if negb force && bool_decide (i ∈ dom (objectsById (daemon w1)))
    then (Raise (new_exc DaemonError
                   "an object or class is already registered with that id"), w1)
    else match heap w1 !! obj with
         | Some o =>
             if has_dict (heap w1) obj
             then (Raise (new_exc NameError "name 'URI' is not defined"),
                   registration obj o i w1)
             else (Raise (new_exc AttributeError "object has no attribute '_pyroId'"), w1)
         | None => (Raise (new_exc AttributeError "object has no attribute '_pyroId'"), w1)
         end.
Proof.
  intros Hstr i w1. unfold register.
  unfold bind at 1, get at 1.
  assert (Hid : (if truth (heap w) objectId
                 then match objectId with
                      | VStr s => ret s
                      | _ => raise (new_exc TypeError "objectId must be a string or None")
                      end
                 else run! modify (with_uuid_calls S) in
                      ret ("obj_" +:+ UUID_hex (uuid4 (uuid_calls w)))) w
                = (Ok i, if truth (heap w) objectId then w else with_uuid_calls S w)).
  { subst i. destruct (truth (heap w) objectId) eqn:Htruth.
    - destruct (Hstr eq_refl) as [s ->]. by destruct s.
    - by destruct objectId as [| | |[|a s]| | | | |]. }
  unfold bind at 1. rewrite Hid.
  unfold bind at 1, get at 1.
  unfold bind at 1. rewrite with_default_policy_spec.
  fold (prepared obj objectId w). fold w1.
  unfold bind at 1, get at 1.
  unfold bind at 1.
  destruct force; cbn [negb andb].
  - unfold ret at 1. unfold bind at 1.
    destruct (heap w1 !! obj) as [o|] eqn:Ho; [|done].
    destruct (has_dict (heap w1) obj); [|done].
    unfold ret at 1. unfold bind at 1, modify at 1.
    unfold bind at 1, registration.
    by destruct (AUTOPROXY (config w1)).
  - destruct (getattr_pyroId (heap w1) obj) as [[|a s]|] eqn:Hpid.
    all: try done.
    all: destruct (bool_decide (i ∈ dom (objectsById (daemon w1)))); [done|].
    all: unfold ret at 1; unfold bind at 1.
    all: destruct (heap w1 !! obj) as [o|] eqn:Ho; [|done].
    all: destruct (has_dict (heap w1) obj); [|done].
    all: unfold ret at 1; unfold bind at 1, modify at 1.
    all: unfold bind at 1, registration.
    all: by destruct (AUTOPROXY (config w1)).
Qed.

Lemma prepared_spec (obj : objref) (objectId : value) (w : world) :
  let w1 := prepared obj objectId w in
  daemon w1 = daemon w
  ∧ (∀ x, getattr_pyroId (heap w1) x = getattr_pyroId (heap w) x)
  ∧ has_dict (heap w1) obj = has_dict (heap w) obj
  ∧ (∀ x, x ≠ obj → heap w1 !! x = heap w !! x)
  ∧ (heap w !! obj = None → heap w1 !! obj = None).
Proof.
  unfold prepared, with_default_policy.
  set (w0 := if truth (heap w) objectId then w else with_uuid_calls S w).
  assert (Hh : heap w0 = heap w) by (subst w0; by destruct (truth (heap w) objectId)).
  assert (Hd : daemon w0 = daemon w) by (subst w0; by destruct (truth (heap w) objectId)).
  rewrite <- Hh, <- Hd. clearbody w0. clear Hh Hd.
  destruct (heap w0 !! obj) as [[[c|cls|it] i d t]|] eqn:Ho; try done.
  destruct (c_pyroInstancing c); [done|]. simpl.
  split; [done|]. split; [|split; [|split]].
  - intros x. by apply getattr_pyroId_policy.
  - unfold has_dict. by rewrite lookup_insert_eq, Ho.
  - intros x Hx. by rewrite lookup_insert_ne.
  - done.
Qed.

Lemma registration_spec (obj : objref) (o : pyobj) (i : string) (w : world) :
  registered (registration obj o i w) obj i
  ∧ objectsById (daemon (registration obj o i w)) = <[i := obj]> (objectsById (daemon w))
  ∧ (∀ x, x ≠ obj → heap (registration obj o i w) !! x = heap w !! x)
  ∧ getattr_pyroId (heap (registration obj o i w)) obj = Some i.
Proof.
  unfold registration, registered, getattr_pyroId.
  destruct (AUTOPROXY (config w)); simpl; rewrite !lookup_insert_eq; simpl.
  all: split; [split; [done|by eexists _, _]|].
  all: split; [done|]; split; [|done].
  all: intros x Hx; by rewrite lookup_insert_ne.
Qed.

(** Every outcome of [register]: the registration is made and the
    [NameError] of [uriFor] ends the call, or a check refuses and the
    registry and the Pyro ids are as before. *)
Lemma register_cases (obj : objref) (objectId : value) (force : bool) (w : world) :
  ∃ e w', register obj objectId force w = (Raise e, w')
    ∧ ((e = new_exc NameError "name 'URI' is not defined"
        ∧ passes_checks obj objectId force w
        ∧ ∃ o, heap (prepared obj objectId w) !! obj = Some o
               ∧ w' = registration obj o (chosen_id objectId w) (prepared obj objectId w))
       ∨ (¬ passes_checks obj objectId force w
          ∧ daemon w' = daemon w
          ∧ (∀ x, getattr_pyroId (heap w') x = getattr_pyroId (heap w) x)
          ∧ ((e = new_exc TypeError "objectId must be a string or None"
              ∧ truth (heap w) objectId = true ∧ (∀ s, objectId ≠ VStr s) ∧ w' = w)
             ∨ (e = new_exc DaemonError "object or class already has a Pyro id"
                ∧ force = false
                ∧ ∃ a s, getattr_pyroId (heap w) obj = Some (String a s))
             ∨ (e = new_exc DaemonError
                      "an object or class is already registered with that id"
                ∧ force = false
                ∧ is_Some (objectsById (daemon w) !! chosen_id objectId w))
             ∨ (e = new_exc AttributeError "object has no attribute '_pyroId'"
                ∧ has_dict (heap w) obj = false)))).
Proof.
  destruct (truth (heap w) objectId) eqn:Htruth.
  1: assert ((∃ s, objectId = VStr s) ∨ (∀ s, objectId ≠ VStr s)) as [Hs|Hno]
       by (destruct objectId; try (by right); left; by eexists).
  2: { assert (Hs : ¬ ∃ s, objectId = VStr s) by (intros [s ->]; by destruct (Hno s)).
       rewrite register_TypeError by done.
       eexists _, _. split; [reflexivity|]. right.
       split; [intros (Hstr & _); by apply Hs, Hstr|].
       split; [done|]. split; [done|]. by left. }
  all: assert (Hstr : truth (heap w) objectId = true → ∃ s, objectId = VStr s)
         by (by rewrite Htruth).
  all: clear Htruth.
  all: rewrite (register_steps obj objectId force w Hstr).
  all: destruct (prepared_spec obj objectId w) as (Hd & Hids & Hdict & Hheap & Hnone).
  all: set (w1 := prepared obj objectId w) in *; clearbody w1.
  all: rewrite (Hids obj), Hd, Hdict, bool_decide_in_dom.
  all: assert (Hlast :
         ∃ e w', match heap w1 !! obj with
                 | Some o =>
                     if has_dict (heap w) obj
                     then (Raise (new_exc NameError "name 'URI' is not defined"),
                           registration obj o (chosen_id objectId w) w1)
                     else (Raise (new_exc AttributeError
                                    "object has no attribute '_pyroId'"), w1)
                 | None => (Raise (new_exc AttributeError
                                     "object has no attribute '_pyroId'"), w1)
                 end = (@Raise URI e, w')
           ∧ ((e = new_exc NameError "name 'URI' is not defined"
               ∧ has_dict (heap w) obj = true
               ∧ ∃ o, heap w1 !! obj = Some o ∧ w' = registration obj o (chosen_id objectId w) w1)
              ∨ (e = new_exc AttributeError "object has no attribute '_pyroId'"
                 ∧ has_dict (heap w) obj = false ∧ w' = w1)))
         by (destruct (heap w1 !! obj) as [o|] eqn:Ho;
             [destruct (has_dict (heap w) obj) eqn:Hhas;
              eexists _, _; (split; [reflexivity|]);
              [left; split; [done|]; split; [done|]; by exists o|by right]
             |eexists _, _; (split; [reflexivity|]); right; split; [done|]; split; [|done];
              rewrite <- Hdict; unfold has_dict; by rewrite Ho]).
  all: destruct Hlast as (e & w' & Hlast & Hcase).
  all: destruct force; cbn [negb andb].
  1,3: rewrite Hlast; exists e, w'; (split; [done|]);
       destruct Hcase as [(-> & Hhas & o & Ho & ->)|(-> & Hhas & ->)];
       [left; split; [done|]; split; [by split; [|split]|by exists o]
       |right; split; [intros (_ & Hdct & _); congruence|];
        split; [done|]; split; [done|]; by right; right; right].
  all: destruct (getattr_pyroId (heap w) obj) as [[|a s]|] eqn:Hpid.
  all: try (eexists _, _; (split; [reflexivity|]); right;
            split; [intros (_ & _ & Hforce); destruct (Hforce eq_refl) as [Hfree _];
                    by destruct (Hfree a s)|];
            split; [done|]; split; [done|]; right; left;
            split; [done|]; split; [done|]; by eexists _, _).
  all: case_bool_decide as Hin.
  all: try (eexists _, _; (split; [reflexivity|]); right;
            split; [intros (_ & _ & Hforce); destruct (Hforce eq_refl) as [_ Hnew];
                    rewrite Hnew in Hin; by destruct Hin|];
            split; [done|]; split; [done|]; right; right; left;
            split; [done|]; split; [done|]; exact Hin).
  all: assert (Hfree : objectsById (daemon w) !! chosen_id objectId w = None)
         by (by destruct (objectsById (daemon w) !! chosen_id objectId w) eqn:E; [destruct Hin; eexists|]).
  all: rewrite Hlast; exists e, w'; (split; [done|]);
       destruct Hcase as [(-> & Hhas & o & Ho & ->)|(-> & Hhas & ->)];
       [left; split; [done|]; split;
          [split; [done|]; split; [done|]; intros _; split; [|done];
           intros ? ?; congruence
          |by exists o]
       |right; split; [intros (_ & Hdct & _); congruence|];
        split; [done|]; split; [done|]; by right; right; right].
Qed.

(** What a call that ended in the [NameError] has done. *)
Lemma register_through (obj : objref) (objectId : value) (force : bool)
    (w w1 : world) (e : pyexc) :
  register obj objectId force w = (Raise e, w1) →
  exc_type e = NameError →
  e = new_exc NameError "name 'URI' is not defined"
  ∧ passes_checks obj objectId force w
  ∧ registered w1 obj (chosen_id objectId w)
  ∧ objectsById (daemon w1) = <[chosen_id objectId w := obj]> (objectsById (daemon w))
  ∧ (∀ x, x ≠ obj → heap w1 !! x = heap w !! x)
  ∧ getattr_pyroId (heap w1) obj = Some (chosen_id objectId w).
Proof.
  intros Hrun Hname.
  destruct (register_cases obj objectId force w) as (e' & w' & Hrun' & Hcase).
  rewrite Hrun in Hrun'. injection Hrun' as <- <-.
  destruct Hcase as [(-> & Hpass & o & Ho & ->)
                    |(_ & _ & _ & [(-> & _)|[(-> & _)|[(-> & _)|(-> & _)]]])];
    try done.
  destruct (registration_spec obj o (chosen_id objectId w) (prepared obj objectId w))
    as (Hreg & Hmap & Hheap & Hpid).
  destruct (prepared_spec obj objectId w) as (Hd & _ & _ & Hheap1 & _).
  split; [done|]. split; [done|]. split; [done|].
  split; [by rewrite Hmap, Hd|]. split; [|done].
  intros x Hx. by rewrite Hheap, Hheap1.
Qed.

(** [register] never returns: the URI it is to return is built by
    [uriFor], which ends in the [NameError] of the unbound name [URI].  A
    call that gets past the checks (its id argument is a string or false
    in a boolean context, the target can take attributes, and without
    [force] the target has no Pyro id and the id is free) makes the
    registration, the entry of the registry and both links on the object,
    and then raises [NameError("name 'URI' is not defined")]: the
    registration stays, and no URI is handed out.  Every other call is
    refused by one of the checks, with another error. *)
Theorem register_never_returns
    (obj : objref) (objectId : value) (force : bool) (w : world) :
  ∃ e w1, register obj objectId force w = (Raise e, w1)
    ∧ (exc_type e = NameError ↔ passes_checks obj objectId force w)
    ∧ (exc_type e = NameError →
         e = new_exc NameError "name 'URI' is not defined"
         ∧ registered w1 obj (chosen_id objectId w)
         ∧ objectsById (daemon w1)
           = <[chosen_id objectId w := obj]> (objectsById (daemon w))
         ∧ (∀ x, x ≠ obj → heap w1 !! x = heap w !! x)).
Proof.
  destruct (register_cases obj objectId force w) as (e & w1 & Hrun & Hcase).
  exists e, w1. split; [done|]. split.
  - destruct Hcase as [(-> & Hpass & _)
                      |(Hno & _ & _ & [(-> & _)|[(-> & _)|[(-> & _)|(-> & _)]]])];
      split; done.
  - intros Hname.
    destruct (register_through _ _ _ _ _ _ Hrun Hname) as (-> & _ & Hreg & Hmap & Hheap & _).
    done.
Qed.


(** A registration followed by the unregistration of the same object
    leaves the registry as it was before: the registration that
    [register] made before it raised the [NameError] is undone by
    [unregister]. *)
Theorem register_unregister_registry
    (w w1 : world) (obj : objref) (objectId : value) (e : pyexc) :
  register obj objectId false w = (Raise e, w1) →
  exc_type e = NameError →
  chosen_id objectId w ≠ DAEMON_NAME →
  ∃ w2, unregister (TObj obj) w1 = (Ok tt, w2)
        ∧ objectsById (daemon w2) = objectsById (daemon w).
Proof.
  intros Hreg Hname Hid.
  destruct (register_through _ _ _ _ _ _ Hreg Hname)
    as (_ & (_ & _ & Hforce) & Hregd & Hmap1 & _ & _).
  destruct (Hforce eq_refl) as [_ Hfree].
  destruct (unregister_registered_object w1 obj _ Hregd Hid) as (w2 & Hun & Hmap2 & _).
  exists w2. split; [done|].
  rewrite Hmap2, Hmap1. by apply delete_insert_id.
Qed.

(** An object or class whose registration was made cannot be registered
    again without [force], whatever id is asked for: although the first
    call ended in the [NameError], the second call is refused with
    [DaemonError("object or class already has a Pyro id")] and leaves the
    registry as the first call left it. *)
Theorem register_again_refused
    (obj : objref) (objectId again : value) (force : bool)
    (w w1 : world) (e : pyexc) :
  register obj objectId force w = (Raise e, w1) →
  exc_type e = NameError →
  (truth (heap w1) again = true → ∃ s, again = VStr s) →
  ∃ w2, register obj again false w1
        = (Raise (new_exc DaemonError "object or class already has a Pyro id"), w2)
        ∧ daemon w2 = daemon w1.
Proof.
  intros Hreg Hname Hagain.
  destruct (register_through _ _ _ _ _ _ Hreg Hname) as (_ & _ & _ & _ & _ & Hpid).
  destruct (chosen_id_nonempty objectId w) as (a & s & Hne). rewrite Hne in Hpid.
  rewrite (register_steps obj again false w1 Hagain).
  destruct (prepared_spec obj again w1) as (Hd & Hids & _).
  rewrite (Hids obj), Hpid. cbn [negb andb]. by eexists.
Qed.

(** With [force], the checks on the target and on the id are left out;
    re-registering a registered object under another id leaves the old id
    in the registry: both ids lead to the object, the object carries the
    new id only, and unregistering the object removes the new id and keeps
    the old one.  The call itself ends in the [NameError] of [uriFor]. *)
Theorem register_force_keeps_old_id
    (obj : objref) (i j : string) (w : world) :
  registered w obj i → has_dict (heap w) obj = true →
  j ≠ "" → j ≠ i → j ≠ DAEMON_NAME →
  ∃ w1 w2,
    register obj (VStr j) true w
    = (Raise (new_exc NameError "name 'URI' is not defined"), w1)
    ∧ objectsById (daemon w1) !! i = Some obj
    ∧ objectsById (daemon w1) !! j = Some obj
    ∧ getattr_pyroId (heap w1) obj = Some j
    ∧ unregister (TObj obj) w1 = (Ok tt, w2)
    ∧ objectsById (daemon w2) !! i = Some obj
    ∧ objectsById (daemon w2) !! j = None.
Proof.
  intros [Hentry (o & d & Ho & Hi & Hd)] Hdict Hne Hij Hname.
  destruct (register_cases obj (VStr j) true w) as (e & w1 & Hrun & Hcase).
  assert (Hpass : passes_checks obj (VStr j) true w).
  { split; [intros _; by eexists|]. split; [done|]. intros [=]. }
  destruct Hcase as [(-> & _)|(Hno & _)]; [|done].
  destruct (register_through _ _ _ _ _ _ Hrun eq_refl) as (_ & _ & Hregd & Hmap & _ & Hpid).
  assert (Hj : chosen_id (VStr j) w = j) by (by destruct j).
  rewrite Hj in Hregd, Hmap, Hpid.
  destruct (unregister_registered_object w1 obj j Hregd Hname) as (w2 & Hun & Hmap2 & _).
  exists w1, w2. split; [done|].
  rewrite Hmap2, Hmap. repeat split.
  - by rewrite lookup_insert_ne.
  - by rewrite lookup_insert_eq.
  - done.
  - done.
  - rewrite lookup_delete_ne by done. by rewrite lookup_insert_ne.
  - by rewrite lookup_delete_eq.
Qed.

(** [unregister] never removes the daemon's own introspection object, and
    never adds or changes an entry: for every argument and outcome, the
    entry of [DAEMON_NAME] is as before, and every entry of the registry
    afterwards was there before. *)
Theorem unregister_keeps_daemon_object (x : target) (w : world) :
  let w' := (unregister x w).2 in
  objectsById (daemon w') !! DAEMON_NAME = objectsById (daemon w) !! DAEMON_NAME
  ∧ objectsById (daemon w') ⊆ objectsById (daemon w).
Proof.
  unfold unregister, del_pyroId, del_pyroDaemon, bind, get, ret, modify, raise.
  repeat case_match; simplify_eq; simpl; try done.
  all: match goal with
       | H : (?i =? DAEMON_NAME) = false |- _ => apply String.eqb_neq in H
       end.
  all: split; [by rewrite lookup_delete_ne|apply delete_subseteq].
Qed.

(** What the introspection object lists follows the registry: after a
    registration was made (the call of [register] ended in the
    [NameError] of [uriFor]) the id is among [registered()], with every id
    that was registered before; after the id is unregistered it is no
    longer listed. *)
Theorem registered_follows_registry
    (obj : objref) (objectId : value) (force : bool)
    (w w1 : world) (e : pyexc) :
  register obj objectId force w = (Raise e, w1) →
  exc_type e = NameError →
  chosen_id objectId w ≠ DAEMON_NAME →
  ∃ l1 w2 l2,
    DaemonObject.registered w1 = (Ok l1, w1)
    ∧ chosen_id objectId w ∈ l1
    ∧ (∀ k, is_Some (objectsById (daemon w) !! k) → k ∈ l1)
    ∧ unregister (TStr (chosen_id objectId w)) w1 = (Ok tt, w2)
    ∧ DaemonObject.registered w2 = (Ok l2, w2)
    ∧ (chosen_id objectId w ∉ l2)
    ∧ (∀ k, k ≠ chosen_id objectId w → (k ∈ l2 ↔ k ∈ l1)).
Proof.
  intros Hreg Hnameerr Hname.
  destruct (register_through _ _ _ _ _ _ Hreg Hnameerr)
    as (_ & _ & [Hentry _] & Hmap & _ & _).
  set (id := chosen_id objectId w) in *.
  assert (Hkeys : ∀ (m : gmap string objref) k,
            k ∈ (map_to_list m).*1 ↔ is_Some (m !! k)).
  { intros m k. rewrite list_elem_of_fmap. split.
    - intros ([k' v] & -> & Hin). apply elem_of_map_to_list in Hin. by eexists.
    - intros [v Hv]. exists (k, v). split; [done|]. by apply elem_of_map_to_list. }
  apply String.eqb_neq in Hname.
  eexists _, _, _. split; [reflexivity|].
  split; [apply Hkeys; by eexists|].
  split.
  { intros k [v Hk]. apply Hkeys. rewrite Hmap.
    destruct (decide (k = id)) as [->|Hne].
    - rewrite lookup_insert_eq. by eexists.
    - rewrite lookup_insert_ne by done. by eexists. }
  rewrite unregister_str, Hname, bool_decide_true by by eexists.
  split; [reflexivity|]. split; [reflexivity|]. simpl.
  split.
  - rewrite Hkeys, lookup_delete_eq. by intros [? ?].
  - intros k Hk. rewrite !Hkeys. by rewrite lookup_delete_ne.
Qed.

End RegistryEdges.

(** ** Instancing modes *)

Section InstancingModes.
Context {collaborators : Collaborators}.

(** Single mode: once an instance that is true in a boolean context has
    been created, every connection is served by it, and nothing changes
    any more. *)
Theorem getInstance_single_shared
    (w w1 : world) (clazz instance : objref) (conn : connref)
    (creator : option pyfunction) :
  c_pyroInstancing (class_at (heap w) clazz) = Some ("single", creator) →
  _pyroInstances (daemon w) !! clazz = None →
  createInstance clazz creator w = (Ok instance, w1) →
  c_pyroInstancing (class_at (heap w1) clazz) = Some ("single", creator) →
  truthy (heap w1) instance = true →
  ∃ w2, _getInstance clazz conn w = (Ok instance, w2)
        ∧ ∀ other, _getInstance clazz other w2 = (Ok instance, w2).
Proof.
  intros Hmode Hnone Hcreate Hmode1 Htrue.
  eexists. split.
  - by apply (getInstance_single_creates w w1 clazz instance conn creator).
  - intros other. apply (getInstance_single_reuses _ _ _ _ creator); simpl; try done.
    by rewrite lookup_insert_eq.
Qed.

(** Session mode, for a class that keeps its policy and whose created
    instance is true in a boolean context: the instance is created once
    per connection and kept on the connection: the next request on the
    connection is served by the same instance, and neither the daemon nor
    any other connection learns of it.  (The test on the stored instance
    is [if not instance], as in single mode: an instance that is false in
    a boolean context is not found again.) *)
Theorem getInstance_session_per_connection
    (w w1 : world) (clazz instance : objref) (conn : connref)
    (creator : option pyfunction) :
  c_pyroInstancing (class_at (heap w) clazz) = Some ("session", creator) →
  conn_pyroInstances (connection_at w conn) !! clazz = None →
  createInstance clazz creator w = (Ok instance, w1) →
  c_pyroInstancing (class_at (heap w1) clazz) = Some ("session", creator) →
  truthy (heap w1) instance = true →
  ∃ w2, _getInstance clazz conn w = (Ok instance, w2)
        ∧ _getInstance clazz conn w2 = (Ok instance, w2)
        ∧ daemon w2 = daemon w1
        ∧ ∀ other, other ≠ conn → connection_at w2 other = connection_at w1 other.
Proof.
  intros Hmode Hnone Hcreate Hmode1 Htrue.
  eexists. split; [|split; [|split]].
  - unfold _getInstance, bind, get, ret. rewrite Hmode. simpl. rewrite Hnone.
    unfold usable, not_. simpl. rewrite Hcreate.
    unfold update_connection, modify. reflexivity.
  - unfold _getInstance, bind, get, ret. simpl. rewrite Hmode1. simpl.
    unfold connection_at at 1. simpl. rewrite lookup_insert_eq. simpl.
    rewrite lookup_insert_eq. unfold usable, not_. by rewrite Htrue.
  - done.
  - intros other Hother. unfold connection_at. simpl. by rewrite lookup_insert_ne.
Qed.


End InstancingModes.

(** ** The life of a stream *)

Section StreamLife.
Context {collaborators : Collaborators}.

Lemma get_next_stream_item_unknown (w : world) (streamId : string) :
  streaming_responses (daemon w) !! streamId = None →
  get_next_stream_item streamId w
  = (Raise (new_exc PyroError "item stream terminated"), w).
Proof.
  intros Hnone. unfold get_next_stream_item, bind, get, raise.
  by destruct (streaming_responses (daemon w) !! streamId).
Qed.

(** [close_stream] never fails, also for an id that names no stream;
    afterwards the stream is gone, every other stream is as before, a
    fetch on the id reports a terminated stream, and closing again changes
    nothing. *)
Theorem close_stream_terminates (w : world) (streamId : string) :
  ∃ w1, close_stream streamId w = (Ok tt, w1)
        ∧ streaming_responses (daemon w1) = delete streamId (streaming_responses (daemon w))
        ∧ heap w1 = heap w
        ∧ get_next_stream_item streamId w1
          = (Raise (new_exc PyroError "item stream terminated"), w1)
        ∧ close_stream streamId w1 = (Ok tt, w1).
Proof.
  unfold close_stream, del_stream, bind, get, ret, modify, raise.
  destruct (streaming_responses (daemon w) !! streamId) as [e|] eqn:He.
  - rewrite He. eexists. split; [reflexivity|]. simpl. rewrite lookup_delete_eq.
    repeat split. apply get_next_stream_item_unknown. simpl.
    by rewrite lookup_delete_eq.
  - exists w. rewrite He. split; [done|]. split; [by rewrite delete_id|].
    repeat split. by apply get_next_stream_item_unknown.
Qed.

(** When a client goes away, no stream stays bound to it and the streams
    of the other clients are untouched, before the hook of the subclass
    runs.  With a linger time configured, its streams are kept without a
    client and stamped with the time of the disconnect; without one, they
    are removed. *)
Theorem clientDisconnect_unbinds (w : world) (conn : connref) :
  ∃ w1,
    _clientDisconnect conn w = clientDisconnect conn w1
    ∧ heap w1 = heap w
    ∧ (∀ id client ts lt stream,
         streaming_responses (daemon w1) !! id = Some (client, ts, lt, stream) →
         client ≠ Some conn)
    ∧ (∀ id client ts lt stream,
         client ≠ Some conn →
         streaming_responses (daemon w) !! id = Some (client, ts, lt, stream) →
         streaming_responses (daemon w1) !! id = Some (client, ts, lt, stream))
    ∧ (∀ id ts lt stream,
         streaming_responses (daemon w) !! id = Some (Some conn, ts, lt, stream) →
         streaming_responses (daemon w1) !! id
         = if (0 <? ITER_STREAM_LINGER (config w))%Z
           then Some (None, ts, now w, stream)
           else None).
Proof.
  unfold _clientDisconnect, bind, get, modify.
  destruct (0 <? ITER_STREAM_LINGER (config w))%Z; simpl; unfold stream_entry in *.
  - eexists. split; [reflexivity|]. simpl. split; [done|]. split; [|split].
    + intros id client ts lt stream. rewrite lookup_fmap.
      match goal with
      | |- context [_ <$> ?x] => destruct x as [[[[c t] l] s]|]; simpl; [|done]
      end.
      case_bool_decide; intros [= <- <- <- <-]; done.
    + intros id client ts lt stream Hother Hentry. rewrite lookup_fmap, Hentry. simpl.
      by rewrite bool_decide_false.
    + intros id ts lt stream Hentry. rewrite lookup_fmap, Hentry. simpl.
      by rewrite bool_decide_true.
  - eexists. split; [reflexivity|]. simpl. split; [done|]. split; [|split].
    + intros id client ts lt stream [_ Hne]%map_lookup_filter_Some. done.
    + intros id client ts lt stream Hother Hentry.
      apply map_lookup_filter_Some. done.
    + intros id ts lt stream Hentry. apply map_lookup_filter_None. right.
      intros e He. rewrite Hentry in He. injection He as <-. simpl. tauto.
Qed.

(** The stream of a client that went away, under a linger time and with
    the hooks of the base class: the stream is kept without a client; a
    housekeeping run [dt] later removes it exactly when it is past its
    lifetime by then, or when more than the linger time has passed since
    the disconnect (a disconnect at time zero never counts as
    lingering); otherwise the stream is still there. *)
Theorem lingering_stream_expiry
    (w : world) (conn : connref) (id : string) (ts lt : Z) (stream : objref) :
  (∀ c w', clientDisconnect c w' = (Ok tt, w')) →
  (∀ w', housekeeping w' = (Ok tt, w')) →
  (0 < ITER_STREAM_LINGER (config w))%Z →
  mustshutdown (daemon w) = false →
  streaming_responses (daemon w) !! id = Some (Some conn, ts, lt, stream) →
  ∃ w1,
    _clientDisconnect conn w = (Ok tt, w1)
    ∧ ∀ dt, ∃ w2,
        _housekeeping (with_now (λ t, t + dt)%Z w1) = (Ok tt, w2)
        ∧ streaming_responses (daemon w2) !! id
          = if ((0 <? ITER_STREAM_LIFETIME (config w))%Z
                && (ITER_STREAM_LIFETIME (config w) <? now w + dt - ts)%Z)
               || (negb (now w =? 0)%Z && (ITER_STREAM_LINGER (config w) <? dt)%Z)
            then None
            else Some (None, ts, now w, stream).
Proof.
  intros Hhook1 Hhook2 Hlinger Hrun Hentry.
  apply Z.ltb_lt in Hlinger as Hlinger'.
  set (w1 := with_daemon (with_streaming_responses (fmap (λ info : stream_entry,
            let '(client, timestamp, _, stream) := info in
            if bool_decide (client = Some conn)
            then (None, timestamp, now w, stream)
            else info))) w).
  assert (Hdis : _clientDisconnect conn w = (Ok tt, w1)).
  { unfold _clientDisconnect, bind, get, modify. rewrite Hlinger'. by rewrite Hhook1. }
  assert (Hmine : streaming_responses (daemon w1) !! id = Some (None, ts, now w, stream)).
  { unfold w1. simpl. unfold stream_entry in *. rewrite lookup_fmap, Hentry. simpl.
    by rewrite bool_decide_true. }
  exists w1. split; [done|].
  intros dt. unfold _housekeeping, bind, get, modify, ret.
  assert (Hcfg : config w1 = config w) by done.
  assert (Hnow : now w1 = now w) by done.
  assert (Hshut : mustshutdown (daemon w1) = false) by done.
  clearbody w1.
  simpl. rewrite Hshut.
  case_bool_decide as Hempty.
  { rewrite Hempty in Hmine. by rewrite lookup_empty in Hmine. }
  rewrite Hhook2. eexists. split; [reflexivity|].
  change (sweep_streams (with_now (λ t, t + dt)%Z w1) (streaming_responses (daemon w1)) !! id
          = if ((0 <? ITER_STREAM_LIFETIME (config w))%Z
                && (ITER_STREAM_LIFETIME (config w) <? now w + dt - ts)%Z)
               || (negb (now w =? 0)%Z && (ITER_STREAM_LINGER (config w) <? dt)%Z)
            then None
            else Some (None, ts, now w, stream)).
  unfold sweep_streams.
  change (config (with_now (λ t, t + dt)%Z w1)) with (config w1).
  rewrite Hcfg, Hlinger'.
  set (expired1 := ((0 <? ITER_STREAM_LIFETIME (config w))%Z
                    && (ITER_STREAM_LIFETIME (config w) <? now w + dt - ts)%Z)).
  set (expired2 := negb (now w =? 0)%Z && (ITER_STREAM_LINGER (config w) <? dt)%Z).
  assert (Hp1 : past_lifetime (with_now (λ t, t + dt)%Z w1) (None, ts, now w, stream)
                = expired1).
  { unfold past_lifetime. simpl. by rewrite Hcfg, Hnow. }
  assert (Hp2 : past_linger (with_now (λ t, t + dt)%Z w1) (None, ts, now w, stream)
                = expired2).
  { unfold past_linger, expired2. simpl. rewrite Hcfg, Hnow.
    by replace (now w + dt - now w)%Z with dt by lia. }
  unfold stream_entry in *.
  destruct (0 <? ITER_STREAM_LIFETIME (config w))%Z eqn:Hlife.
  - destruct expired1 eqn:He1; cbn [orb].
    + apply map_lookup_filter_None. left. apply map_lookup_filter_None. right.
      intros e He. rewrite Hmine in He. injection He as <-. cbn [snd].
      rewrite Hp1. done.
    + destruct expired2 eqn:He2.
      * apply map_lookup_filter_None. right. intros e He.
        apply map_lookup_filter_Some in He as [He _].
        rewrite Hmine in He. injection He as <-. cbn [snd]. rewrite Hp2. done.
      * apply map_lookup_filter_Some. split.
        -- apply map_lookup_filter_Some. split; [done|]. cbn [snd]. by rewrite Hp1.
        -- cbn [snd]. by rewrite Hp2.
  - subst expired1. cbn [andb orb]. destruct expired2 eqn:He2.
    + apply map_lookup_filter_None. right. intros e He.
      rewrite Hmine in He. injection He as <-. cbn [snd]. rewrite Hp2. done.
    + apply map_lookup_filter_Some. split; [done|]. cbn [snd]. by rewrite Hp2.
Qed.

(** After [shutdown] every stream is terminated for its client, and the
    periodical housekeeping does nothing any more, the hook of the
    subclass included. *)
Theorem shutdown_ends_streams (w : world) :
  ∃ w1, shutdown w = (Ok tt, w1)
        ∧ (∀ streamId, get_next_stream_item streamId w1
                       = (Raise (new_exc PyroError "item stream terminated"), w1))
        ∧ _housekeeping w1 = (Ok tt, w1).
Proof.
  eexists. split; [reflexivity|]. split; [|done].
  intros streamId. apply get_next_stream_item_unknown. simpl.
  by rewrite lookup_empty.
Qed.

End StreamLife.

(** ** The paths of a request *)

Section RequestPaths.
Context {collaborators : Collaborators}.

Lemma annotations_own (w : world) : annotations w = (Ok (own_annotations w), w).
Proof.
  unfold annotations, own_annotations, bind, get, ret.
  by destruct (correlation_id (current_context w)).
Qed.

(** A request that reaches an object is dispatched on it, in the context
    of the call, and the outcome of the call decides the rest. *)
Lemma handleRequest_reaches
    (conn : connref) (msg : message) (ser : serializer) (method : string)
    (vargs : list value) (kwargs : value) (obj : objref) (w0 w3 : world) :
  reaches conn msg ser method vargs kwargs obj w0 w3 →
  handleRequest conn w0
  = conclude conn
      ((let! reply := dispatch conn ser obj method vargs kwargs in
        answer conn ser (request_frame msg) reply) (request_frame msg, w3)).
Proof.
  intros (w2 & objId & registered_obj & (w1 & Hrecv & Hcorr)
          & (Htype & Haccepted & Hser & Hcall) & Hobj & Hresolve).
  unfold handleRequest, bind at 1. rewrite Hrecv.
  unfold handleRequest_body.
  unfold bind at 1, assign at 1.
  unfold bind at 1, in_world at 1. simpl. rewrite Hcorr.
  rewrite Htype. simpl.
  unfold bind at 1, the_world at 1. simpl.
  rewrite bool_decide_true by done. simpl.
  unfold bind at 1, lift at 1. rewrite Hser.
  unfold bind at 1, lift at 1. rewrite Hcall.
  unfold bind at 1, in_world at 1, modify at 1. simpl.
  unfold bind at 1, the_world at 1. simpl.
  unfold bind at 1, locals at 1. simpl.
  rewrite Hobj.
  unfold bind at 1, in_world at 1. cbn [fst snd].
  unfold in_context in Hresolve. rewrite Hresolve.
  reflexivity.
Qed.

(** The exception handler on an error that is to be reported: for a
    oneway request nothing is sent. *)
Lemma handleRequest_except_oneway (conn : connref) (fr : frame) (e : pyexc) (w : world) :
  has_flag (request_flags fr) FLAGS_ONEWAY = true →
  reportable e →
  handleRequest_except conn fr e w = (if isCallback fr then Raise e else Ok tt, w).
Proof.
  intros Honeway (_ & Hcomm & Hsec).
  unfold handleRequest_except. destruct (exc_pyroMsg e) as [[seq sid]|];
    unfold bind, get, ret, raise; rewrite Honeway, Hcomm, Hsec, andb_false_r; simpl;
    rewrite !orb_false_r; by destruct (isCallback fr).
Qed.

Lemma handleRequest_except_answers
    (conn : connref) (fr : frame) (e : pyexc) (w : world)
    (ser : serializer) (data : list Byte.byte) (compressed : bool) :
  has_flag (request_flags fr) FLAGS_ONEWAY = false →
  exc_type e ≠ ConnectionClosedError →
  isinstance_exc e SerializationError || negb (isinstance_exc e CommunicationError) = true →
  let seq := match exc_pyroMsg e with Some (s, _) => s | None => request_seq fr end in
  let sid := match exc_pyroMsg e with
             | Some (_, s) => s
             | None => request_serializer_id fr
             end in
  get_serializer_by_id sid = Ok ser →
  serializeData ser (VExc (with_traceback w e)) false = Ok (data, compressed) →
  handleRequest_except conn fr e w
  = (if isCallback fr || isinstance_exc e CommunicationError
        || isinstance_exc e SecurityError
     then Raise (with_traceback w e) else Ok tt,
     sent_on conn
       (SendingMessage MSG_RESULT
          (if compressed then Z.lor FLAGS_EXCEPTION FLAGS_COMPRESSED else FLAGS_EXCEPTION)
          seq sid data (own_annotations w)) w).
Proof.
  intros Honeway Hclosed Hkind seq sid Hser Hdata.
  unfold handleRequest_except.
  assert (Hsend :
    _sendExceptionResponse conn seq sid e
      (Some (formatTraceback (DETAILED_TRACEBACK (config w)) e)) 0 ∅ w
    = (Ok tt,
       sent_on conn
         (SendingMessage MSG_RESULT
            (if compressed then Z.lor FLAGS_EXCEPTION FLAGS_COMPRESSED else FLAGS_EXCEPTION)
            seq sid data (own_annotations w)) w)).
  { unfold _sendExceptionResponse, bind, lift, try_except. rewrite Hser.
    unfold with_traceback in Hdata. rewrite Hdata. rewrite annotations_own.
    rewrite send_spec. rewrite (left_id_L ∅ (∪)). by destruct compressed. }
  subst seq sid.
  destruct (exc_pyroMsg e) as [[s i]|]; unfold bind, get, ret, raise;
    rewrite Honeway, Hkind, (bool_decide_false _ Hclosed); cbn [negb andb orb];
    rewrite Hsend;
    by destruct (isCallback fr || isinstance_exc e CommunicationError
                 || isinstance_exc e SecurityError).
Qed.

Lemma handleRequest_except_reported
    (conn : connref) (fr : frame) (e : pyexc) (w : world)
    (ser : serializer) (data : list Byte.byte) (compressed : bool) :
  has_flag (request_flags fr) FLAGS_ONEWAY = false →
  reportable e →
  let seq := match exc_pyroMsg e with Some (s, _) => s | None => request_seq fr end in
  let sid := match exc_pyroMsg e with
             | Some (_, s) => s
             | None => request_serializer_id fr
             end in
  get_serializer_by_id sid = Ok ser →
  serializeData ser (VExc (with_traceback w e)) false = Ok (data, compressed) →
  handleRequest_except conn fr e w
  = (if isCallback fr then Raise (with_traceback w e) else Ok tt,
     sent_on conn
       (SendingMessage MSG_RESULT
          (if compressed then Z.lor FLAGS_EXCEPTION FLAGS_COMPRESSED else FLAGS_EXCEPTION)
          seq sid data (own_annotations w)) w).
Proof.
  intros Honeway (Hclosed & Hcomm & Hsec) seq sid Hser Hdata.
  rewrite (handleRequest_except_answers _ _ _ _ ser data compressed); try done.
  - by rewrite Hcomm, Hsec, !orb_false_r.
  - by rewrite Hcomm, orb_true_r.
Qed.

Lemma take_correlation_id_echo (msg : message) (w1 w2 : world) :
  take_correlation_id msg w1 = (Ok tt, w2) →
  ∃ u, correlation_id (current_context w2) = Some u
       ∧ connections w2 = connections w1
       ∧ daemon w2 = daemon w1
       ∧ heap w2 = heap w1
       ∧ call_log w2 = call_log w1
       ∧ ∀ b, msg_annotations msg !! "CORR" = Some b → UUID_of_bytes b = Ok u.
Proof.
  unfold take_correlation_id, bind, lift, get, modify.
  destruct (msg_annotations msg !! "CORR") as [b|].
  - destruct (UUID_of_bytes b) as [u|e] eqn:Hu; [|done].
    intros [= <-]. exists u. repeat split; try done. by intros ? [= <-].
  - intros [= <-]. eexists. by repeat split.
Qed.

(** A PING is answered at once with a PING that carries the sequence
    number and the serializer id of the request, no flags, and the
    correlation id of the request when it brought one; this does not
    depend on the serializer being accepted, nothing is deserialized, no
    object is looked up and no method is called. *)
Theorem handleRequest_ping (conn : connref) (msg : message) (w0 w2 : world) :
  received conn msg w0 w2 →
  msg_type_of msg = MSG_PING →
  ∃ reply,
    handleRequest conn w0 = (Ok tt, sent_on conn reply w2)
    ∧ reply = SendingMessage MSG_PING 0 (msg_seq msg) (msg_serializer_id msg)
                (list_byte_of_string "pong") (own_annotations w2)
    ∧ (∀ b u, msg_annotations msg !! "CORR" = Some b → UUID_of_bytes b = Ok u →
              msg_annotations reply !! "CORR" = Some (UUID_bytes u)).
Proof.
  intros (w1 & Hrecv & Hcorr) Htype.
  eexists. split; [|split; [reflexivity|]].
  - unfold handleRequest, bind at 1. rewrite Hrecv.
    unfold handleRequest_body.
    unfold bind at 1, assign at 1.
    unfold bind at 1, in_world at 1. simpl. rewrite Hcorr.
    rewrite Htype. simpl.
    unfold bind at 1, in_world at 1. simpl. rewrite annotations_own.
    reflexivity.
  - intros b u Hb Hu. simpl.
    destruct (take_correlation_id_echo _ _ _ Hcorr) as (u' & Hid & _ & _ & _ & _ & Hecho).
    specialize (Hecho b Hb). rewrite Hu in Hecho. injection Hecho as <-.
    unfold own_annotations. rewrite Hid. by rewrite lookup_singleton_eq.
Qed.

(** A call on an object id that is not registered: a oneway request is
    dropped without an answer; any other request is answered with one
    RESULT message flagged as an exception, with the sequence number of
    the request and the serialized [DaemonError("unknown object")]; the
    error is not raised to the caller of [handleRequest]. *)
Theorem handleRequest_unknown_object
    (conn : connref) (msg : message) (ser : serializer) (objId method : string)
    (vargs : list value) (kwargs : value) (w0 w2 : world) :
  received conn msg w0 w2 →
  decoded msg ser objId method vargs kwargs w2 →
  objectsById (daemon w2) !! objId = None →
  let w3 := in_context conn msg w2 in
  let e := new_exc DaemonError "unknown object" in
  if has_flag (msg_flags msg) FLAGS_ONEWAY
  then handleRequest conn w0 = (Ok tt, w3)
  else
    ∀ data compressed,
      serializeData ser (VExc (with_traceback w3 e)) false = Ok (data, compressed) →
      ∃ reply,
        handleRequest conn w0 = (Ok tt, sent_on conn reply w3)
        ∧ reply = SendingMessage MSG_RESULT
                    (if compressed then Z.lor FLAGS_EXCEPTION FLAGS_COMPRESSED
                     else FLAGS_EXCEPTION)
                    (msg_seq msg) (msg_serializer_id msg) data (own_annotations w3)
        ∧ has_flag (msg_flags reply) FLAGS_EXCEPTION = true.
Proof.
  intros (w1 & Hrecv & Hcorr) (Htype & Haccepted & Hser & Hcall) Hobj w3 e.
  assert (Hbody : handleRequest conn w0
                  = handleRequest_except conn (request_frame msg) e w3).
  { unfold handleRequest, bind at 1. rewrite Hrecv.
    unfold handleRequest_body.
    unfold bind at 1, assign at 1.
    unfold bind at 1, in_world at 1. simpl. rewrite Hcorr.
    rewrite Htype. simpl.
    unfold bind at 1, the_world at 1. simpl.
    rewrite bool_decide_true by done. simpl.
    unfold bind at 1, lift at 1. rewrite Hser.
    unfold bind at 1, lift at 1. rewrite Hcall.
    unfold bind at 1, in_world at 1, modify at 1. simpl.
    unfold bind at 1, the_world at 1. simpl.
    unfold bind at 1, locals at 1. simpl.
    rewrite Hobj. reflexivity. }
  assert (Hrep : reportable e) by (by repeat split).
  rewrite Hbody.
  destruct (has_flag (msg_flags msg) FLAGS_ONEWAY) eqn:Honeway.
  - by rewrite handleRequest_except_oneway.
  - intros data compressed Hdata. eexists. split; [|split; [reflexivity|]].
    + by rewrite (handleRequest_except_reported _ _ _ _ ser data compressed).
    + simpl. by destruct compressed.
Qed.

(** The dispatch of a plain method call ends where the method is to be
    resolved: [util] is not bound. *)
Lemma dispatch_plain_call
    (conn : connref) (msg : message) (ser : serializer) (method : string)
    (vargs : list value) (kwargs : value) (obj : objref) (w3 : world) :
  plain_call msg method →
  dispatch conn ser obj method vargs kwargs (request_frame msg, w3)
  = (Raise (new_exc NameError "name 'util' is not defined"), (request_frame msg, w3)).
Proof.
  intros (Hbatch & Hget & Hset).
  apply String.eqb_neq in Hget, Hset.
  unfold dispatch.
  unfold bind at 1, locals at 1. cbn [fst snd request_frame set_request request_flags].
  rewrite Hbatch, Hget, Hset. reflexivity.
Qed.

(** The dispatch of a batch ends at its first tuple, where the method is
    to be resolved. *)
Lemma dispatch_batch
    (conn : connref) (msg : message) (ser : serializer) (method : string)
    (item : value) (rest : list value) (kwargs : value) (obj : objref) (w3 : world)
    (m a k : value) :
  has_flag (msg_flags msg) FLAGS_BATCH = true →
  unpack3 item = Ok (m, a, k) →
  dispatch conn ser obj method (item :: rest) kwargs (request_frame msg, w3)
  = (Raise (new_exc NameError "name 'util' is not defined"), (request_frame msg, w3)).
Proof.
  intros Hbatch Hitem. unfold dispatch.
  unfold bind at 1, locals at 1. cbn [fst snd request_frame set_request request_flags].
  rewrite Hbatch. unfold bind at 1, in_world at 1. cbn [fst snd batch_loop].
  unfold bind at 1, lift at 1. rewrite Hitem. reflexivity.
Qed.

(** A request that reaches an object and whose dispatch raises the
    [NameError] of [util] at once: the answer is the one of the exception
    handler. *)
Lemma handleRequest_unresolved
    (conn : connref) (msg : message) (ser : serializer) (method : string)
    (vargs : list value) (kwargs : value) (obj : objref) (w0 w3 : world) :
  reaches conn msg ser method vargs kwargs obj w0 w3 →
  dispatch conn ser obj method vargs kwargs (request_frame msg, w3)
  = (Raise (new_exc NameError "name 'util' is not defined"), (request_frame msg, w3)) →
  let e := new_exc NameError "name 'util' is not defined" in
  if has_flag (msg_flags msg) FLAGS_ONEWAY
  then handleRequest conn w0 = (Ok tt, w3)
  else
    ∀ data compressed,
      serializeData ser (VExc (with_traceback w3 e)) false = Ok (data, compressed) →
      ∃ reply,
        handleRequest conn w0 = (Ok tt, sent_on conn reply w3)
        ∧ reply = SendingMessage MSG_RESULT
                    (if compressed then Z.lor FLAGS_EXCEPTION FLAGS_COMPRESSED
                     else FLAGS_EXCEPTION)
                    (msg_seq msg) (msg_serializer_id msg) data (own_annotations w3)
        ∧ has_flag (msg_flags reply) FLAGS_EXCEPTION = true
        ∧ has_flag (msg_flags reply) FLAGS_BATCH = false.
Proof.
  intros Hreach Hdispatch e.
  assert (Hrun : handleRequest conn w0
                 = handleRequest_except conn (request_frame msg) e w3).
  { rewrite (handleRequest_reaches _ _ _ _ _ _ _ _ _ Hreach).
    unfold bind at 1. by rewrite Hdispatch. }
  destruct Hreach as (w2 & objId & registered_obj & _ & (_ & _ & Hser & _) & _).
  assert (Hrep : reportable e) by (by repeat split).
  rewrite Hrun.
  destruct (has_flag (msg_flags msg) FLAGS_ONEWAY) eqn:Honeway.
  - by rewrite handleRequest_except_oneway.
  - intros data compressed Hdata. eexists. split; [|split; [reflexivity|]].
    + by rewrite (handleRequest_except_reported _ _ _ _ ser data compressed).
    + simpl. by destruct compressed.
Qed.

(** C1, as the code has it.  The batch loop resolves each method through
    [util.getAttribute], and the module does not bind [util]: for a batch
    of at least one tuple, the [NameError] is raised at the first tuple,
    before the [try] around the call, so that no method of the batch is
    called and no list of results is built.  A oneway request gets no
    answer.  Any other request is answered by the exception handler: one
    RESULT message flagged as an exception, without the BATCH flag, that
    carries the serialized [NameError("name 'util' is not defined")]
    under the sequence number of the request. *)
Theorem handleRequest_batch_NameError
    (conn : connref) (msg : message) (ser : serializer) (method : string)
    (item : value) (rest : list value) (kwargs : value) (obj : objref)
    (m a k : value) (w0 w3 : world) :
  reaches conn msg ser method (item :: rest) kwargs obj w0 w3 →
  has_flag (msg_flags msg) FLAGS_BATCH = true →
  unpack3 item = Ok (m, a, k) →
  let e := new_exc NameError "name 'util' is not defined" in
  batch_loop obj (item :: rest) [] w3 = (Raise e, w3)
  ∧ if has_flag (msg_flags msg) FLAGS_ONEWAY
    then handleRequest conn w0 = (Ok tt, w3)
    else
      ∀ data compressed,
        serializeData ser (VExc (with_traceback w3 e)) false = Ok (data, compressed) →
        ∃ reply,
          handleRequest conn w0 = (Ok tt, sent_on conn reply w3)
          ∧ reply = SendingMessage MSG_RESULT
                      (if compressed then Z.lor FLAGS_EXCEPTION FLAGS_COMPRESSED
                       else FLAGS_EXCEPTION)
                      (msg_seq msg) (msg_serializer_id msg) data (own_annotations w3)
          ∧ has_flag (msg_flags reply) FLAGS_EXCEPTION = true
          ∧ has_flag (msg_flags reply) FLAGS_BATCH = false
          ∧ call_log (sent_on conn reply w3) = call_log w3.
Proof.
  intros Hreach Hbatch Hitem e. split.
  { cbn [batch_loop]. unfold bind at 1, lift at 1. by rewrite Hitem. }
  pose proof (handleRequest_unresolved _ _ _ _ _ _ _ _ _ Hreach
                (dispatch_batch conn msg ser method item rest kwargs obj w3 m a k
                   Hbatch Hitem)) as Hrun.
  cbv zeta in Hrun.
  destruct (has_flag (msg_flags msg) FLAGS_ONEWAY); [done|].
  intros data compressed Hdata.
  destruct (Hrun data compressed Hdata) as (reply & H1 & H2 & H3 & H4).
  exists reply. by repeat split.
Qed.

Lemma dispatch_batch_empty
    (conn : connref) (msg : message) (ser : serializer) (method : string)
    (kwargs : value) (obj : objref) (w3 : world) :
  has_flag (msg_flags msg) FLAGS_BATCH = true →
  dispatch conn ser obj method [] kwargs (request_frame msg, w3)
  = (Ok (Some (VList [])), (set_wasBatched true (request_frame msg), w3)).
Proof.
  intros Hbatch. unfold dispatch.
  unfold bind at 1, locals at 1. cbn [fst snd request_frame set_request request_flags].
  rewrite Hbatch. reflexivity.
Qed.

(** A batch without any tuple is the one batch that is answered as a
    batch: nothing is resolved and nothing is called; a oneway request
    gets no answer, any other request gets exactly one RESULT message with
    the BATCH flag, the sequence number of the request and the serialized
    empty list. *)
Theorem handleRequest_batch_empty
    (conn : connref) (msg : message) (ser : serializer) (method : string)
    (kwargs : value) (obj : objref) (w0 w3 : world) :
  reaches conn msg ser method [] kwargs obj w0 w3 →
  has_flag (msg_flags msg) FLAGS_BATCH = true →
  if has_flag (msg_flags msg) FLAGS_ONEWAY
  then handleRequest conn w0 = (Ok tt, w3)
  else
    ∀ data compressed,
      serializeData ser (VList []) (COMPRESSION (config w3)) = Ok (data, compressed) →
      ∃ reply,
        handleRequest conn w0 = (Ok tt, sent_on conn reply w3)
        ∧ reply = SendingMessage MSG_RESULT
                    (if compressed then Z.lor FLAGS_COMPRESSED FLAGS_BATCH else FLAGS_BATCH)
                    (msg_seq msg) (serializer_id ser) data (own_annotations w3)
        ∧ has_flag (msg_flags reply) FLAGS_BATCH = true
        ∧ has_flag (msg_flags reply) FLAGS_EXCEPTION = false.
Proof.
  intros Hreach Hbatch.
  assert (Hrun : handleRequest conn w0
                 = conclude conn
                     (answer conn ser (request_frame msg) (Some (VList []))
                        (set_wasBatched true (request_frame msg), w3))).
  { rewrite (handleRequest_reaches _ _ _ _ _ _ _ _ _ Hreach).
    unfold bind at 1. by rewrite (dispatch_batch_empty _ _ _ _ _ _ _ Hbatch). }
  rewrite Hrun. clear Hrun.
  unfold answer. cbn [request_frame set_request request_flags].
  destruct (has_flag (msg_flags msg) FLAGS_ONEWAY) eqn:Honeway; [done|].
  intros data compressed Hdata.
  unfold bind at 1, the_world at 1. cbn [fst snd].
  unfold bind at 1, locals at 1. cbn [fst snd].
  unfold bind at 1, lift at 1. rewrite Hdata.
  unfold bind at 1, in_world at 1. cbn [fst snd]. rewrite annotations_own.
  unfold in_world. cbn [fst snd]. rewrite send_spec.
  eexists. split; [|split; [reflexivity|]].
  - unfold conclude, sent_on. by destruct compressed.
  - by destruct compressed.
Qed.

(** A plain method call, the normal path of a request: the method is to
    be resolved through [util.getAttribute], and the module does not bind
    [util].  Whatever the object and the method, exposed or not, the
    method is not called and no thread is started for it.  A oneway
    request gets no answer.  Any other request is answered with one RESULT
    message flagged as an exception that carries the serialized
    [NameError("name 'util' is not defined")] under the sequence number of
    the request; the error is not raised to the caller of
    [handleRequest]. *)
Theorem handleRequest_call_NameError
    (conn : connref) (msg : message) (ser : serializer) (method : string)
    (vargs : list value) (kwargs : value) (obj : objref) (w0 w3 : world) :
  reaches conn msg ser method vargs kwargs obj w0 w3 →
  plain_call msg method →
  let e := new_exc NameError "name 'util' is not defined" in
  if has_flag (msg_flags msg) FLAGS_ONEWAY
  then handleRequest conn w0 = (Ok tt, w3)
  else
    ∀ data compressed,
      serializeData ser (VExc (with_traceback w3 e)) false = Ok (data, compressed) →
      ∃ reply,
        handleRequest conn w0 = (Ok tt, sent_on conn reply w3)
        ∧ reply = SendingMessage MSG_RESULT
                    (if compressed then Z.lor FLAGS_EXCEPTION FLAGS_COMPRESSED
                     else FLAGS_EXCEPTION)
                    (msg_seq msg) (msg_serializer_id msg) data (own_annotations w3)
        ∧ has_flag (msg_flags reply) FLAGS_EXCEPTION = true
        ∧ call_log (sent_on conn reply w3) = call_log w3
        ∧ threads (sent_on conn reply w3) = threads w3.
Proof.
  intros Hreach Hplain e.
  pose proof (handleRequest_unresolved _ _ _ _ _ _ _ _ _ Hreach
                (dispatch_plain_call conn msg ser method vargs kwargs obj w3 Hplain))
    as Hrun.
  cbv zeta in Hrun.
  destruct (has_flag (msg_flags msg) FLAGS_ONEWAY); [done|].
  intros data compressed Hdata.
  destruct (Hrun data compressed Hdata) as (reply & H1 & H2 & H3 & H4).
  exists reply. by repeat split.
Qed.

(** An INVOKE whose serializer is not among the accepted ones is refused
    with a [SerializationError] before anything is deserialized: no
    object is looked up and no method is called.  Unless the request is
    oneway, the error is answered (through the serializer of that id, when
    there is one) with one RESULT message flagged as an exception; in both
    cases the error is raised to the caller of [handleRequest]. *)
Theorem handleRequest_unaccepted_serializer
    (conn : connref) (msg : message) (w0 w2 : world) :
  received conn msg w0 w2 →
  msg_type_of msg = MSG_INVOKE →
  msg_serializer_id msg ∉ serializer_ids (daemon w2) →
  let e := new_exc SerializationError
             ("message used serializer that is not accepted: "
              +:+ pretty (msg_serializer_id msg)) in
  if has_flag (msg_flags msg) FLAGS_ONEWAY
  then handleRequest conn w0 = (Raise e, w2)
  else
    ∀ ser data compressed,
      get_serializer_by_id (msg_serializer_id msg) = Ok ser →
      serializeData ser (VExc (with_traceback w2 e)) false = Ok (data, compressed) →
      ∃ reply,
        handleRequest conn w0 = (Raise (with_traceback w2 e), sent_on conn reply w2)
        ∧ reply = SendingMessage MSG_RESULT
                    (if compressed then Z.lor FLAGS_EXCEPTION FLAGS_COMPRESSED
                     else FLAGS_EXCEPTION)
                    (msg_seq msg) (msg_serializer_id msg) data (own_annotations w2)
        ∧ has_flag (msg_flags reply) FLAGS_EXCEPTION = true.
Proof.
  intros (w1 & Hrecv & Hcorr) Htype Hrefused e.
  assert (Hbody : handleRequest conn w0
                  = handleRequest_except conn (request_frame msg) e w2).
  { unfold handleRequest, bind at 1. rewrite Hrecv.
    unfold handleRequest_body.
    unfold bind at 1, assign at 1.
    unfold bind at 1, in_world at 1. simpl. rewrite Hcorr.
    rewrite Htype. simpl.
    unfold bind at 1, the_world at 1. simpl.
    rewrite bool_decide_false by done. reflexivity. }
  rewrite Hbody. clear Hbody.
  destruct (has_flag (msg_flags msg) FLAGS_ONEWAY) eqn:Honeway.
  - unfold handleRequest_except, bind, get, ret, raise. simpl. by rewrite Honeway.
  - intros ser data compressed Hser Hdata.
    eexists. split; [|split; [reflexivity|]].
    + by rewrite (handleRequest_except_answers _ _ _ _ ser data compressed).
    + simpl. by destruct compressed.
Qed.

End RequestPaths.

(** ** The connection handshake *)

Section HandshakeFacts.
Context {collaborators : Collaborators} {handshake_collaborators : HandshakeCollaborators}.

Lemma handshake_reply_spec (conn : connref) (l : handshake_locals) (msgtype : msg_type)
    (flags : Z) (data : list Byte.byte) (w : world) :
  handshake_reply conn l msgtype flags data w
  = (Ok (bool_decide (msgtype = MSG_CONNECTOK)),
     sent_on conn (SendingMessage msgtype flags (hs_msg_seq l) (hs_serializer_id l)
                     data (own_annotations w)) w).
Proof.
  unfold handshake_reply, bind. rewrite annotations_own, send_spec. reflexivity.
Qed.

(** A CONNECT that is refused before its data is looked at (the caller
    of [_handshake] gives a reason for denial, or the serializer of the
    message is not accepted): the answer is one CONNECTFAIL message with
    the sequence number of the CONNECT, built with the marshal serializer
    from the text of the reason, and the handshake fails; the data of the
    CONNECT is not deserialized and the validator is not asked. *)
Theorem handshake_refused_early
    (conn : connref) (denied_reason : option string) (msg : message) (x : pyexc)
    (ser : serializer) (data : list Byte.byte) (compressed : bool) (w w1 : world) :
  recv_stub conn [MSG_CONNECT] w = (Ok msg, w1) →
  early_refusal denied_reason msg w1 = Some x →
  get_serializer_by_id MarshalSerializer_id = Ok ser →
  serializeData ser (VStr (exc_str x)) false = Ok (data, compressed) →
  _handshake conn denied_reason w
  = (Ok false,
     sent_on conn
       (SendingMessage MSG_CONNECTFAIL (if compressed then FLAGS_COMPRESSED else 0)
          (msg_seq msg) MarshalSerializer_id data (own_annotations w1)) w1).
Proof.
  intros Hrecv Hrefused Hser Hdata.
  assert (Hbody : handshake_body conn denied_reason (handshake_start, w)
                  = (Raise x, ({| hs_serializer_id := MarshalSerializer_id;
                                  hs_msg_seq := msg_seq msg |}, w1))
                  ∧ isinstance_exc x ConnectionClosedError = false).
  { unfold handshake_body.
    unfold bind at 1, in_world_h at 1. cbn [fst snd]. rewrite Hrecv.
    unfold bind at 1, set_hs_msg_seq at 1. cbn [fst snd].
    unfold early_refusal in Hrefused.
    destruct denied_reason as [[|a s]|].
    - unfold bind at 1, the_world_h at 1. cbn [fst snd].
      case_bool_decide; [done|]. injection Hrefused as <-. done.
    - injection Hrefused as <-. done.
    - unfold bind at 1, the_world_h at 1. cbn [fst snd].
      case_bool_decide; [done|]. injection Hrefused as <-. done. }
  destruct Hbody as [Hbody Hopen].
  unfold _handshake. fold handshake_start. rewrite Hbody, Hopen.
  unfold bind at 1, lift at 1. cbn [hs_serializer_id]. rewrite Hser.
  unfold bind at 1, lift at 1. rewrite Hdata.
  rewrite handshake_reply_spec. reflexivity.
Qed.

(** The handshake of a CONNECT that is greeted, up to the validator. *)
Lemma handshake_body_greeted
    (conn : connref) (denied_reason : option string) (msg : message)
    (ser : serializer) (data greeting : value) (w w2 : world) :
  greeted conn denied_reason msg ser data greeting w w2 →
  handshake_body conn denied_reason (handshake_start, w)
  = (let! handshake_response := in_world_h (validateHandshake conn greeting) in
     let! w := the_world_h in
     run! (match objectsById (daemon w) !! DAEMON_NAME with
           | Some _ => ret tt
           | None => raise (new_exc KeyError ("'" +:+ DAEMON_NAME +:+ "'"))
           end) in
     let! objectId := lift (getitem data "object") in
     let! meta := in_world_h (DaemonObject.get_metadata objectId true) in
     let handshake_response :=
       VDict [(VStr "handshake", handshake_response);
              (VStr "meta", metadata_value meta)] in
     let! w := the_world_h in
     let! (data, compressed) :=
       lift (serializeData ser handshake_response (COMPRESSION (config w))) in
     ret (MSG_CONNECTOK,
          if compressed : bool then Z.lor 0 FLAGS_COMPRESSED else 0%Z,
          data))
      ({| hs_serializer_id := msg_serializer_id msg; hs_msg_seq := msg_seq msg |}, w2).
Proof.
  intros (w1 & Hrecv & Hearly & Hcorr & Hser & Hdata & Hgreeting).
  unfold handshake_body.
  unfold bind at 1, in_world_h at 1. cbn [fst snd]. rewrite Hrecv.
  unfold bind at 1, set_hs_msg_seq at 1. cbn [fst snd].
  assert (Haccepted : bool_decide (msg_serializer_id msg ∈ serializer_ids (daemon w1)) = true
                      ∧ match denied_reason with Some (String _ _) => False | _ => True end).
  { unfold early_refusal in Hearly. destruct denied_reason as [[|a s]|]; try done;
      by case_bool_decide. }
  destruct Haccepted as [Haccepted Hreason].
  assert (Hrest : ∀ (k : H (msg_type * Z * list Byte.byte)) lw,
    match denied_reason with
    | Some (String a s) => raise (new_exc (UserError "Exception") (String a s))
    | _ => k
    end lw = k lw).
  { intros k lw. by destruct denied_reason as [[|a s]|]. }
  rewrite Hrest.
  unfold bind at 1, the_world_h at 1. cbn [fst snd handshake_start hs_serializer_id].
  rewrite Haccepted. cbn [negb].
  unfold bind at 1, in_world_h at 1. cbn [fst snd]. rewrite Hcorr.
  unfold bind at 1, set_hs_serializer_id at 1. cbn [fst snd hs_msg_seq].
  unfold bind at 1, lift at 1. rewrite Hser.
  unfold bind at 1, lift at 1. rewrite Hdata.
  unfold bind at 1, lift at 1. rewrite Hgreeting.
  reflexivity.
Qed.

(** A handshake that goes through: the CONNECT is greeted, the validator
    accepts the greeting and answers [response], and the metadata of the
    object the client names is found.  The answer is one CONNECTOK message
    with the sequence number and the serializer of the CONNECT, whose data
    is the serialized pair of the validator's response and the metadata
    (as lists), and the handshake succeeds. *)
Theorem handshake_accepts
    (conn : connref) (denied_reason : option string) (msg : message)
    (ser : serializer) (data greeting response objectId : value)
    (meta : exposed_members) (payload : list Byte.byte) (compressed : bool)
    (w w2 w3 w4 : world) :
  greeted conn denied_reason msg ser data greeting w w2 →
  validateHandshake conn greeting w2 = (Ok response, w3) →
  is_Some (objectsById (daemon w3) !! DAEMON_NAME) →
  getitem data "object" = Ok objectId →
  DaemonObject.get_metadata objectId true w3 = (Ok meta, w4) →
  serializeData ser
    (VDict [(VStr "handshake", response); (VStr "meta", metadata_value meta)])
    (COMPRESSION (config w4))
  = Ok (payload, compressed) →
  _handshake conn denied_reason w
  = (Ok true,
     sent_on conn
       (SendingMessage MSG_CONNECTOK (if compressed then FLAGS_COMPRESSED else 0)
          (msg_seq msg) (msg_serializer_id msg) payload (own_annotations w4)) w4).
Proof.
  intros Hgreeted Hvalid [d Hdaemon] Hobject Hmeta Hpayload.
  unfold _handshake. fold handshake_start.
  rewrite (handshake_body_greeted _ _ _ _ _ _ _ _ Hgreeted).
  unfold bind at 1, in_world_h at 1. cbn [fst snd]. rewrite Hvalid.
  unfold bind at 1, the_world_h at 1. cbn [fst snd]. rewrite Hdaemon.
  unfold bind at 1, ret at 1.
  unfold bind at 1, lift at 1. rewrite Hobject.
  unfold bind at 1, in_world_h at 1. cbn [fst snd]. rewrite Hmeta.
  unfold bind at 1, the_world_h at 1. cbn [fst snd].
  unfold bind at 1, lift at 1. rewrite Hpayload.
  unfold ret. rewrite handshake_reply_spec. by destruct compressed.
Qed.

(** A handshake that the validator refuses: when [validateHandshake]
    raises, the answer is one CONNECTFAIL message with the sequence number
    of the CONNECT, built with the serializer of the client from the text
    of the error, and the handshake fails; when the error says that the
    connection was closed, nothing is sent. *)
Theorem handshake_validator_refuses
    (conn : connref) (denied_reason : option string) (msg : message)
    (ser : serializer) (data greeting : value) (x : pyexc) (w w2 w3 : world) :
  greeted conn denied_reason msg ser data greeting w w2 →
  validateHandshake conn greeting w2 = (Raise x, w3) →
  if isinstance_exc x ConnectionClosedError
  then _handshake conn denied_reason w = (Ok false, w3)
  else
    ∀ payload compressed,
      serializeData ser (VStr (exc_str x)) false = Ok (payload, compressed) →
      _handshake conn denied_reason w
      = (Ok false,
         sent_on conn
           (SendingMessage MSG_CONNECTFAIL (if compressed then FLAGS_COMPRESSED else 0)
              (msg_seq msg) (msg_serializer_id msg) payload (own_annotations w3)) w3).
Proof.
  intros Hgreeted Hvalid.
  assert (Hser : get_serializer_by_id (msg_serializer_id msg) = Ok ser).
  { by destruct Hgreeted as (w1 & _ & _ & _ & Hser & _). }
  assert (Hbody : handshake_body conn denied_reason (handshake_start, w)
                  = (Raise x, ({| hs_serializer_id := msg_serializer_id msg;
                                  hs_msg_seq := msg_seq msg |}, w3))).
  { rewrite (handshake_body_greeted _ _ _ _ _ _ _ _ Hgreeted).
    unfold bind at 1, in_world_h at 1. cbn [fst snd]. by rewrite Hvalid. }
  unfold _handshake. fold handshake_start. rewrite Hbody.
  destruct (isinstance_exc x ConnectionClosedError); [done|].
  intros payload compressed Hpayload.
  unfold bind at 1, lift at 1. cbn [hs_serializer_id]. rewrite Hser.
  unfold bind at 1, lift at 1. rewrite Hpayload.
  by rewrite handshake_reply_spec.
Qed.

(** A handshake whose CONNECT cannot be received: when the connection
    was closed, nothing is sent and the handshake fails; any other error
    is answered with one CONNECTFAIL message with sequence number zero,
    built with the marshal serializer from the text of the error. *)
Theorem handshake_receive_fails
    (conn : connref) (denied_reason : option string) (x : pyexc) (w w1 : world) :
  recv_stub conn [MSG_CONNECT] w = (Raise x, w1) →
  if isinstance_exc x ConnectionClosedError
  then _handshake conn denied_reason w = (Ok false, w1)
  else
    ∀ ser payload compressed,
      get_serializer_by_id MarshalSerializer_id = Ok ser →
      serializeData ser (VStr (exc_str x)) false = Ok (payload, compressed) →
      _handshake conn denied_reason w
      = (Ok false,
         sent_on conn
           (SendingMessage MSG_CONNECTFAIL (if compressed then FLAGS_COMPRESSED else 0)
              0 MarshalSerializer_id payload (own_annotations w1)) w1).
Proof.
  intros Hrecv.
  assert (Hbody : handshake_body conn denied_reason (handshake_start, w)
                  = (Raise x, (handshake_start, w1))).
  { unfold handshake_body.
    unfold bind at 1, in_world_h at 1. cbn [fst snd]. by rewrite Hrecv. }
  unfold _handshake. fold handshake_start. rewrite Hbody.
  destruct (isinstance_exc x ConnectionClosedError); [done|].
  intros ser payload compressed Hser Hpayload.
  unfold bind at 1, lift at 1. cbn [hs_serializer_id handshake_start]. rewrite Hser.
  unfold bind at 1, lift at 1. rewrite Hpayload.
  by rewrite handshake_reply_spec.
Qed.

(** The handshake succeeds only for a CONNECT that was received, was not
    refused early (no reason for denial was given and its serializer is
    accepted), whose data deserialized and whose greeting the validator
    accepted; the last message on the connection is then a CONNECTOK with
    the sequence number of the CONNECT. *)
Theorem handshake_succeeds_only_when_accepted
    (conn : connref) (denied_reason : option string) (w w' : world) :
  _handshake conn denied_reason w = (Ok true, w') →
  ∃ msg ser data greeting w2 response w3 reply,
    greeted conn denied_reason msg ser data greeting w w2
    ∧ validateHandshake conn greeting w2 = (Ok response, w3)
    ∧ last (conn_sent (connection_at w' conn)) = Some reply
    ∧ msg_type_of reply = MSG_CONNECTOK
    ∧ msg_seq reply = msg_seq msg
    ∧ msg_serializer_id reply = msg_serializer_id msg.
Proof.
  unfold _handshake. fold handshake_start.
  destruct (handshake_body conn denied_reason (handshake_start, w))
    as [[[[msgtype flags] payload]|x] [l w1]] eqn:Hbody.
  2: { destruct (isinstance_exc x ConnectionClosedError); [done|].
       unfold bind, lift. destruct (get_serializer_by_id _); [|done].
       destruct (serializeData _ _ _) as [[d c]|]; [|done].
       by rewrite handshake_reply_spec. }
  rewrite handshake_reply_spec. intros [= Htype <-].
  apply bool_decide_eq_true_1 in Htype. subst msgtype.
  assert (Hlast : ∀ reply w1,
    last (conn_sent (connection_at (sent_on conn reply w1) conn)) = Some reply).
  { intros reply w0. unfold sent_on, connection_at at 1. simpl.
    rewrite lookup_insert_eq. simpl. apply last_snoc. }
  revert Hbody. unfold handshake_body, greeted. unfold early_refusal.
  unfold bind, in_world_h, the_world_h, set_hs_msg_seq, set_hs_serializer_id, lift,
    ret, raise.
  cbn [fst snd].
  repeat case_match; simplify_eq; cbn [fst snd] in *.
  all: intros Heq; simplify_eq.
  all: repeat match goal with u : unit |- _ => destruct u end.
  all: repeat match goal with
              | H : negb _ = false |- _ => apply negb_false_iff in H
              end.
  all: eexists _, _, _, _, _, _, _, _;
    (split; [eexists; repeat split; eauto;
             match goal with H : bool_decide _ = true |- _ => by rewrite H end|]);
    (split; [eauto|]); (split; [apply Hlast|]); done.
Qed.

End HandshakeFacts.

(** * The code at work on the demo daemon *)

#[local] Existing Instance Demo.collaborators.

(** Reflection on the calculator, from an empty cache. *)
Lemma get_exposed_members_no_private_witness :
  cache_clean Demo.fresh_world
  ∧ ∃ r w', get_exposed_members Demo.calculator true false true Demo.fresh_world = (Ok r, w')
            ∧ (∀ n, exposes r n → ¬ private_name n)
            ∧ cache_clean w'.
Proof.
  assert (Hclean : cache_clean Demo.fresh_world).
  { intros key r Hkey. simpl in Hkey. by rewrite lookup_empty in Hkey. }
  split; [exact Hclean|].
  exact (get_exposed_members_no_private Demo.fresh_world Demo.calculator
           true false true Hclean).
Defined.

(** What the reflection finds on the calculator: the private names and the
    untagged members are left out, and so is the property whose first
    accessor has no tag. *)
Example calculator_members :
  (get_exposed_members Demo.calculator true false true Demo.fresh_world).1
  = Ok {| methods := NameSet {[ "add"; "count"; "div"; "fire" ]};
          oneway := NameSet {[ "fire" ]};
          attrs := NameSet {[ "name" ]} |}.
Proof. vm_compute. reflexivity. Qed.

(** C10 on the demo daemon: the id and the object of the daemon's own
    introspection object, which the constructor registered, and the
    calculator before its registration. *)
Example uriFor_on_the_demo_daemon :
  uriFor (TStr "Pyro.Daemon") true Demo.fresh_world
  = (Raise (new_exc NameError "name 'URI' is not defined"), Demo.fresh_world)
  ∧ uriFor (TObj Demo.daemon_object) true Demo.fresh_world
    = (Raise (new_exc NameError "name 'URI' is not defined"), Demo.fresh_world)
  ∧ uriFor (TStr "ghost") false Demo.fresh_world
    = (Raise (new_exc NameError "name 'URI' is not defined"), Demo.fresh_world)
  ∧ uriFor (TObj Demo.calculator) true Demo.fresh_world
    = (Raise (new_exc DaemonError "object isn't registered in this daemon"),
       Demo.fresh_world).
Proof. vm_compute. by repeat split. Qed.



(** C3, refuted as stated: unregistering the calculator by its id removes
    the entry and leaves both links on the object. *)
Lemma unregister_by_id_keeps_links :
  registered Demo.served Demo.calculator "calc"
  ∧ ∃ w', unregister (TStr "calc") Demo.served = (Ok tt, w')
          ∧ objectsById (daemon w') !! "calc" = None
          ∧ heap w' !! Demo.calculator ≫= o_pyroId = Some "calc"
          ∧ heap w' !! Demo.calculator ≫= o_pyroDaemon = Some 100
          ∧ ¬ scrubbed w' Demo.calculator.
Proof.
  split.
  - split; [by vm_compute|]. eexists _, _. vm_compute. by repeat split.
  - eexists. split; [reflexivity|]. repeat split; try by vm_compute.
    intros (o & Ho & Hid & _). vm_compute in Ho. injection Ho as <-. discriminate Hid.
Qed.

Lemma unregister_removes_entry_witness :
  registered Demo.served Demo.calculator "calc"
  ∧ "calc" ≠ DAEMON_NAME
  ∧ (∃ w', unregister (TObj Demo.calculator) Demo.served = (Ok tt, w')
           ∧ objectsById (daemon w') = delete "calc" (objectsById (daemon Demo.served))
           ∧ scrubbed w' Demo.calculator)
  ∧ (∃ w', unregister (TStr "calc") Demo.served = (Ok tt, w')
           ∧ objectsById (daemon w') = delete "calc" (objectsById (daemon Demo.served))
           ∧ heap w' = heap Demo.served).
Proof.
  assert (Hreg : registered Demo.served Demo.calculator "calc").
  { split; [by vm_compute|]. eexists _, _. vm_compute. by repeat split. }
  assert (Hname : "calc" ≠ DAEMON_NAME) by discriminate.
  split; [exact Hreg|]. split; [exact Hname|].
  exact (unregister_removes_entry Demo.served Demo.calculator "calc" Hreg Hname).
Defined.

(** C4, refuted as stated: the refusal of a lazy dict iterator is a
    [PyroError], which is not a [ProtocolError]. *)
Lemma lazy_dict_iterator_refused_with_PyroError :
  Demo.fresh_world.(heap) !! Demo.keys_view = Some (Demo.plain (KIterator Demo.dict_keys))
  ∧ ITER_STREAMING (config Demo.fresh_world) = true
  ∧ ∃ e, _streamResponse (VRef Demo.keys_view) Demo.client Demo.fresh_world
         = (Raise e, Demo.fresh_world)
         ∧ exc_type e = PyroError
         ∧ isinstance_exc e ProtocolError = false.
Proof.
  split; [by vm_compute|]. split; [done|].
  eexists. split; [by vm_compute|]. by vm_compute.
Qed.

Lemma streamResponse_iterator_witness :
  Demo.served.(heap) !! Demo.numbers = Some (Demo.plain (KIterator Demo.range3))
  ∧ it_isIterator Demo.range3 || it_isgenerator Demo.range3 = true
  ∧ ITER_STREAMING (config Demo.served) = true
  ∧ ∃ w', _streamResponse (VRef Demo.numbers) Demo.client Demo.served
          = (Ok (true, VStr Demo.stream_name), w')
          ∧ streaming_responses (daemon w') !! Demo.stream_name
            = Some (Some Demo.client, 1000%Z, 0%Z, Demo.numbers).
Proof.
  assert (Hobj : Demo.served.(heap) !! Demo.numbers
                 = Some (Demo.plain (KIterator Demo.range3))) by (by vm_compute).
  assert (Hon : ITER_STREAMING (config Demo.served) = true) by (by vm_compute).
  split; [exact Hobj|]. split; [reflexivity|]. split; [exact Hon|].
  destruct (streamResponse_iterator Demo.served Demo.numbers _ Demo.range3 Demo.client
              Hobj eq_refl eq_refl Hon) as (w' & Hrun & Hreg & _).
  exists w'. split; [exact Hrun|]. rewrite Hreg. apply lookup_insert_eq.
Defined.

(** Scenario S5: three items, then [StopIteration], then the stream is
    gone. *)
Example stream_of_three_items :
  let step w := get_next_stream_item Demo.stream_name w in
  let w1 := (step Demo.streaming).2 in
  let w2 := (step w1).2 in
  let w3 := (step w2).2 in
  let w4 := (step w3).2 in
  (step Demo.streaming).1 = Ok (VInt 0)
  ∧ (step w1).1 = Ok (VInt 1)
  ∧ (step w2).1 = Ok (VInt 2)
  ∧ (step w3).1 = Raise (new_exc StopIteration "")
  ∧ streaming_responses (daemon w4) !! Demo.stream_name = None
  ∧ step w4 = (Raise (new_exc PyroError "item stream terminated"), w4).
Proof. vm_compute. by repeat split. Qed.

(** C7, refuted as stated.  The property [level] has a setter that exists
    and carries the exposed tag, and setting it fails, because its getter
    has no tag; the setter of [name] has no tag, and setting it succeeds,
    because its getter has one. *)
Lemma setattr_decided_by_first_accessor :
  let cls := class_at (heap Demo.served) (__class__ (heap Demo.served) Demo.calculator) in
  setter_exposed (class_getattr cls "level") Demo.f_set_level
  ∧ (∃ e, set_exposed_property_value Demo.calculator (VStr "level") (VInt 5) true Demo.served
          = (Raise e, Demo.served)
          ∧ exc_type e = AttributeError)
  ∧ (∀ fset, ¬ setter_exposed (class_getattr cls "name") fset)
  ∧ set_exposed_property_value Demo.calculator (VStr "name") (VStr "x") true Demo.served
    = (Ok VNone, Demo.served).
Proof.
  split; [|split; [|split]].
  - eexists _, _. by vm_compute.
  - eexists. by vm_compute.
  - intros fset (fget & fdel & Hv & Hexp). vm_compute in Hv.
    injection Hv as _ <- _. discriminate Hexp.
  - by vm_compute.
Qed.

Lemma dispatch_setattr_witness :
  let fr := set_request 0 7 1 new_frame in
  let v := class_getattr
             (class_at (heap Demo.served) (__class__ (heap Demo.served) Demo.calculator))
             "name" in
  has_flag (request_flags fr) FLAGS_BATCH = false
  ∧ settable v Demo.f_set_name
  ∧ dispatch Demo.client Demo.text_serializer Demo.calculator "__setattr__"
      [VStr "name"; VStr "x"] (VDict []) (fr, Demo.served)
    = (Ok (Some VNone), (fr, Demo.served)).
Proof.
  intros fr v.
  assert (Hbatch : has_flag (request_flags fr) FLAGS_BATCH = false) by reflexivity.
  assert (Hset : settable v Demo.f_set_name).
  { exists (Some Demo.f_get_name), None, Demo.f_get_name. by vm_compute. }
  split; [exact Hbatch|]. split; [exact Hset|].
  rewrite (proj1 (dispatch_setattr Demo.client Demo.text_serializer Demo.calculator "name"
                    (VStr "x") (VDict []) [] fr Demo.served Hbatch) _ Hset).
  by vm_compute.
Defined.

(** C8, refuted as stated: the message of the generic error ends with the
    [str] of the original exception, not with its [repr]. *)
Lemma generic_error_carries_str :
  let w' := Demo.after (_sendExceptionResponse Demo.client 7 1 Demo.boom None 0 ∅) Demo.served in
  serializeData Demo.text_serializer (VExc Demo.boom) false
  = Raise Demo.cannot_serialize_boom
  ∧ msg_data <$> Demo.last_sent w' Demo.client
    = Some (list_byte_of_string
              (Demo.show (VExc (new_exc PyroError
                 (Demo.message_with_str Demo.cannot_serialize_boom Demo.boom)))))
  ∧ msg_data <$> Demo.last_sent w' Demo.client
    ≠ Some (list_byte_of_string
              (Demo.show (VExc (new_exc PyroError
                 (Demo.message_with_repr Demo.cannot_serialize_boom Demo.boom))))).
Proof. vm_compute. by repeat split. Qed.

Lemma sendExceptionResponse_unserializable_witness :
  let data := list_byte_of_string
    "Pyro5.errors.PyroError: Error serializing exception: don't know how to serialize class Boom. Original exception: <class 'Boom'>: it broke" in
  get_serializer_by_id 1 = Ok Demo.text_serializer
  ∧ serializeData Demo.text_serializer (VExc (set_pyroTraceback None Demo.boom)) false
    = Raise Demo.cannot_serialize_boom
  ∧ ∃ msg,
      _sendExceptionResponse Demo.client 7 1 Demo.boom None 0 ∅ Demo.served
      = (Ok tt,
         with_connections
           <[Demo.client := with_conn_sent (λ sent, sent ++ [msg])
                              (connection_at Demo.served Demo.client)]> Demo.served)
      ∧ msg_type_of msg = MSG_RESULT
      ∧ msg_data msg = data
      ∧ has_flag (msg_flags msg) FLAGS_EXCEPTION = true.
Proof.
  intros data.
  assert (Hser : get_serializer_by_id 1 = Ok Demo.text_serializer) by reflexivity.
  assert (Hfail : serializeData Demo.text_serializer
                    (VExc (set_pyroTraceback None Demo.boom)) false
                  = Raise Demo.cannot_serialize_boom) by reflexivity.
  split; [exact Hser|]. split; [exact Hfail|].
  destruct (sendExceptionResponse_unserializable Demo.served Demo.client 7 1 0
              Demo.boom None ∅ Demo.text_serializer Demo.cannot_serialize_boom
              data false Hser Hfail) as (msg & Hrun & Htype & Hdata & _ & _ & Hflag).
  { by vm_compute. }
  exists msg. by repeat split.
Defined.

(** C9 on a class whose instances are false in a boolean context (an
    empty container): two calls in single mode are served by two different
    instances, and the second replaces the first in the daemon's table. *)
Lemma single_mode_falsy_instances_differ :
  c_pyroInstancing (class_at (heap Demo.queue_served) Demo.queue_class)
  = Some ("single", None)
  ∧ ∃ a b w1 w2,
      _getInstance Demo.queue_class Demo.client Demo.queue_served = (Ok a, w1)
      ∧ _pyroInstances (daemon w1) !! Demo.queue_class = Some a
      ∧ _getInstance Demo.queue_class Demo.client w1 = (Ok b, w2)
      ∧ _pyroInstances (daemon w2) !! Demo.queue_class = Some b
      ∧ a ≠ b.
Proof.
  split; [by vm_compute|].
  eexists _, _, _, _. split; [by vm_compute|]. split; [by vm_compute|].
  split; [by vm_compute|]. split; [by vm_compute|]. by vm_compute.
Qed.

(** Scenario S4, the batch [add(1,2); div(1,0); add(3,4)] on the
    calculator, and a batch on the daemon's own object: no method is
    called, and the answer is the [NameError], flagged as an exception and
    not as a batch.  With the ONEWAY flag nothing is sent. *)
Example batch_scenario :
  let w0 := Demo.incoming (Demo.request FLAGS_BATCH "batch") Demo.served in
  let w1 := Demo.incoming (Demo.request FLAGS_BATCH "daemon batch") Demo.fresh_world in
  let w2 := Demo.incoming (Demo.request (Z.lor FLAGS_BATCH FLAGS_ONEWAY) "batch")
              Demo.served in
  Demo.exchange_with FLAGS_BATCH "batch" Demo.served
  = ([(MSG_RESULT, FLAGS_EXCEPTION, 7%Z, "NameError: name 'util' is not defined", None)],
     Demo.after (handleRequest Demo.client) w0)
  ∧ Demo.calls (Demo.after (handleRequest Demo.client) w0) = []
  ∧ Demo.exchange_with FLAGS_BATCH "daemon batch" Demo.fresh_world
    = ([(MSG_RESULT, FLAGS_EXCEPTION, 7%Z, "NameError: name 'util' is not defined", None)],
       Demo.after (handleRequest Demo.client) w1)
  ∧ Demo.calls (Demo.after (handleRequest Demo.client) w1) = []
  ∧ (handleRequest Demo.client w2).1 = Ok tt
  ∧ conn_sent (connection_at (handleRequest Demo.client w2).2 Demo.client) = []
  ∧ Demo.calls (handleRequest Demo.client w2).2 = [].
Proof. vm_compute. by repeat split. Qed.

(** A plain call, [calc.add(1, 2)], a call whose method is to return an
    iterator, and a fetch on the daemon's own object: each one is answered
    with the [NameError]; no method is called, no stream is made. *)
Example call_scenario :
  let '(r0, w0) := Demo.exchange "add" Demo.served in
  let '(r1, w1) := Demo.exchange "count" w0 in
  let '(r2, w2) := Demo.exchange "next" w1 in
  r0 = [(MSG_RESULT, FLAGS_EXCEPTION, 7%Z, "NameError: name 'util' is not defined", None)]
  ∧ r1 = r0 ∧ r2 = r0
  ∧ Demo.calls w2 = []
  ∧ threads w2 = []
  ∧ streaming_responses (daemon w2) = ∅.
Proof. vm_compute. by repeat split. Qed.

(** Registration of the calculator under the id [calc]: the call raises,
    and the calculator is registered. *)
Example register_calculator :
  register Demo.calculator (VStr "calc") false Demo.fresh_world
  = (Raise (new_exc NameError "name 'URI' is not defined"), Demo.served)
  ∧ registered Demo.served Demo.calculator "calc"
  ∧ objectsById (daemon Demo.served) !! "calc" = Some Demo.calculator.
Proof.
  split; [vm_compute; reflexivity|]. split; [|vm_compute; reflexivity].
  split; [vm_compute; reflexivity|]. eexists _, _. vm_compute. by repeat split.
Qed.

(** The counter class is served in single mode: the second call returns
    the instance the first call created. *)
Lemma getInstance_single_reuses_witness :
  ∃ instance w1,
    _getInstance Demo.counter_class Demo.client Demo.fresh_world = (Ok instance, w1)
    ∧ _getInstance Demo.counter_class Demo.client w1 = (Ok instance, w1).
Proof.
  set (w1 := Demo.after (_getInstance Demo.counter_class Demo.client) Demo.fresh_world).
  exists 9, w1. split; [vm_compute; reflexivity|].
  apply (getInstance_single_reuses w1 Demo.counter_class 9 Demo.client None);
    vm_compute; reflexivity.
Defined.

(** The metadata of the calculator, asked for twice. *)
Lemma get_exposed_members_again_witness :
  ∃ r w',
    get_exposed_members Demo.calculator true true true Demo.served = (Ok r, w')
    ∧ get_exposed_members Demo.calculator true true true w' = (Ok r, w').
Proof.
  destruct (get_exposed_members Demo.calculator true true true Demo.served)
    as [[r|e] w'] eqn:Hrun; [|by vm_compute in Hrun].
  exists r, w'. split; [reflexivity|].
  exact (get_exposed_members_again Demo.served w' Demo.calculator true true true r Hrun).
Defined.

(** The calculator is registered and unregistered again. *)
Lemma register_unregister_registry_witness :
  ∃ w2, unregister (TObj Demo.calculator) Demo.served = (Ok tt, w2)
        ∧ objectsById (daemon w2) = objectsById (daemon Demo.fresh_world).
Proof.
  assert (Hname : chosen_id (VStr "calc") Demo.fresh_world ≠ DAEMON_NAME) by discriminate.
  assert (Hrun : register Demo.calculator (VStr "calc") false Demo.fresh_world
                 = (Raise (new_exc NameError "name 'URI' is not defined"), Demo.served))
    by (vm_compute; reflexivity).
  exact (register_unregister_registry Demo.fresh_world Demo.served Demo.calculator
           (VStr "calc") _ Hrun eq_refl Hname).
Defined.

(** Scenario S6.  After two items the client is lost; with a linger time
    the entry stays, without client.  A second client that asks for the next
    item at once gets it, and the entry is bound to the second client with
    its linger timestamp cleared.  When three ticks pass instead, the sweep
    of the housekeeper removes the entry and the second client finds no
    stream. *)
Example linger_scenario :
  let name := Demo.stream_name in
  let w0 := Demo.after (_streamResponse (VRef Demo.numbers) Demo.client) Demo.lingering in
  let '(r1, w1) := Demo.fetch Demo.client name w0 in
  let '(r2, w2) := Demo.fetch Demo.client name w1 in
  let w3 := Demo.after (_clientDisconnect Demo.client) w2 in
  let '(r4, w4) := Demo.fetch Demo.second_client name w3 in
  let w5 := Demo.after _housekeeping (with_now (λ t, t + 3)%Z w3) in
  let '(r6, w6) := Demo.fetch Demo.second_client name w5 in
  r1 = Ok (VInt 0)
  ∧ r2 = Ok (VInt 1)
  ∧ streaming_responses (daemon w2) !! name = Some (Some Demo.client, 1000%Z, 0%Z, Demo.numbers)
  ∧ streaming_responses (daemon w3) !! name = Some (None, 1000%Z, 1000%Z, Demo.numbers)
  ∧ r4 = Ok (VInt 2)
  ∧ streaming_responses (daemon w4) !! name
    = Some (Some Demo.second_client, 1000%Z, 0%Z, Demo.numbers)
  ∧ streaming_responses (daemon w5) !! name = None
  ∧ r6 = Raise (new_exc PyroError "item stream terminated").
Proof. vm_compute. by repeat split. Qed.

(** * The rest of the module at work on the demo daemon *)

(** [@expose] on the thermostat class: [info], [read] and [reset] are
    methods, [reset] is oneway, [target] is an attribute; of the inherited
    names the exposed [version] is listed, and so is [summary], whose
    function object the class binds as [info]; [describe] is not. *)
Lemma expose_class_tags_in_place_witness :
  ∃ r w',
    get_exposed_members Demo2.thermostat true false false Demo2.decorated = (Ok r, w')
    ∧ name_in "info" (methods r)
    ∧ name_in "read" (methods r)
    ∧ name_in "summary" (methods r)
    ∧ (name_in "describe" (methods r)
       ↔ tagged_by_expose Demo2.Thermostat 26
         ∨ getattr_tag (f_pyroExposed (cls_functions Demo2.Thermostat 26)) false = true).
Proof.
  destruct (expose_class_tags_in_place Demo2.Thermostat Demo2.exposed_Thermostat None
              Demo2.decorated Demo2.thermostat false)
    as (r & w' & Hrun & Hall & Hown & Hshared).
  - reflexivity.
  - vm_compute. reflexivity.
  - exists r, w'. split; [exact Hrun|].
    split; [apply (Hown "info" 29); reflexivity|].
    split; [apply (Hown "read" 22); reflexivity|].
    split; [apply (Hshared "summary" "info" 29); reflexivity|].
    exact (proj1 (Hall "describe" eq_refl)).
Defined.

Example thermostat_members :
  (get_exposed_members Demo2.thermostat true false false Demo2.decorated).1
  = Ok {| methods := NameSet {[ "info"; "read"; "reset"; "summary"; "version" ]};
          oneway := NameSet {[ "reset" ]};
          attrs := NameSet {[ "target" ]} |}.
Proof. vm_compute. reflexivity. Qed.

Lemma expose_refuses_private_witness :
  (private_name "_secret" →
     expose (XFunction "_secret" Demo.f_helper)
     = Raise (new_exc AttributeError
                "exposing private names (starting with _) is not allowed"))
  ∧ (¬ private_name "_secret" →
     ∃ x', expose (XFunction "_secret" Demo.f_helper) = Ok x'
           ∧ tested_name x' = Some "_secret").
Proof.
  apply (expose_refuses_private (XFunction "_secret" Demo.f_helper) "_secret").
  reflexivity.
Defined.

(** The exposed property of the gauge can be read and written remotely. *)
Lemma exposed_property_access_witness :
  dispatch Demo.client Demo.text_serializer Demo2.gauge "__getattr__"
    [VStr "level"] (VDict []) (new_frame, Demo2.decorated)
  = as_reply new_frame
      (call (set_pyroExposed (Demo2.f_plain 2)) Demo2.gauge (VTuple []) (VDict [])
         Demo2.decorated)
  ∧ dispatch Demo.client Demo.text_serializer Demo2.gauge "__setattr__"
      [VStr "level"; VInt 5] (VDict []) (new_frame, Demo2.decorated)
    = as_reply new_frame
        (call (Demo2.f_plain 3) Demo2.gauge (VTuple [VInt 5]) (VDict [])
           Demo2.decorated).
Proof.
  apply (exposed_property_access
           Demo2.level_getter Demo2.level_setter None
           (Some ("level", set_pyroExposed (Demo2.f_plain 2))) Demo2.level_setter None
           Demo.client Demo.text_serializer Demo2.gauge "level" (VInt 5) (VDict [])
           new_frame Demo2.decorated).
  - reflexivity.
  - vm_compute. reflexivity.
  - reflexivity.
Defined.


(** The calculator is registered as [calc]; a second registration under
    another name is refused. *)
Lemma register_again_refused_witness :
  ∃ w2, register Demo.calculator (VStr "other") false Demo.served
        = (Raise (new_exc DaemonError "object or class already has a Pyro id"), w2)
        ∧ daemon w2 = daemon Demo.served.
Proof.
  apply (register_again_refused Demo.calculator (VStr "calc") (VStr "other")
           false Demo.fresh_world Demo.served
           (new_exc NameError "name 'URI' is not defined")).
  - vm_compute. reflexivity.
  - reflexivity.
  - intros _. by eexists.
Defined.

Lemma calculator_registered : registered Demo.served Demo.calculator "calc".
Proof.
  split; [vm_compute; reflexivity|].
  exists {| o_kind := KInstance Demo.calculator_class; o_pyroId := Some "calc";
            o_pyroDaemon := Some 100; o_truthy := true |}, 100.
  split; [vm_compute; reflexivity|]. split; reflexivity.
Defined.

(** The calculator, registered as [calc], is registered again as [calc2]
    with [force]: both names reach it, and unregistering it leaves
    [calc] behind. *)
Lemma register_force_keeps_old_id_witness :
  ∃ w1 w2,
    register Demo.calculator (VStr "calc2") true Demo.served
    = (Raise (new_exc NameError "name 'URI' is not defined"), w1)
    ∧ objectsById (daemon w1) !! "calc" = Some Demo.calculator
    ∧ objectsById (daemon w1) !! "calc2" = Some Demo.calculator
    ∧ getattr_pyroId (heap w1) Demo.calculator = Some "calc2"
    ∧ unregister (TObj Demo.calculator) w1 = (Ok tt, w2)
    ∧ objectsById (daemon w2) !! "calc" = Some Demo.calculator
    ∧ objectsById (daemon w2) !! "calc2" = None.
Proof.
  apply (register_force_keeps_old_id Demo.calculator "calc" "calc2" Demo.served).
  - exact calculator_registered.
  - vm_compute. reflexivity.
  - done.
  - done.
  - done.
Defined.

Lemma registered_follows_registry_witness :
  ∃ l1 w2 l2,
    DaemonObject.registered Demo.served = (Ok l1, Demo.served)
    ∧ "calc" ∈ l1
    ∧ (∀ k, is_Some (objectsById (daemon Demo.fresh_world) !! k) → k ∈ l1)
    ∧ unregister (TStr "calc") Demo.served = (Ok tt, w2)
    ∧ DaemonObject.registered w2 = (Ok l2, w2)
    ∧ ("calc" ∉ l2)
    ∧ (∀ k, k ≠ "calc" → (k ∈ l2 ↔ k ∈ l1)).
Proof.
  apply (registered_follows_registry Demo.calculator (VStr "calc") false
           Demo.fresh_world Demo.served (new_exc NameError "name 'URI' is not defined")).
  - vm_compute. reflexivity.
  - reflexivity.
  - done.
Defined.

(** The counter class is in single mode: the first request creates the
    counter, and every connection is served by it. *)
Lemma getInstance_single_shared_witness :
  ∃ w2, _getInstance Demo.counter_class Demo.client Demo.fresh_world = (Ok 9, w2)
        ∧ ∀ other, _getInstance Demo.counter_class other w2 = (Ok 9, w2).
Proof.
  apply (getInstance_single_shared Demo.fresh_world
           (Demo.after (createInstance Demo.counter_class None) Demo.fresh_world)
           Demo.counter_class 9 Demo.client None).
  - vm_compute. reflexivity.
  - vm_compute. reflexivity.
  - vm_compute. reflexivity.
  - vm_compute. reflexivity.
  - vm_compute. reflexivity.
Defined.

(** The calculator class is in session mode: the instance of a
    connection stays on the connection. *)
Lemma getInstance_session_per_connection_witness :
  let w1 := Demo.after (createInstance Demo.calculator_class None) Demo.fresh_world in
  ∃ w2, _getInstance Demo.calculator_class Demo.client Demo.fresh_world = (Ok 9, w2)
        ∧ _getInstance Demo.calculator_class Demo.client w2 = (Ok 9, w2)
        ∧ daemon w2 = daemon w1
        ∧ ∀ other, other ≠ Demo.client → connection_at w2 other = connection_at w1 other.
Proof.
  apply (getInstance_session_per_connection Demo.fresh_world
           (Demo.after (createInstance Demo.calculator_class None) Demo.fresh_world)
           Demo.calculator_class 9 Demo.client None).
  - vm_compute. reflexivity.
  - vm_compute. reflexivity.
  - vm_compute. reflexivity.
  - vm_compute. reflexivity.
  - vm_compute. reflexivity.
Defined.

(** A creator may hand out an object of a subclass: the thermostat
    serves the requests for its base class.  The calculator, which is of
    another class, is refused. *)
Example creator_of_a_subclass_instance :
  let w := Demo.after (behavior (ModeStr "percall") (CreatorCallable (Demo2.f_plain 12))
                         Demo2.device_class) Demo2.decorated in
  _getInstance Demo2.device_class Demo.client Demo2.decorated
  = (Ok Demo2.thermostat, Demo2.decorated)
  ∧ _getInstance Demo2.device_class Demo.client w
    = (Raise (new_exc TypeError "instance creator returned object of different type"), w).
Proof. vm_compute. by split. Qed.


(** The client that reads the calculator's iterator goes away while the
    daemon keeps streams for two ticks. *)
Lemma lingering_stream_expiry_witness :
  ∃ w1,
    _clientDisconnect Demo.client Demo2.lingering_stream = (Ok tt, w1)
    ∧ ∀ dt, ∃ w2,
        _housekeeping (with_now (λ t, t + dt)%Z w1) = (Ok tt, w2)
        ∧ streaming_responses (daemon w2) !! Demo.stream_name
          = if ((0 <? ITER_STREAM_LIFETIME (config Demo2.lingering_stream))%Z
                && (ITER_STREAM_LIFETIME (config Demo2.lingering_stream)
                    <? now Demo2.lingering_stream + dt - 1000)%Z)
               || (negb (now Demo2.lingering_stream =? 0)%Z
                   && (ITER_STREAM_LINGER (config Demo2.lingering_stream) <? dt)%Z)
            then None
            else Some (None, 1000%Z, now Demo2.lingering_stream, Demo.numbers).
Proof.
  apply (lingering_stream_expiry Demo2.lingering_stream Demo.client Demo.stream_name
           1000 0 Demo.numbers).
  - reflexivity.
  - reflexivity.
  - reflexivity.
  - reflexivity.
  - vm_compute. reflexivity.
Defined.

(** One tick after the disconnect the stream is still there, three ticks
    after it is gone. *)
Example lingering_stream_ticks :
  let w1 := Demo.after (_clientDisconnect Demo.client) Demo2.lingering_stream in
  streaming_responses
    (daemon (Demo.after _housekeeping (with_now (λ t, t + 1)%Z w1))) !! Demo.stream_name
  = Some (None, 1000%Z, 1000%Z, Demo.numbers)
  ∧ streaming_responses
      (daemon (Demo.after _housekeeping (with_now (λ t, t + 3)%Z w1))) !! Demo.stream_name
    = None.
Proof. vm_compute. by split. Qed.

Lemma ping_received :
  received Demo.client Demo2.ping (Demo.incoming Demo2.ping Demo.fresh_world)
    (Demo2.read Demo2.ping Demo.fresh_world).
Proof.
  exists (Demo.after (recv_stub Demo.client [MSG_INVOKE; MSG_PING])
            (Demo.incoming Demo2.ping Demo.fresh_world)).
  split; vm_compute; reflexivity.
Defined.

(** A PING under an unknown serializer is answered, with the correlation
    id it brought. *)
Lemma handleRequest_ping_witness :
  ∃ reply,
    handleRequest Demo.client (Demo.incoming Demo2.ping Demo.fresh_world)
    = (Ok tt, sent_on Demo.client reply (Demo2.read Demo2.ping Demo.fresh_world))
    ∧ msg_type_of reply = MSG_PING
    ∧ msg_seq reply = 11%Z
    ∧ msg_data reply = list_byte_of_string "pong"
    ∧ msg_annotations reply !! "CORR" = Some Demo2.correlation.
Proof.
  destruct (handleRequest_ping Demo.client Demo2.ping
              (Demo.incoming Demo2.ping Demo.fresh_world)
              (Demo2.read Demo2.ping Demo.fresh_world) ping_received eq_refl)
    as (reply & Hrun & -> & Hcorr).
  eexists. split; [exact Hrun|]. split; [reflexivity|]. split; [reflexivity|].
  split; [reflexivity|].
  apply (Hcorr Demo2.correlation (string_of_list_byte Demo2.correlation)).
  - reflexivity.
  - vm_compute. reflexivity.
Defined.

Ltac by_running := vm_compute; reflexivity.

Ltac show_received msg w :=
  exists (Demo.after (recv_stub Demo.client [MSG_INVOKE; MSG_PING]) (Demo.incoming msg w));
  split; by_running.

Ltac show_decoded msg w :=
  split; [reflexivity|];
  split; [replace (serializer_ids (daemon (Demo2.read msg w))) with [1%Z] by by_running;
          apply list_elem_of_here|];
  split; [reflexivity|by_running].

Ltac show_reaches msg w objId obj :=
  exists (Demo2.read msg w), objId, obj;
  split; [show_received msg w|];
  split; [show_decoded msg w|];
  split; by_running.

(** [calc.add(1, 2)] before the calculator is registered. *)
Lemma handleRequest_unknown_object_witness :
  let msg := Demo.request 0 "add" in
  let w3 := Demo2.in_call msg Demo.fresh_world in
  ∃ reply,
    handleRequest Demo.client (Demo.incoming msg Demo.fresh_world)
    = (Ok tt, sent_on Demo.client reply w3)
    ∧ msg_type_of reply = MSG_RESULT
    ∧ msg_seq reply = 7%Z
    ∧ msg_data reply = list_byte_of_string "Pyro5.errors.DaemonError: unknown object"
    ∧ has_flag (msg_flags reply) FLAGS_EXCEPTION = true.
Proof.
  intros msg w3.
  assert (Hreceived : received Demo.client msg (Demo.incoming msg Demo.fresh_world)
                        (Demo2.read msg Demo.fresh_world))
    by show_received msg Demo.fresh_world.
  assert (Hdecoded : decoded msg Demo.text_serializer "calc" "add" [VInt 1; VInt 2]
                       (VDict []) (Demo2.read msg Demo.fresh_world))
    by show_decoded msg Demo.fresh_world.
  assert (Hunknown : objectsById (daemon (Demo2.read msg Demo.fresh_world)) !! "calc" = None)
    by by_running.
  pose proof (handleRequest_unknown_object Demo.client msg Demo.text_serializer
                "calc" "add" [VInt 1; VInt 2] (VDict [])
                (Demo.incoming msg Demo.fresh_world) (Demo2.read msg Demo.fresh_world)
                Hreceived Hdecoded Hunknown) as Hrun.
  cbv zeta in Hrun.
  change (has_flag (msg_flags msg) FLAGS_ONEWAY) with false in Hrun. cbv iota in Hrun.
  destruct (Hrun (list_byte_of_string "Pyro5.errors.DaemonError: unknown object") false)
    as (reply & Hreply & -> & Hflag); [by_running|].
  eexists. split; [exact Hreply|]. split; [reflexivity|]. split; [reflexivity|].
  split; [reflexivity|exact Hflag].
Defined.

Lemma add_reaches_calculator :
  let msg := Demo.request 0 "add" in
  reaches Demo.client msg Demo.text_serializer "add" [VInt 1; VInt 2] (VDict [])
    Demo.calculator (Demo.incoming msg Demo.served) (Demo2.in_call msg Demo.served).
Proof. intros msg. show_reaches msg Demo.served "calc" Demo.calculator. Defined.

(** [calc.add(1, 2)]: the method is not called, the client reads the
    [NameError]. *)
Lemma handleRequest_call_NameError_witness :
  let msg := Demo.request 0 "add" in
  let w3 := Demo2.in_call msg Demo.served in
  ∃ reply,
    handleRequest Demo.client (Demo.incoming msg Demo.served)
    = (Ok tt, sent_on Demo.client reply w3)
    ∧ msg_type_of reply = MSG_RESULT
    ∧ msg_seq reply = 7%Z
    ∧ msg_data reply = list_byte_of_string "NameError: name 'util' is not defined"
    ∧ has_flag (msg_flags reply) FLAGS_EXCEPTION = true
    ∧ call_log (sent_on Demo.client reply w3) = []
    ∧ threads (sent_on Demo.client reply w3) = [].
Proof.
  intros msg w3.
  pose proof (handleRequest_call_NameError Demo.client msg Demo.text_serializer "add"
                [VInt 1; VInt 2] (VDict []) Demo.calculator
                (Demo.incoming msg Demo.served) w3 add_reaches_calculator) as Hrun.
  specialize (Hrun ltac:(by repeat split)).
  cbv zeta in Hrun.
  change (has_flag (msg_flags msg) FLAGS_ONEWAY) with false in Hrun. cbv iota in Hrun.
  destruct (Hrun (list_byte_of_string "NameError: name 'util' is not defined") false)
    as (reply & Hreply & -> & Hflag & Hlog & Hthreads); [by_running|].
  eexists. split; [exact Hreply|]. split; [reflexivity|]. split; [reflexivity|].
  split; [reflexivity|]. split; [exact Hflag|]. split; by_running.
Defined.

Lemma batch_reaches_daemon_object :
  let msg := Demo.request FLAGS_BATCH "daemon batch" in
  reaches Demo.client msg Demo.text_serializer "<batch>"
    [VTuple [VStr "ping"; Demo.args []; VDict []];
     VTuple [VStr "registered"; Demo.args []; VDict []]] (VDict [])
    Demo.daemon_object (Demo.incoming msg Demo.fresh_world)
    (Demo2.in_call msg Demo.fresh_world).
Proof.
  intros msg. show_reaches msg Demo.fresh_world "Pyro.Daemon" Demo.daemon_object.
Defined.

(** A batch of two calls on the daemon's own object: the loop ends at the
    first tuple, and the client reads the [NameError] in a reply that is
    not flagged as a batch. *)
Lemma handleRequest_batch_NameError_witness :
  let msg := Demo.request FLAGS_BATCH "daemon batch" in
  let w3 := Demo2.in_call msg Demo.fresh_world in
  ∃ reply,
    handleRequest Demo.client (Demo.incoming msg Demo.fresh_world)
    = (Ok tt, sent_on Demo.client reply w3)
    ∧ msg_type_of reply = MSG_RESULT
    ∧ msg_seq reply = 7%Z
    ∧ msg_data reply = list_byte_of_string "NameError: name 'util' is not defined"
    ∧ has_flag (msg_flags reply) FLAGS_EXCEPTION = true
    ∧ has_flag (msg_flags reply) FLAGS_BATCH = false
    ∧ call_log (sent_on Demo.client reply w3) = [].
Proof.
  intros msg w3.
  destruct (handleRequest_batch_NameError Demo.client msg Demo.text_serializer "<batch>"
              (VTuple [VStr "ping"; Demo.args []; VDict []])
              [VTuple [VStr "registered"; Demo.args []; VDict []]] (VDict [])
              Demo.daemon_object (VStr "ping") (Demo.args []) (VDict [])
              (Demo.incoming msg Demo.fresh_world) w3 batch_reaches_daemon_object
              eq_refl eq_refl) as [_ Hrun].
  change (has_flag (msg_flags msg) FLAGS_ONEWAY) with false in Hrun. cbv iota in Hrun.
  destruct (Hrun (list_byte_of_string "NameError: name 'util' is not defined") false)
    as (reply & Hreply & -> & Hflag & Hbatch & Hlog); [by_running|].
  eexists. split; [exact Hreply|]. split; [reflexivity|]. split; [reflexivity|].
  split; [reflexivity|]. split; [exact Hflag|]. split; [exact Hbatch|by_running].
Defined.

Lemma empty_batch_reaches_daemon_object :
  let msg := Demo.request FLAGS_BATCH "empty batch" in
  reaches Demo.client msg Demo.text_serializer "<batch>" [] (VDict [])
    Demo.daemon_object (Demo.incoming msg Demo.fresh_world)
    (Demo2.in_call msg Demo.fresh_world).
Proof.
  intros msg. show_reaches msg Demo.fresh_world "Pyro.Daemon" Demo.daemon_object.
Defined.

(** A batch without tuples on the daemon's own object. *)
Lemma handleRequest_batch_empty_witness :
  let msg := Demo.request FLAGS_BATCH "empty batch" in
  let w3 := Demo2.in_call msg Demo.fresh_world in
  ∃ reply,
    handleRequest Demo.client (Demo.incoming msg Demo.fresh_world)
    = (Ok tt, sent_on Demo.client reply w3)
    ∧ msg_type_of reply = MSG_RESULT
    ∧ msg_seq reply = 7%Z
    ∧ msg_data reply = list_byte_of_string "[]"
    ∧ has_flag (msg_flags reply) FLAGS_BATCH = true
    ∧ has_flag (msg_flags reply) FLAGS_EXCEPTION = false.
Proof.
  intros msg w3.
  pose proof (handleRequest_batch_empty Demo.client msg Demo.text_serializer "<batch>"
                (VDict []) Demo.daemon_object
                (Demo.incoming msg Demo.fresh_world) w3
                empty_batch_reaches_daemon_object eq_refl) as Hrun.
  change (has_flag (msg_flags msg) FLAGS_ONEWAY) with false in Hrun. cbv iota in Hrun.
  destruct (Hrun (list_byte_of_string "[]") false)
    as (reply & Hreply & -> & Hbatch & Hflag); [by_running|].
  eexists. split; [exact Hreply|]. split; [reflexivity|]. split; [reflexivity|].
  split; [reflexivity|]. split; [exact Hbatch|exact Hflag].
Defined.

(** A request under the marshal serializer, which the daemon knows and
    does not accept: the error is answered and raised. *)
Lemma handleRequest_unaccepted_serializer_witness :
  let msg := Demo2.marshalled "add" in
  let w2 := Demo2.read msg Demo.served in
  ∃ reply e,
    handleRequest (collaborators := Demo2.collaborators) Demo.client
      (Demo.incoming msg Demo.served)
    = (Raise e, sent_on Demo.client reply w2)
    ∧ exc_type e = SerializationError
    ∧ exc_str e = "message used serializer that is not accepted: 3"
    ∧ msg_type_of reply = MSG_RESULT
    ∧ msg_seq reply = 8%Z
    ∧ has_flag (msg_flags reply) FLAGS_EXCEPTION = true
    ∧ call_log w2 = [].
Proof.
  intros msg w2.
  assert (Hreceived : received (collaborators := Demo2.collaborators) Demo.client msg
                        (Demo.incoming msg Demo.served) w2).
  { exists (Demo.after (recv_stub Demo.client [MSG_INVOKE; MSG_PING])
              (Demo.incoming msg Demo.served)).
    split; by_running. }
  assert (Hrefused : msg_serializer_id msg ∉ serializer_ids (daemon w2)).
  { replace (serializer_ids (daemon w2)) with [1%Z] by by_running.
    intros Hin. apply list_elem_of_singleton in Hin. discriminate Hin. }
  pose proof (handleRequest_unaccepted_serializer (collaborators := Demo2.collaborators)
                Demo.client msg (Demo.incoming msg Demo.served) w2
                Hreceived eq_refl Hrefused) as Hrun.
  cbv zeta in Hrun.
  change (has_flag (msg_flags msg) FLAGS_ONEWAY) with false in Hrun. cbv iota in Hrun.
  destruct (Hrun Demo2.marshal
              (list_byte_of_string
                 "Pyro5.errors.SerializationError: message used serializer that is not accepted: 3")
              false)
    as (reply & Hreply & -> & Hflag); [reflexivity|by_running|].
  eexists _, _. split; [exact Hreply|]. split; [reflexivity|].
  split; [by_running|]. split; [reflexivity|]. split; [reflexivity|].
  split; [exact Hflag|by_running].
Defined.

(** The daemon denies a connection: the client reads the reason. *)
Lemma handshake_refused_early_witness :
  let msg := Demo2.connect 1 "hi" in
  _handshake (collaborators := Demo2.collaborators)
    (handshake_collaborators := Demo2.handshake_collaborators)
    Demo.client (Some "too many connections") (Demo.incoming msg Demo.served)
  = (Ok false,
     sent_on Demo.client
       (SendingMessage MSG_CONNECTFAIL 0 1 3
          (list_byte_of_string "'too many connections'")
          (own_annotations (Demo2.connecting msg Demo.served)))
       (Demo2.connecting msg Demo.served)).
Proof.
  intros msg.
  apply (handshake_refused_early (collaborators := Demo2.collaborators)
           (handshake_collaborators := Demo2.handshake_collaborators)
           Demo.client (Some "too many connections") msg
           (new_exc (UserError "Exception") "too many connections")
           Demo2.marshal (list_byte_of_string "'too many connections'") false
           (Demo.incoming msg Demo.served) (Demo2.connecting msg Demo.served)).
  - by_running.
  - reflexivity.
  - reflexivity.
  - by_running.
Defined.

Lemma hi_greeted :
  let msg := Demo2.connect 1 "hi" in
  greeted (collaborators := Demo2.collaborators)
    (handshake_collaborators := Demo2.handshake_collaborators)
    Demo.client None msg Demo.text_serializer
    (VDict [(VStr "handshake", VStr "hi"); (VStr "object", VStr "calc")]) (VStr "hi")
    (Demo.incoming msg Demo.served) (Demo2.connected msg Demo.served).
Proof.
  intros msg. exists (Demo2.connecting msg Demo.served).
  split; [by_running|]. split; [by_running|]. split; [by_running|].
  split; [reflexivity|]. split; [by_running|reflexivity].
Defined.

(** The client greets with [hi] and asks for the calculator: the
    handshake succeeds. *)
Lemma handshake_accepts_witness :
  let msg := Demo2.connect 1 "hi" in
  let w4 := Demo.after (DaemonObject.get_metadata (VStr "calc") true)
              (Demo2.connected msg Demo.served) in
  _handshake (collaborators := Demo2.collaborators)
    (handshake_collaborators := Demo2.handshake_collaborators)
    Demo.client None (Demo.incoming msg Demo.served)
  = (Ok true,
     sent_on Demo.client
       (SendingMessage MSG_CONNECTOK 0 1 1 (list_byte_of_string "{}")
          (own_annotations w4)) w4).
Proof.
  intros msg w4.
  apply (handshake_accepts (collaborators := Demo2.collaborators)
           (handshake_collaborators := Demo2.handshake_collaborators)
           Demo.client None msg Demo.text_serializer
           (VDict [(VStr "handshake", VStr "hi"); (VStr "object", VStr "calc")])
           (VStr "hi") (VStr "hello") (VStr "calc") Demo2.calc_metadata
           (list_byte_of_string "{}") false
           (Demo.incoming msg Demo.served) (Demo2.connected msg Demo.served)
           (Demo2.connected msg Demo.served) w4 hi_greeted).
  - by_running.
  - exists Demo.daemon_object. by_running.
  - reflexivity.
  - by_running.
  - by_running.
Defined.

Lemma yo_greeted :
  let msg := Demo2.connect 1 "yo" in
  greeted (collaborators := Demo2.collaborators)
    (handshake_collaborators := Demo2.handshake_collaborators)
    Demo.client None msg Demo.text_serializer
    (VDict [(VStr "handshake", VStr "yo"); (VStr "object", VStr "calc")]) (VStr "yo")
    (Demo.incoming msg Demo.served) (Demo2.connected msg Demo.served).
Proof.
  intros msg. exists (Demo2.connecting msg Demo.served).
  split; [by_running|]. split; [by_running|]. split; [by_running|].
  split; [reflexivity|]. split; [by_running|reflexivity].
Defined.

(** The validator does not know the greeting [yo]: the client reads the
    validator's error. *)
Lemma handshake_validator_refuses_witness :
  let msg := Demo2.connect 1 "yo" in
  _handshake (collaborators := Demo2.collaborators)
    (handshake_collaborators := Demo2.handshake_collaborators)
    Demo.client None (Demo.incoming msg Demo.served)
  = (Ok false,
     sent_on Demo.client
       (SendingMessage MSG_CONNECTFAIL 0 1 1 (list_byte_of_string "'unknown greeting'")
          (own_annotations (Demo2.connected msg Demo.served)))
       (Demo2.connected msg Demo.served)).
Proof.
  intros msg.
  pose proof (handshake_validator_refuses (collaborators := Demo2.collaborators)
                (handshake_collaborators := Demo2.handshake_collaborators)
                Demo.client None msg Demo.text_serializer
                (VDict [(VStr "handshake", VStr "yo"); (VStr "object", VStr "calc")])
                (VStr "yo") (new_exc ValueError "unknown greeting")
                (Demo.incoming msg Demo.served) (Demo2.connected msg Demo.served)
                (Demo2.connected msg Demo.served) yo_greeted) as Hrun.
  specialize (Hrun ltac:(by_running)).
  change (isinstance_exc (new_exc ValueError "unknown greeting") ConnectionClosedError)
    with false in Hrun.
  cbv iota in Hrun.
  exact (Hrun (list_byte_of_string "'unknown greeting'") false ltac:(by_running)).
Defined.

(** Something else than a CONNECT arrives: the client reads the error of
    the transport; and when nothing arrives any more, nothing is sent. *)
Lemma handshake_receive_fails_witness :
  let msg := Demo.request 0 "add" in
  _handshake (collaborators := Demo2.collaborators)
    (handshake_collaborators := Demo2.handshake_collaborators)
    Demo.client None (Demo.incoming msg Demo.served)
  = (Ok false,
     sent_on Demo.client
       (SendingMessage MSG_CONNECTFAIL 0 0 3
          (list_byte_of_string "'invalid msg type received'")
          (own_annotations (Demo2.connecting msg Demo.served)))
       (Demo2.connecting msg Demo.served))
  ∧ _handshake (collaborators := Demo2.collaborators)
      (handshake_collaborators := Demo2.handshake_collaborators)
      Demo.client None Demo.served
    = (Ok false, Demo.served).
Proof.
  intros msg. split.
  - pose proof (handshake_receive_fails (collaborators := Demo2.collaborators)
                  (handshake_collaborators := Demo2.handshake_collaborators)
                  Demo.client None (new_exc ProtocolError "invalid msg type received")
                  (Demo.incoming msg Demo.served) (Demo2.connecting msg Demo.served))
      as Hrun.
    specialize (Hrun ltac:(by_running)).
    change (isinstance_exc (new_exc ProtocolError "invalid msg type received")
              ConnectionClosedError) with false in Hrun.
    cbv iota in Hrun.
    exact (Hrun Demo2.marshal (list_byte_of_string "'invalid msg type received'") false
             eq_refl ltac:(by_running)).
  - pose proof (handshake_receive_fails (collaborators := Demo2.collaborators)
                  (handshake_collaborators := Demo2.handshake_collaborators)
                  Demo.client None
                  (new_exc ConnectionClosedError "receiving: connection lost")
                  Demo.served Demo.served) as Hrun.
    specialize (Hrun ltac:(by_running)).
    change (isinstance_exc (new_exc ConnectionClosedError "receiving: connection lost")
              ConnectionClosedError) with true in Hrun.
    exact Hrun.
Defined.

(** What the successful handshake of [hi] tells. *)
Lemma handshake_succeeds_only_when_accepted_witness :
  let msg := Demo2.connect 1 "hi" in
  let w := Demo.incoming msg Demo.served in
  let w' := Demo.after (_handshake (collaborators := Demo2.collaborators)
                          (handshake_collaborators := Demo2.handshake_collaborators)
                          Demo.client None) w in
  ∃ msg ser data greeting w2 response w3 reply,
    greeted (collaborators := Demo2.collaborators)
      (handshake_collaborators := Demo2.handshake_collaborators)
      Demo.client None msg ser data greeting w w2
    ∧ validateHandshake (HandshakeCollaborators := Demo2.handshake_collaborators)
        Demo.client greeting w2 = (Ok response, w3)
    ∧ last (conn_sent (connection_at w' Demo.client)) = Some reply
    ∧ msg_type_of reply = MSG_CONNECTOK
    ∧ msg_seq reply = msg_seq msg
    ∧ msg_serializer_id reply = msg_serializer_id msg.
Proof.
  intros msg w w'.
  apply (handshake_succeeds_only_when_accepted (collaborators := Demo2.collaborators)
           (handshake_collaborators := Demo2.handshake_collaborators)
           Demo.client None w w').
  by_running.
Defined.
